(** * IoT dashboard backend: MQTT-to-WebSocket bridge, in-memory store, topic ids

    A shallow embedding of the JavaScript sources

      - [src/utils/topicIdGenerator.js]   (module [TopicIdGenerator])
      - [src/routes/dashboard.js]         (module [DashboardRoutes])
      - [src/routes/auth.js]              (module [AuthRoutes])
      - [src/services/mqttService.js]     (module [MQTTService])
      - [src/services/wsService.js]       (module [WSService])

    together with the properties the specification states about them.

    Conventions.  JavaScript values that reach the code through [JSON.parse]
    or a request body are values of type [json]; [undefined] is [None] in
    [option json].  A JavaScript [Map] keyed by strings is a [gmap string _];
    a JavaScript [Set], whose iteration order and size the code observes, is a
    duplicate-free list in insertion order.  The listeners, whose bodies
    sit in [try]/[catch], are written in a small monad of state and
    exceptions ([M]); the route handlers, whose [catch] answers 500, are
    written as functions from the store to a response and a store.  The
    host's clock, its random bytes and the library functions [JSON.parse],
    [JSON.stringify], [String.prototype.toLowerCase] and Joi's
    [schema.validate] are parameters. *)

From Stdlib Require Import ZArith NArith List Ascii String Bool Lia PrimFloat Uint63.
From stdpp Require Import base option list strings gmap fin_maps.

Local Open Scope string_scope.
Local Open Scope list_scope.
Set Warnings "-register-all".


(* ===================================================================== *)
(** * JavaScript values                                                   *)
(* ===================================================================== *)

Module JS.

(** The values [JSON.parse] can produce, which are also the values a
    request body and the stored objects are made of.  A number is an IEEE 754
    double; an object is a finite map from property names to values (the
    order of its properties is not observed by the modelled code). *)
Inductive json : Type :=
| JNull
| JBool (b : bool)
| JNumber (x : float)
| JString (s : string)
| JArray (xs : list json)
| JObject (members : gmap string json).

(** A JavaScript object with data properties only. *)
Abbreviation obj := (gmap string json).

(** A possibly [undefined] value. *)
Definition jsval : Type := option json.
Definition undefined : jsval := None.

(** [ToBoolean]: the falsy values are [undefined], [null], [false], [+0],
    [-0], [NaN] and the empty string. *)
Definition truthy (v : jsval) : bool :=
  match v with
  | None => false
  | Some JNull => false
  | Some (JBool b) => b
  | Some (JNumber x) => negb (PrimFloat.eqb x PrimFloat.zero || PrimFloat.is_nan x)
  | Some (JString s) => negb (String.eqb s "")
  | Some (JArray _) => true
  | Some (JObject _) => true
  end.

(** [v === null] *)
Definition is_null (v : json) : bool :=
  match v with
  | JNull => true
  | _ => false
  end.

(** [a || b] on values. *)
Definition js_or (a b : jsval) : jsval := if truthy a then a else b.

(** Strict equality [===].  Arrays and objects compare by reference; every
    array or object the modelled code compares was freshly built by a
    separate [JSON.parse] or literal, so such a comparison is [false]. *)
Definition strict_eq (a b : jsval) : bool :=
  match a, b with
  | None, None => true
  | Some JNull, Some JNull => true
  | Some (JBool x), Some (JBool y) => Bool.eqb x y
  | Some (JNumber x), Some (JNumber y) => PrimFloat.eqb x y
  | Some (JString x), Some (JString y) => String.eqb x y
  | _, _ => false
  end.

(** [SameValueZero], the comparison of [Set] and [Map] keys: as [===], but
    [NaN] equals [NaN]. *)
Definition same_value_zero (a b : json) : bool :=
  match a, b with
  | JNumber x, JNumber y =>
      PrimFloat.eqb x y || (PrimFloat.is_nan x && PrimFloat.is_nan y)
  | _, _ => strict_eq (Some a) (Some b)
  end.

(** [{ ...v }]: the own properties of an object; [null] and the primitives
    contribute none.  (Arrays and strings, whose indices would be spread, are
    never spread by the modelled code.) *)
Definition members (v : json) : obj :=
  match v with
  | JObject m => m
  | _ => ∅
  end.

(** [{ ...a, ...b }] *)
Definition spread (a b : obj) : obj := b ∪ a.

(** [{ ..., k: v }] where [v] may be [undefined]: [JSON.stringify] and the
    truthiness tests of the modelled code do not tell an absent property
    from an [undefined] one. *)
Definition set_prop (k : string) (v : jsval) (o : obj) : obj :=
  match v with
  | Some x => <[k := x]> o
  | None => delete k o
  end.

(** [Number(n)] for a length or a count. *)
Definition number_of_nat (n : nat) : float :=
  PrimFloat.of_uint63 (Uint63.of_Z (Z.of_nat n)).

(** ** Exceptions and mutable state

    A computation over a mutable state [S] either returns or throws, and the
    state it leaves behind survives a [throw], so that [try]/[catch] sees
    the mutations made before the exception. *)

Inductive exn : Type :=
| SyntaxError | TypeError | SendError.

Inductive outcome (A : Type) : Type :=
| Return (a : A)
| Throw (e : exn).
Arguments Return {A} a.
Arguments Throw {A} e.

Definition M (S A : Type) : Type := S -> outcome A * S.

Definition ret {S A} (a : A) : M S A := fun s => (Return a, s).

Definition throw {S A} (e : exn) : M S A := fun s => (Throw e, s).

Definition bind {S A B} (m : M S A) (k : A -> M S B) : M S B :=
  fun s =>
    match m s with
    | (Return a, s') => k a s'
    | (Throw e, s') => (Throw e, s')
    end.

Definition get {S} : M S S := fun s => (Return s, s).

Definition modify {S} (f : S -> S) : M S unit := fun s => (Return tt, f s).

Definition try_catch {S A} (body : M S A) (handler : exn -> M S A) : M S A :=
  fun s =>
    match body s with
    | (Return a, s') => (Return a, s')
    | (Throw e, s') => handler e s'
    end.

(** [collection.forEach(body)]: the body runs on every element in order; an
    exception that escapes the body ends the iteration. *)
Fixpoint for_each {S} (body : M S unit) (l : list S) : outcome unit * list S :=
  match l with
  | [] => (Return tt, [])
  | x :: rest =>
      match body x with
      | (Return _, x') =>
          let '(o, rest') := for_each body rest in (o, x' :: rest')
      | (Throw e, x') => (Throw e, x' :: rest)
      end
  end.

(** [const { k } = v] and [v.k] for a name [k] that no prototype defines:
    [null] cannot be destructured, primitives and arrays have no such
    property, an object yields its own member. *)
Definition get_prop {S} (v : json) (k : string) : M S jsval :=
  match v with
  | JNull => throw TypeError
  | JObject m => ret (m !! k)
  | _ => ret None
  end.

(** ** [Set] as an insertion-ordered list *)

Definition set_has (x : json) (s : list json) : bool :=
  existsb (same_value_zero x) s.

Definition set_add (x : json) (s : list json) : list json :=
  if set_has x s then s else s ++ [x].

Definition set_delete (x : json) (s : list json) : list json :=
  List.filter (fun y => negb (same_value_zero x y)) s.

Definition set_size (s : list json) : nat := length s.

(** [new Set(iterable)] *)
Definition set_of_list (xs : list json) : list json :=
  fold_left (fun s x => set_add x s) xs [].

End JS.

Export JS.

Notation "x <- m ;; k" := (bind m (fun x => k))
  (at level 100, m at next level, right associativity).
Notation "m ;;; k" := (bind m (fun _ => k))
  (at level 100, right associativity).

(* ===================================================================== *)
(** * src/utils/topicIdGenerator.js                                       *)
(* ===================================================================== *)

Module TopicIdGenerator.

(** ** Strings of digits *)

Definition digit_char (d : N) : ascii := ascii_of_N (48 + d).

Definition is_digit (c : ascii) : bool :=
  ((48 <=? N_of_ascii c) && (N_of_ascii c <=? 57))%N.

Fixpoint all_digits (s : string) : bool :=
  match s with
  | EmptyString => true
  | String c rest => is_digit c && all_digits rest
  end.

Fixpoint decimal (fuel : nat) (n : N) : string :=
  match fuel with
  | O => ""
  | S fuel' =>
      if (n <? 10)%N then String (digit_char n) ""
      else decimal fuel' (n / 10)%N +:+ String (digit_char (n mod 10)%N) ""
  end.

(** [Number.prototype.toString] on a non-negative integer. *)
Definition toString (n : N) : string :=
  decimal (S (N.to_nat (N.log2 n))) n.

(** [s.substring(0, n)] and [s.slice(0, n)] for [0 <= n]. *)
Definition prefix (n : nat) (s : string) : string := String.substring 0 n s.

Fixpoint repeat_char (c : ascii) (n : nat) : string :=
  match n with
  | O => ""
  | S n' => String c (repeat_char c n')
  end.

(** [s.padStart(n, '0')] *)
Definition padStart0 (n : nat) (s : string) : string :=
  repeat_char "0"%char (n - String.length s) +:+ s.

(** ** The host: its clock and its source of random bytes *)

(** [now_at k] is the value of the [k]-th call of [Date.now()], in
    milliseconds since the epoch; [byte_at k] is the [k]-th byte that
    [crypto.randomBytes] yields (taken modulo 256). *)
Record host : Type := {
  now_at : nat -> N;
  byte_at : nat -> N;
}.

(** The module's state: the [usedIds] set in insertion order, and how much
    of the host's clock readings and random bytes were consumed. *)
Record state : Type := {
  usedIds : list string;
  clock : nat;
  cursor : nat;
}.

Definition initial : state := {| usedIds := []; clock := 0; cursor := 0 |}.

Definition usedIds_has (id : string) (ids : list string) : bool :=
  existsb (String.eqb id) ids.

Definition usedIds_add (id : string) (ids : list string) : list string :=
  if usedIds_has id ids then ids else ids ++ [id].

Section Host.

Variable w : host.

Definition random_byte (p : nat) : Z := Z.of_N (byte_at w p mod 256).

(** [x << 8] on a 32-bit integer. *)
Definition to_int32 (x : Z) : Z := ((x + 2 ^ 31) mod 2 ^ 32 - 2 ^ 31)%Z.
Definition shl8 (x : Z) : Z := to_int32 (Z.shiftl x 8).

(** [for (i...) randomValue = (randomValue << 8) + randomBytes[i]] *)
Fixpoint read_value (bytesNeeded : nat) (p : nat) (randomValue : Z) : Z :=
  match bytesNeeded with
  | O => randomValue
  | S k => read_value k (S p) (shl8 randomValue + random_byte p)
  end.

(** [Math.ceil(Math.log2(range) / 8)]: the least [k] with
    [range <= 256 ^ k]. *)
Definition bytesNeeded (range : Z) : nat :=
  Z.to_nat ((Z.log2_up range + 7) / 8).

Definition maxValidValue (range : Z) : Z :=
  (256 ^ Z.of_nat (bytesNeeded range) / range * range - 1)%Z.

(** [secureRandom(min, max)], started at byte [p]: the value and the next
    unread byte.  [fuel] bounds the number of rejected samples. *)
Fixpoint secureRandom (fuel : nat) (min max : Z) (p : nat) : option (Z * nat) :=
  match fuel with
  | O => None
  | S fuel' =>
      let range := (max - min + 1)%Z in
      let randomValue := read_value (bytesNeeded range) p 0 in
      let p' := (p + bytesNeeded range)%nat in
      if (randomValue >? maxValidValue range)%Z
      then secureRandom fuel' min max p'
      else Some ((min + Z.rem randomValue range)%Z, p')
  end.

Definition maxAttempts : nat := 1000.

(** One run of the body of the [do ... while] loop: the candidate, the
    incremented [attempts] and the consumed clock readings and bytes.  (The
    two random numbers lie in [10..99] and [1000..9999], so [Z.to_N] loses
    nothing.) *)
Definition candidate (fuel : nat) (attempts : nat) (st : state)
    : option (string * nat * state) :=
  let timestamp := toString (now_at w (clock st)) in
  match secureRandom fuel 10 99 (cursor st) with
  | None => None
  | Some (r, p1) =>
      let randomDigits := toString (Z.to_N r) in
      let topicId := timestamp +:+ randomDigits in
      let attempts := S attempts in
      if (100 <? attempts)%nat then
        match secureRandom fuel 1000 9999 p1 with
        | None => None
        | Some (e, p2) =>
            let extraRandom := toString (Z.to_N e) in
            Some (prefix 11 timestamp +:+ extraRandom, attempts,
                  {| usedIds := usedIds st; clock := S (clock st); cursor := p2 |})
        end
      else
        Some (topicId, attempts,
              {| usedIds := usedIds st; clock := S (clock st); cursor := p1 |})
  end.

(** The [do ... while (usedIds.has(topicId) && attempts < maxAttempts)]
    loop; [n] bounds the iterations still possible. *)
Fixpoint attempt_loop (fuel : nat) (n : nat) (attempts : nat) (st : state)
    : option (string * state) :=
  match candidate fuel attempts st with
  | None => None
  | Some (topicId, attempts, st) =>
      if usedIds_has topicId (usedIds st) && (attempts <? maxAttempts)%nat
      then match n with
           | S n' => attempt_loop fuel n' attempts st
           | O => Some (topicId, st)
           end
      else Some (topicId, st)
  end.

Definition hex_char (v : N) : ascii :=
  if (v <? 10)%N then ascii_of_N (48 + v) else ascii_of_N (87 + v).

(** [randomBytes.toString('hex')] for the [k] bytes from [p] on. *)
Fixpoint hex_of_bytes (k : nat) (p : nat) : string :=
  match k with
  | O => ""
  | S k' =>
      let b := (byte_at w p mod 256)%N in
      String (hex_char (b / 16)) (String (hex_char (b mod 16)) (hex_of_bytes k' (S p)))
  end.

(** [parseInt(char, 16)] on a hexadecimal letter. *)
Definition parseInt16 (c : ascii) : N := (N_of_ascii c - 87)%N.

Definition is_hex_letter (c : ascii) : bool :=
  ((97 <=? N_of_ascii c) && (N_of_ascii c <=? 102))%N.

(** [hex.replace(/[a-f]/g, (char) => (parseInt(char, 16) + 1).toString())] *)
Fixpoint replace_hex_letters (s : string) : string :=
  match s with
  | EmptyString => ""
  | String c rest =>
      (if is_hex_letter c then toString (parseInt16 c + 1) else String c "")
      +:+ replace_hex_letters rest
  end.

(** A string of decimal digits and the letters [a] to [f]. *)
Fixpoint all_hex (s : string) : bool :=
  match s with
  | EmptyString => true
  | String c rest => (is_digit c || is_hex_letter c) && all_hex rest
  end.

(** The fallback taken when the loop ends on a used identifier. *)
Definition crypto_fallback (st : state) : string * state :=
  let randomHex := hex_of_bytes 8 (cursor st) in
  (prefix 15 (replace_hex_letters randomHex),
   {| usedIds := usedIds st; clock := clock st; cursor := cursor st + 8 |}).

(** [if (length > 15) substring(0, 15) else if (length < 15) padStart(15, '0')] *)
Definition fix_length (topicId : string) : string :=
  if (15 <? String.length topicId)%nat then prefix 15 topicId
  else if (String.length topicId <? 15)%nat then padStart0 15 topicId
  else topicId.

(** The pruning of [usedIds] once it holds more than 10000 entries. *)
Definition prune (ids : list string) : list string :=
  if (10000 <? Z.of_nat (length ids))%Z then
    let cutoff := Z.to_nat (Z.of_nat (length ids) - 5000) in
    fold_left (fun s id => usedIds_add id s) (skipn cutoff ids) []
  else ids.

(** [generateTopicId()] *)
Definition generateTopicId (fuel : nat) (st : state) : option (string * state) :=
  match attempt_loop fuel maxAttempts 0 st with
  | None => None
  | Some (topicId, st) =>
      let '(topicId, st) :=
        if usedIds_has topicId (usedIds st) then crypto_fallback st
        else (topicId, st) in
      let topicId := fix_length topicId in
      Some (topicId,
            {| usedIds := prune (usedIds_add topicId (usedIds st));
               clock := clock st; cursor := cursor st |})
  end.

(** Every rejection loop of [secureRandom] on this host ends. *)
Definition sampling_terminates : Prop :=
  forall p,
    (exists fuel, is_Some (secureRandom fuel 10 99 p))
    /\ (exists fuel, is_Some (secureRandom fuel 1000 9999 p)).

End Host.

(** [validateTopicId(topicId)]: the test of [/^\d{15}$/]. *)
Definition validateTopicId (topicId : string) : bool :=
  (String.length topicId =? 15)%nat && all_digits topicId.

(** [getTopicIdStats()] *)
Definition getTopicIdStats (st : state) : Z * Z * bool :=
  let size := Z.of_nat (length (usedIds st)) in
  (size, size * 15, size <? 10000)%Z.

End TopicIdGenerator.

(* ===================================================================== *)
(** * Request validation: the Joi schemas, as data                        *)
(* ===================================================================== *)

Module Joi.

(** The schemas the routes build.  [string_ n] is [Joi.string()], with
    [.min(n)] when [0 < n] (also used for [.email()], whose address grammar
    is Joi's own); in an object schema every key comes with its schema and
    whether it is [.required()]. *)
Inductive schema : Type :=
| string_ (min : nat)
| number_
| boolean_
| array_ (items : option schema)
| object_ (keys : option (list (string * (schema * bool)))).

(** What a schema guarantees of the value that [schema.validate] returns
    without an error: the types named by the schema, non-empty strings,
    every required key, and no key the schema does not name. *)
Fixpoint conforms (sch : schema) (v : json) {struct sch} : bool :=
  match sch with
  | string_ min =>
      match v with
      | JString s => negb (String.eqb s "") && (min <=? String.length s)%nat
      | _ => false
      end
  | number_ => match v with JNumber _ => true | _ => false end
  | boolean_ => match v with JBool _ => true | _ => false end
  | array_ items =>
      match v with
      | JArray xs =>
          match items with
          | None => true
          | Some item => forallb (conforms item) xs
          end
      | _ => false
      end
  | object_ keys =>
      match v with
      | JObject m =>
          match keys with
          | None => true
          | Some ks =>
              (fix each (ks : list (string * (schema * bool))) : bool :=
                 match ks with
                 | [] => true
                 | (k, (s, required)) :: rest =>
                     match m !! k with
                     | Some x => conforms s x
                     | None => negb required
                     end && each rest
                 end) ks
              && bool_decide (dom m ⊆ list_to_set (map fst ks))
          end
      | _ => false
      end
  end.

(** [schema.validate(body)] without coercions: the body itself when it
    conforms.  One of the validators the routes may run with. *)
Definition validate_strict (sch : schema) (body : json) : string + json :=
  if conforms sch body then inr body else inl "validation error".

End Joi.

(* ===================================================================== *)
(** * src/config/database.js: the in-memory store                         *)
(* ===================================================================== *)

Module Storage.

(** A stored reset token; [expiry] is the [Date] in milliseconds since the
    epoch, [usedAt] is absent until the token is used. *)
Record TokenData : Type := {
  email : string;
  expiry : Z;
  used : bool;
  createdAt : string;
  ip : string;
  usedAt : option string;
}.

Record storage : Type := {
  resetTokens : gmap string TokenData;
  dashboards : gmap string obj;
  sharedDashboards : gmap string obj;
  sessions : gmap string json;
  devices : gmap string json;
}.

Definition empty : storage :=
  {| resetTokens := ∅; dashboards := ∅; sharedDashboards := ∅;
     sessions := ∅; devices := ∅ |}.

(** [clearStorage()] *)
Definition clearStorage (s : storage) : storage := empty.

Definition with_resetTokens (s : storage) (m : gmap string TokenData) : storage :=
  {| resetTokens := m; dashboards := dashboards s;
     sharedDashboards := sharedDashboards s;
     sessions := sessions s; devices := devices s |}.

Definition with_dashboards (s : storage) (m : gmap string obj) : storage :=
  {| resetTokens := resetTokens s; dashboards := m;
     sharedDashboards := sharedDashboards s;
     sessions := sessions s; devices := devices s |}.

Definition with_sharedDashboards (s : storage) (m : gmap string obj) : storage :=
  {| resetTokens := resetTokens s; dashboards := dashboards s;
     sharedDashboards := m;
     sessions := sessions s; devices := devices s |}.

(** [res.status(status).json(body)] *)
Record response : Type := {
  status : Z;
  body : obj;
}.

Definition failure (code : Z) (message : string) : response :=
  {| status := code;
     body := <["success" := JBool false]> {["error" := JString message]} |}.

(** [map.delete(key)] for a key that may be any value: the keys of the
    store's maps are strings, so any other key deletes nothing. *)
Definition delete_key {V} (key : jsval) (m : gmap string V) : gmap string V :=
  match key with
  | Some (JString k) => delete k m
  | _ => m
  end.

(** [map.get(key)], likewise. *)
Definition get_key {V} (key : jsval) (m : gmap string V) : option V :=
  match key with
  | Some (JString k) => m !! k
  | _ => None
  end.

End Storage.

(* ===================================================================== *)
(** * src/routes/dashboard.js                                             *)
(* ===================================================================== *)

Module DashboardRoutes.

Import Joi Storage.

Definition widgetSchema : schema :=
  object_ (Some
    [("id", (string_ 0, true)); ("type", (string_ 0, true));
     ("title", (string_ 0, false));
     ("x", (number_, true)); ("y", (number_, true));
     ("w", (number_, true)); ("h", (number_, true));
     ("data", (object_ None, false)); ("config", (object_ None, false))]).

Definition saveDashboardSchema : schema :=
  object_ (Some
    [("id", (string_ 0, false)); ("name", (string_ 0, true));
     ("widgets", (array_ (Some widgetSchema), true));
     ("layout", (object_ None, false));
     ("deviceCount", (number_, false)); ("stats", (object_ None, false))]).

Definition publishDashboardSchema : schema :=
  object_ (Some
    [("id", (string_ 0, true)); ("name", (string_ 0, true));
     ("widgets", (array_ None, true));
     ("layout", (object_ None, false)); ("layouts", (object_ None, false));
     ("deviceCount", (number_, false)); ("stats", (object_ None, false));
     ("isPublished", (boolean_, false));
     ("shareableLink", (string_ 0, false));
     ("sharePassword", (string_ 0, false));
     ("shareableId", (string_ 0, false))]).

(** The state the routes work on: the store and the topic id generator.
    No route changes a stored object in place: each builds a new object and
    hands it to [Map.prototype.set] (the snapshot of a publish shares its
    [widgets] array with the published dashboard, but no route writes into
    an array), so stored objects are modelled as values. *)
Record app : Type := {
  store : storage;
  topicIds : TopicIdGenerator.state;
}.

Definition initial : app :=
  {| store := Storage.empty; topicIds := TopicIdGenerator.initial |}.

Definition with_store (a : app) (s : storage) : app :=
  {| store := s; topicIds := topicIds a |}.

(** [v.length]: [None] is the [TypeError] of reading a property of
    [undefined] or [null]. *)
Definition length_of (v : jsval) : option jsval :=
  match v with
  | None | Some JNull => None
  | Some (JArray xs) => Some (Some (JNumber (number_of_nat (length xs))))
  | Some (JString s) => Some (Some (JNumber (number_of_nat (String.length s))))
  | Some _ => Some None
  end.

(** [req.user?.id || 'anonymous'] *)
Definition userId_of (user_id : jsval) : json :=
  match js_or user_id (Some (JString "anonymous")) with
  | Some v => v
  | None => JString "anonymous"
  end.

(** The summary of a dashboard in the responses of save and update. *)
Definition summary (d : obj) (widgetCount : jsval) : json :=
  JObject (set_prop "id" (d !! "id")
          (set_prop "name" (d !! "name")
          (set_prop "widgetCount" widgetCount
          (set_prop "createdAt" (d !! "createdAt")
          (set_prop "updatedAt" (d !! "updatedAt") ∅))))).

Section Routes.

(** [schema.validate(req.body)]: Joi's error message or the validated value. *)
Variable validate : schema -> json -> string + json.

(** The host of the topic id generator and the bound on rejected samples. *)
Variable w : TopicIdGenerator.host.
Variable fuel : nat.

(** [POST /save]; [createdAt] and [updatedAt] are the two readings of
    [new Date().toISOString()].  [None]: the topic id generator did not
    return within [fuel]. *)
Definition save (user_id : jsval) (body : json) (createdAt updatedAt : string)
    (a : app) : option (response * app) :=
  if is_null body then
      Some (failure 500 "An unexpected error occurred while saving the dashboard", a)
  else
  match validate saveDashboardSchema body with
  | inl message => Some (failure 400 message, a)
  | inr value =>
      let dashboardData := members value in
      let userId := userId_of user_id in
      let generated :=
        if negb (truthy (dashboardData !! "id")) then
          TopicIdGenerator.generateTopicId w fuel (topicIds a)
        else
          match dashboardData !! "id" with
          | Some (JString id) =>
              if TopicIdGenerator.validateTopicId id then Some (id, topicIds a)
              else TopicIdGenerator.generateTopicId w fuel (topicIds a)
          | _ =>
              (* a truthy id that is not a string never passes the schema *)
              TopicIdGenerator.generateTopicId w fuel (topicIds a)
          end in
      match generated with
      | None => None
      | Some (id, ids) =>
          let dashboardData := <["id" := JString id]> dashboardData in
          let dashboard :=
            <["isPublished" := JBool false]>
            (<["updatedAt" := JString updatedAt]>
            (<["createdAt" := JString createdAt]>
            (<["userId" := userId]> dashboardData))) in
          let a :=
            {| store := with_dashboards (store a)
                          (<[id := dashboard]> (dashboards (store a)));
               topicIds := ids |} in
          match length_of (dashboard !! "widgets") with
          | None =>
              Some (failure 500 "An unexpected error occurred while saving the dashboard", a)
          | Some widgetCount =>
              Some ({| status := 200;
                       body := <["success" := JBool true]>
                               (<["message" := JString "Dashboard saved successfully"]>
                                {["dashboard" := summary dashboard widgetCount]}) |},
                    a)
          end
      end
  end.

(** [PUT /update/:id] *)
Definition update (dashboardId : string) (user_id : jsval) (body : json)
    (updatedAt : string) (a : app) : response * app :=
  if is_null body then
      (failure 500 "An unexpected error occurred while updating the dashboard", a)
  else
  let userId := userId_of user_id in
  match validate saveDashboardSchema body with
  | inl message => (failure 400 message, a)
  | inr value =>
      match dashboards (store a) !! dashboardId with
      | None => (failure 404 "Dashboard not found", a)
      | Some existingDashboard =>
          if negb (strict_eq (existingDashboard !! "userId") (Some userId)) then
            (failure 403 "Unauthorized to update this dashboard", a)
          else
            let updatedDashboard :=
              <["updatedAt" := JString updatedAt]>
              (<["userId" := userId]>
              (<["id" := JString dashboardId]>
              (spread existingDashboard (members value)))) in
            let a := with_store a (with_dashboards (store a)
                       (<[dashboardId := updatedDashboard]> (dashboards (store a)))) in
            match length_of (updatedDashboard !! "widgets") with
            | None =>
                (failure 500 "An unexpected error occurred while updating the dashboard", a)
            | Some widgetCount =>
                ({| status := 200;
                    body := <["success" := JBool true]>
                            (<["message" := JString "Dashboard updated successfully"]>
                             {["dashboard" := summary updatedDashboard widgetCount]}) |},
                 a)
            end
      end
  end.

(** What [POST /publish] takes from its environment: [Date.now()], the two
    strings derived from [Math.random()], [process.env.FRONTEND_URL], and
    the two readings of [new Date().toISOString()]. *)
Record publish_env : Type := {
  now_ms : N;
  random_id : string;
  random_password : string;
  FRONTEND_URL : jsval;
  publishedAt : string;
  updatedAt : string;
}.

Definition shareableId_of (e : publish_env) : string :=
  "shared-" +:+ TopicIdGenerator.toString (now_ms e) +:+ "-" +:+ random_id e.

Definition shareableLink_of (e : publish_env) : string :=
  match js_or (FRONTEND_URL e) (Some (JString "http://localhost:3000")) with
  | Some (JString base) => base
  | _ => "http://localhost:3000"
  end +:+ "/shared/" +:+ shareableId_of e.

(** The snapshot stored for public access. *)
Definition sharedDashboardData (e : publish_env) (publishedDashboard : obj)
    (id : jsval) : obj :=
  let widgets := js_or (publishedDashboard !! "widgets") (Some (JArray [])) in
  set_prop "panelId" (Some (JString (shareableId_of e)))
  (set_prop "widgets" widgets
  (set_prop "layouts"
     (js_or (publishedDashboard !! "layout") (Some (JObject ∅)))
  (set_prop "title"
     (js_or (publishedDashboard !! "name") (Some (JString "Shared Dashboard")))
  (set_prop "stats"
     (js_or (publishedDashboard !! "stats")
        (Some (JObject
           (set_prop "totalWidgets"
              (match length_of widgets with Some n => n | None => None end)
              {["gridUtilization" := JNumber PrimFloat.zero]}))))
  (set_prop "sharePassword" (Some (JString (random_password e)))
  (set_prop "publishedAt" (publishedDashboard !! "publishedAt")
  (set_prop "isShared" (Some (JBool true))
  (set_prop "originalDashboardId" id ∅)))))))).

(** [{ ...value, layout: value.layout || value.layouts || {} }] *)
Definition dashboardData_of (value : json) : obj :=
  set_prop "layout"
    (js_or (js_or (members value !! "layout") (members value !! "layouts"))
           (Some (JObject ∅)))
    (members value).

(** The dashboard with its publish data. *)
Definition publishedDashboard_of (e : publish_env)
    (existingDashboard dashboardData : obj) : obj :=
  <["updatedAt" := JString (updatedAt e)]>
  (<["shareableId" := JString (shareableId_of e)]>
  (<["sharePassword" := JString (random_password e)]>
  (<["shareableLink" := JString (shareableLink_of e)]>
  (<["publishedAt" := JString (publishedAt e)]>
  (<["isPublished" := JBool true]>
  (spread existingDashboard dashboardData)))))).

(** The two [set] calls of a publish. *)
Definition store_published (e : publish_env)
    (existingDashboard dashboardData : obj) (s : storage) : storage :=
  let publishedDashboard :=
    publishedDashboard_of e existingDashboard dashboardData in
  let dashboards' :=
    match dashboardData !! "id" with
    | Some (JString id) => <[id := publishedDashboard]> (dashboards s)
    | _ => dashboards s
    end in
  with_sharedDashboards (with_dashboards s dashboards')
    (<[shareableId_of e :=
         sharedDashboardData e publishedDashboard (dashboardData !! "id")]>
       (sharedDashboards s)).

Definition publish_response (e : publish_env) (publishedDashboard : obj)
    : response :=
  {| status := 200;
     body := <["success" := JBool true]>
             (<["message" := JString "Dashboard published successfully"]>
              {["dashboard" := JObject
                 (set_prop "id" (publishedDashboard !! "id")
                 (set_prop "name" (publishedDashboard !! "name")
                 (<["isPublished" := JBool true]>
                 (<["publishedAt" := JString (publishedAt e)]>
                 (<["shareableLink" := JString (shareableLink_of e)]>
                 (<["sharePassword" := JString (random_password e)]>
                  {["shareableId" := JString (shareableId_of e)]}))))))]}) |}.

(** [POST /publish] *)
Definition publish (user_id : jsval) (body : json) (e : publish_env) (a : app)
    : response * app :=
  if is_null body then
      (failure 500 "An unexpected error occurred while publishing the dashboard", a)
  else
  match validate publishDashboardSchema body with
  | inl message => (failure 400 message, a)
  | inr value =>
      (* Normalize layouts -> layout for backend consistency *)
      let dashboardData := dashboardData_of value in
      let userId := userId_of user_id in
      match get_key (dashboardData !! "id") (dashboards (store a)) with
      | None => (failure 404 "Dashboard not found", a)
      | Some existingDashboard =>
          if negb (strict_eq (existingDashboard !! "userId") (Some userId)) then
            (failure 403 "Unauthorized to publish this dashboard", a)
          else
            let publishedDashboard :=
              publishedDashboard_of e existingDashboard dashboardData in
            let a := with_store a
              (store_published e existingDashboard dashboardData (store a)) in
            match length_of (publishedDashboard !! "widgets") with
            | None =>
                (failure 500 "An unexpected error occurred while publishing the dashboard", a)
            | Some _ => (publish_response e publishedDashboard, a)
            end
      end
  end.

(** [GET /shared/:shareableId]; [password] is [req.query.password]. *)
Definition get_shared (shareableId : string) (password : jsval) (a : app)
    : response :=
  match sharedDashboards (store a) !! shareableId with
  | None => failure 404 "Shared dashboard not found"
  | Some sharedDashboard =>
      (* Check password if provided *)
      if truthy password
         && negb (strict_eq password (sharedDashboard !! "sharePassword"))
      then failure 401 "Invalid access password"
      else {| status := 200;
              body := <["success" := JBool true]>
                      {["dashboard" := JObject sharedDashboard]} |}
  end.

(** [DELETE /:id] *)
Definition delete_dashboard (dashboardId : string) (user_id : jsval) (a : app)
    : response * app :=
  let userId := userId_of user_id in
  match dashboards (store a) !! dashboardId with
  | None => (failure 404 "Dashboard not found", a)
  | Some existingDashboard =>
      if negb (strict_eq (existingDashboard !! "userId") (Some userId)) then
        (failure 403 "Unauthorized to delete this dashboard", a)
      else
        let s := with_dashboards (store a) (delete dashboardId (dashboards (store a))) in
        (* If it was published, also delete shared data *)
        let s :=
          if truthy (existingDashboard !! "isPublished")
             && truthy (existingDashboard !! "shareableId")
          then with_sharedDashboards s
                 (delete_key (existingDashboard !! "shareableId") (sharedDashboards s))
          else s in
        ({| status := 200;
            body := <["success" := JBool true]>
                    {["message" := JString "Dashboard deleted successfully"]} |},
         with_store a s)
  end.

(** The requests that change the store. *)
Inductive request : Type :=
| Save (user_id : jsval) (body : json) (createdAt updatedAt : string)
| Update (dashboardId : string) (user_id : jsval) (body : json) (updatedAt : string)
| Publish (user_id : jsval) (body : json) (e : publish_env)
| Delete (dashboardId : string) (user_id : jsval).

Definition handle (r : request) (a : app) : option (response * app) :=
  match r with
  | Save u b c d => save u b c d a
  | Update i u b d => Some (update i u b d a)
  | Publish u b e => Some (publish u b e a)
  | Delete i u => Some (delete_dashboard i u a)
  end.

(** The states the routes can bring the application to. *)
Inductive reachable : app -> Prop :=
| reachable_initial : reachable initial
| reachable_step (r : request) (a a' : app) (res : response) :
    reachable a -> handle r a = Some (res, a') -> reachable a'.



End Routes.

End DashboardRoutes.

(* ===================================================================== *)
(** * src/routes/auth.js                                                  *)
(* ===================================================================== *)

Module AuthRoutes.

Import Joi Storage.

Definition requestResetSchema : schema :=
  object_ (Some [("email", (string_ 0, true))]).

Definition resetPasswordSchema : schema :=
  object_ (Some
    [("token", (string_ 0, true)); ("email", (string_ 0, true));
     ("newPassword", (string_ 6, true))]).

Definition success (message : string) : response :=
  {| status := 200;
     body := <["success" := JBool true]> {["message" := JString message]} |}.

Definition unexpected : response :=
  failure 500 "An unexpected error occurred. Please try again later.".

Definition already_used : response :=
  failure 400 "Reset token has already been used. Please request a new one.".

(** The outcome of [await sendPasswordResetEmail(...)]. *)
Inductive email_result : Type :=
| Sent
| NotSent
| Rejected.

Section Routes.

Variable validate : schema -> json -> string + json.

(** [String.prototype.toLowerCase] *)
Variable toLowerCase : string -> string.

(** [POST /request-reset], behind its rate limiter; [resetToken] is
    [crypto.randomBytes(32).toString('hex')], [now] is [Date.now()],
    [createdAt] is [new Date().toISOString()], [ip] is [req.ip]. *)
Definition request_reset (body : json) (ip : string) (resetToken : string)
    (now : Z) (createdAt : string) (mail : email_result) (s : storage)
    : response * storage :=
  if is_null body then (unexpected, s)
  else
  match validate requestResetSchema body with
  | inl message => (failure 400 message, s)
  | inr value =>
      match members value !! "email" with
      | Some (JString email) =>
          let normalizedEmail := toLowerCase email in
          let resetExpiry := (now + 24 * 60 * 60 * 1000)%Z in
          let s1 := with_resetTokens s
            (<[resetToken :=
                 {| email := normalizedEmail; expiry := resetExpiry;
                    used := false; createdAt := createdAt; ip := ip;
                    usedAt := None |}]> (resetTokens s)) in
          match mail with
          | Sent =>
              ({| status := 200;
                  body := <["success" := JBool true]>
                          (<["message" := JString
                               "Password reset email sent successfully. Please check your inbox."]>
                           {["email" := JString normalizedEmail]}) |}, s1)
          | NotSent =>
              (* Clean up token if email failed *)
              (failure 500 "Failed to send password reset email. Please try again later.",
               with_resetTokens s1 (delete resetToken (resetTokens s1)))
          | Rejected => (unexpected, s1)
          end
      | _ => (unexpected, s)
      end
  end.

(** [POST /reset-password]; [now] is the time of [new Date()] in
    milliseconds, [usedAt] is [new Date().toISOString()]. *)
Definition reset_password (body : json) (now : Z) (usedAt : string)
    (s : storage) : response * storage :=
  if is_null body then (unexpected, s)
  else
  match validate resetPasswordSchema body with
  | inl message => (failure 400 message, s)
  | inr value =>
      let token := members value !! "token" in
      match members value !! "email" with
      | Some (JString email) =>
          let normalizedEmail := toLowerCase email in
          (* Check if token exists and is valid *)
          match get_key token (resetTokens s) with
          | None => (failure 400 "Invalid or expired reset token", s)
          | Some tokenData =>
              (* Check if token is expired *)
              if (now >? expiry tokenData)%Z then
                (failure 400 "Reset token has expired. Please request a new one.",
                 with_resetTokens s (delete_key token (resetTokens s)))
              (* Check if token is already used *)
              else if used tokenData then (already_used, s)
              (* Check if email matches *)
              else if negb (String.eqb (Storage.email tokenData) normalizedEmail) then
                (failure 400 "Invalid email for this reset token", s)
              else
                (* Mark token as used *)
                let tokenData :=
                  {| email := Storage.email tokenData; expiry := expiry tokenData;
                     used := true; createdAt := Storage.createdAt tokenData;
                     ip := Storage.ip tokenData; usedAt := Some usedAt |} in
                (success "Password has been reset successfully. You can now log in with your new password.",
                 with_resetTokens s
                   (match token with
                    | Some (JString t) => <[t := tokenData]> (resetTokens s)
                    | _ => resetTokens s
                    end))
          end
      | _ => (unexpected, s)
      end
  end.

(** [GET /validate-reset-token]; [token] and [email] are the query
    parameters. *)
Definition validate_reset_token (token email : jsval) (now : Z) (s : storage)
    : response * storage :=
  if negb (truthy token) || negb (truthy email) then
    (failure 400 "Token and email are required", s)
  else
    match email with
    | Some (JString email) =>
        let normalizedEmail := toLowerCase email in
        match get_key token (resetTokens s) with
        | None => (failure 400 "Invalid reset token", s)
        | Some tokenData =>
            if (now >? expiry tokenData)%Z then
              (failure 400 "Reset token has expired",
               with_resetTokens s (delete_key token (resetTokens s)))
            else if used tokenData then
              (failure 400 "Reset token has already been used", s)
            else if negb (String.eqb (Storage.email tokenData) normalizedEmail) then
              (failure 400 "Invalid email for this reset token", s)
            else (success "Reset token is valid", s)
        end
    | _ => (failure 500 "An unexpected error occurred", s)
    end.

(** A reset attempt: the request body and the clock readings it meets. *)
Record attempt : Type := {
  attempt_body : json;
  attempt_now : Z;
  attempt_usedAt : string;
}.

(** A sequence of reset attempts, served in order: the responses and the
    store they leave. *)
Fixpoint reset_all (attempts : list attempt) (s : storage)
    : list response * storage :=
  match attempts with
  | [] => ([], s)
  | x :: rest =>
      let '(r, s1) :=
        reset_password (attempt_body x) (attempt_now x) (attempt_usedAt x) s in
      let '(rs, s2) := reset_all rest s1 in
      (r :: rs, s2)
  end.

(** A well-formed attempt with the token [t]: validation accepts its body
    and the validated value carries [t]. *)
Definition well_formed_with (t : string) (x : attempt) : Prop :=
  exists value email,
    attempt_body x <> JNull
    /\ validate resetPasswordSchema (attempt_body x) = inr value
    /\ members value !! "token" = Some (JString t)
    /\ members value !! "email" = Some (JString email).

End Routes.

End AuthRoutes.

(* ===================================================================== *)
(** * src/services/mqttService.js: the upstream message client            *)
(* ===================================================================== *)

Module MQTTService.

(** The record built for every inbound broker message. *)
Record MessageRecord : Type := {
  topic : string;
  data : json;
  raw : string;
  receivedAt : string;
}.

(** [getConfigFromEnv()], as far as the service uses its result. *)
Record config : Type := {
  subscribeTopics : list string;
  qos : float;
}.

(** The [mqtt] library's client object, as the service drives it: the
    listeners attached with [once('connect', ...)], each of which is the
    closure [() => this.subscribe(topic, options)], and the calls handed to
    the library. *)
Record Client : Type := {
  once_connect : list (string * json);
  subscribe_calls : list (string * json);
  unsubscribe_calls : list string;
  publish_calls : list (string * string * json);
}.

Definition new_client : Client :=
  {| once_connect := []; subscribe_calls := [];
     unsubscribe_calls := []; publish_calls := [] |}.

Record Service : Type := {
  client : option Client;
  isConnected : bool;
  latestByTopic : gmap string MessageRecord;
  subscriptions : list json;
  emitted : list MessageRecord;
}.

(** [constructor()] *)
Definition initial : Service :=
  {| client := None; isConnected := false; latestByTopic := ∅;
     subscriptions := []; emitted := [] |}.

Definition with_client (s : Service) (c : option Client) : Service :=
  {| client := c; isConnected := isConnected s;
     latestByTopic := latestByTopic s; subscriptions := subscriptions s;
     emitted := emitted s |}.

Definition with_isConnected (s : Service) (b : bool) : Service :=
  {| client := client s; isConnected := b;
     latestByTopic := latestByTopic s; subscriptions := subscriptions s;
     emitted := emitted s |}.

Definition with_subscriptions (s : Service) (l : list json) : Service :=
  {| client := client s; isConnected := isConnected s;
     latestByTopic := latestByTopic s; subscriptions := l;
     emitted := emitted s |}.

Section Service.

Variable JSON_parse : string -> option json.
Variable JSON_stringify : json -> string.
Variable cfg : config.

Definition JSON_parse_m {S} (text : string) : M S json :=
  match JSON_parse text with
  | Some v => ret v
  | None => throw SyntaxError
  end.

(** [connect()]: creates the client once; the listeners it attaches are the
    cases of [handle] below. *)
Definition connect (s : Service) : Service :=
  match client s with
  | Some _ => s
  | None => with_client s (Some new_client)
  end.

(** [subscribe(topic, options)] *)
Definition subscribe (t : string) (options : json) (s : Service) : Service :=
  let s := connect s in
  match client s with
  | None => s
  | Some c =>
      if negb (isConnected s) then
        (* Defer actual subscribe until connected *)
        with_client s (Some
          {| once_connect := once_connect c ++ [(t, options)];
             subscribe_calls := subscribe_calls c;
             unsubscribe_calls := unsubscribe_calls c;
             publish_calls := publish_calls c |})
      else
        with_client s (Some
          {| once_connect := once_connect c;
             subscribe_calls := subscribe_calls c ++ [(t, options)];
             unsubscribe_calls := unsubscribe_calls c;
             publish_calls := publish_calls c |})
  end.

(** The callback [(err, granted) => ...] of [client.subscribe]. *)
Definition subscribe_done (t : string) (err : bool) (s : Service) : Service :=
  if err then s else with_subscriptions s (set_add (JString t) (subscriptions s)).

(** [unsubscribe(topic)] *)
Definition unsubscribe (t : string) (s : Service) : Service :=
  match client s with
  | None => s
  | Some c =>
      if negb (isConnected s) then s
      else
        with_client s (Some
          {| once_connect := once_connect c;
             subscribe_calls := subscribe_calls c;
             unsubscribe_calls := unsubscribe_calls c ++ [t];
             publish_calls := publish_calls c |})
  end.

(** The callback [(err) => ...] of [client.unsubscribe]. *)
Definition unsubscribe_done (t : string) (err : bool) (s : Service) : Service :=
  if err then s else with_subscriptions s (set_delete (JString t) (subscriptions s)).

(** [publish(topic, message, options)]; [message] is a string when
    [typeof message] is not ['object'] (after [String(message)]), a value to
    serialise otherwise. *)
Definition publish (t : string) (message : string + json) (options : json)
    (s : Service) : Service :=
  let s := connect s in
  match client s with
  | None => s
  | Some c =>
      let payload :=
        match message with inl text => text | inr v => JSON_stringify v end in
      with_client s (Some
        {| once_connect := once_connect c;
           subscribe_calls := subscribe_calls c;
           unsubscribe_calls := unsubscribe_calls c;
           publish_calls := publish_calls c ++ [(t, payload, options)] |})
  end.

(** [shutdown()] *)
Definition shutdown (s : Service) : Service :=
  with_isConnected (with_client s None) false.

(** The library emits ['connect']: first the listener attached in
    [connect()], which subscribes to the configured topics, then the
    [once] listeners in the order they were attached; a [once] listener is
    detached when it is invoked. *)
Definition on_connect (s : Service) : Service :=
  match client s with
  | None => s
  | Some c =>
      let pending := once_connect c in
      let s := with_client s (Some
        {| once_connect := [];
           subscribe_calls := subscribe_calls c;
           unsubscribe_calls := unsubscribe_calls c;
           publish_calls := publish_calls c |}) in
      let s := with_isConnected s true in
      let s := fold_left
        (fun s t => subscribe t (JObject {["qos" := JNumber (qos cfg)]}) s)
        (subscribeTopics cfg) s in
      fold_left (fun s p => subscribe (fst p) (snd p) s) pending s
  end.

(** The library emits ['close']. *)
Definition on_close (s : Service) : Service := with_isConnected s false.

(** The library emits ['message'] with [(topic, payload)]; [payload] stands
    for [payload.toString()] and [now] for [new Date().toISOString()]. *)
Definition on_message (t payload now : string) : M Service unit :=
  let messageString := payload in
  d <- try_catch (JSON_parse_m messageString)
                 (fun _ => ret (JString messageString)) ;;
  let record :=
    {| topic := t; data := d; raw := messageString; receivedAt := now |} in
  modify (fun s =>
    {| client := client s; isConnected := isConnected s;
       latestByTopic := <[t := record]> (latestByTopic s);
       subscriptions := subscriptions s;
       emitted := emitted s ++ [record] |}).

(** [getLatest(topic)] *)
Definition getLatest (t : string) (s : Service) : option MessageRecord :=
  latestByTopic s !! t.

(** [getHealth()], without the client id: connectivity, the subscribed
    topics, and the number of topics with a cached record. *)
Definition getHealth (s : Service) : bool * list json * nat :=
  (isConnected s, subscriptions s, size (latestByTopic s)).

(** What can happen to the service: calls of its methods and events of the
    library's client. *)
Inductive action : Type :=
| CallConnect
| CallSubscribe (t : string) (options : json)
| CallUnsubscribe (t : string)
| CallPublish (t : string) (message : string + json) (options : json)
| CallShutdown
| EvConnect
| EvReconnect
| EvClose
| EvError
| EvMessage (t payload now : string)
| EvSubscribeDone (t : string) (err : bool)
| EvUnsubscribeDone (t : string) (err : bool).

Definition handle (a : action) (s : Service) : Service :=
  match a with
  | CallConnect => connect s
  | CallSubscribe t o => subscribe t o s
  | CallUnsubscribe t => unsubscribe t s
  | CallPublish t m o => publish t m o s
  | CallShutdown => shutdown s
  | EvConnect => on_connect s
  | EvReconnect => s
  | EvClose => on_close s
  | EvError => s
  | EvMessage t p now => snd (on_message t p now s)
  | EvSubscribeDone t err => subscribe_done t err s
  | EvUnsubscribeDone t err => unsubscribe_done t err s
  end.

Definition run (trace : list action) (s : Service) : Service :=
  fold_left (fun s a => handle a s) trace s.

(** The subscribe requests of a trace, in order. *)
Definition requested (trace : list action) : list (string * json) :=
  flat_map (fun a => match a with CallSubscribe t o => [(t, o)] | _ => [] end) trace.

(** The deferred subscribe requests waiting for ['connect'], and the
    subscribe requests handed to the library's client so far. *)
Definition pending (s : Service) : list (string * json) :=
  match client s with Some c => once_connect c | None => [] end.

Definition issued (s : Service) : list (string * json) :=
  match client s with Some c => subscribe_calls c | None => [] end.

(** The subscribe requests the ['connect'] listener makes for the configured
    topics. *)
Definition configured : list (string * json) :=
  map (fun t => (t, JObject {["qos" := JNumber (qos cfg)]})) (subscribeTopics cfg).

(** An action that is neither the library's ['connect'] event nor
    [shutdown()]. *)
Definition before_connect (a : action) : bool :=
  match a with
  | EvConnect | CallShutdown => false
  | _ => true
  end.

End Service.

End MQTTService.

(* ===================================================================== *)
(** * src/services/wsService.js: the fan-out server                       *)
(* ===================================================================== *)

Module WSService.

Import MQTTService.

(** A downstream connection: the socket's [readyState], the [subscriptions]
    property the connection handler attaches to it ([undefined] before), and
    the frames accepted by [ws.send]. *)
Record socket : Type := {
  readyState : Z;
  subscriptions : option (list json);
  sent : list string;
}.

Definition OPEN : Z := 1.

(** [this.wss]: [null] until [init], then the server with its [clients]. *)
Record WSService : Type := {
  wss : option (list socket);
}.

Definition with_subscriptions (ws : socket) (subs : list json) : socket :=
  {| readyState := readyState ws; subscriptions := Some subs; sent := sent ws |}.

(** [ws.send(payload)]: the library refuses a socket that is not open. *)
Definition send (payload : string) : M socket unit :=
  fun ws =>
    if (readyState ws =? OPEN)%Z then
      (Return tt,
       {| readyState := readyState ws; subscriptions := subscriptions ws;
          sent := sent ws ++ [payload] |})
    else (Throw SendError, ws).

(** [ws.subscriptions.add(topic)] and [ws.subscriptions.delete(topic)] *)
Definition subscriptions_add (x : json) : M socket unit :=
  fun ws =>
    match subscriptions ws with
    | None => (Throw TypeError, ws)
    | Some subs => (Return tt, with_subscriptions ws (set_add x subs))
    end.

Definition subscriptions_delete (x : json) : M socket unit :=
  fun ws =>
    match subscriptions ws with
    | None => (Throw TypeError, ws)
    | Some subs => (Return tt, with_subscriptions ws (set_delete x subs))
    end.

Section Server.

Variable JSON_parse : string -> option json.
Variable JSON_stringify : json -> string.

(** [init(server)] *)
Definition init (svc : WSService) : WSService :=
  match wss svc with
  | Some _ => svc
  | None => {| wss := Some [] |}
  end.

(** The ['connection'] listener; [topics] is the list computed from the
    [topics] query parameter (split at commas, trimmed, empty items dropped). *)
Definition on_connection (topics : list string) (ws : socket) (svc : WSService)
    : WSService :=
  match wss svc with
  | None => svc
  | Some clients =>
      {| wss := Some (clients ++
           [with_subscriptions ws (set_of_list (map JString topics))]) |}
  end.

(** The socket's ['message'] listener; [msg] stands for [msg.toString()]. *)
Definition on_ws_message (msg : string) : M socket unit :=
  try_catch
    (v <- JSON_parse_m JSON_parse msg ;;
     action <- get_prop v "action" ;;
     topic <- get_prop v "topic" ;;
     (if strict_eq action (Some (JString "subscribe")) && truthy topic
      then match topic with Some x => subscriptions_add x | None => ret tt end
      else ret tt) ;;;
     (if strict_eq action (Some (JString "unsubscribe")) && truthy topic
      then match topic with Some x => subscriptions_delete x | None => ret tt end
      else ret tt))
    (fun _ => ret tt).

(** [{ type: 'mqtt', ...record }] *)
Definition envelope (record : MessageRecord) : json :=
  JObject (spread {["type" := JString "mqtt"]}
            (<["topic" := JString (topic record)]>
             (<["data" := data record]>
              (<["raw" := JString (raw record)]>
               {["receivedAt" := JString (receivedAt record)]})))).

(** The body of [this.wss.clients.forEach((client) => ...)]. *)
Definition deliver (payload : string) (record : MessageRecord) : M socket unit :=
  try_catch
    (client <- get ;;
     if (readyState client =? 1)%Z then
       match subscriptions client with
       | Some subs =>
           if negb (set_size subs =? 0)%nat then
             if set_has (JString (topic record)) subs then send payload
             else ret tt
           else
             (* If no subs declared, deliver all *)
             send payload
       | None => send payload
       end
     else ret tt)
    (fun _ => ret tt).

(** The listener of the upstream client's ['message'] event. *)
Definition on_mqtt_message (record : MessageRecord) : M WSService unit :=
  fun svc =>
    match wss svc with
    | None => (Return tt, svc)
    | Some clients =>
        let payload := JSON_stringify (envelope record) in
        let '(o, clients') := for_each (deliver payload record) clients in
        (o, {| wss := Some clients' |})
    end.

(** ** Vocabulary of the specification *)

(** The frame [payload] was handed to the connection between [ws] and [ws']. *)
Definition delivered (payload : string) (ws ws' : socket) : Prop :=
  sent ws' = sent ws ++ [payload].




End Server.

End WSService.

(* ===================================================================== *)
(** * src/utils/topicIdGenerator.js: words for hosts                      *)
(* ===================================================================== *)

Module TopicIdGeneratorHosts.

Import TopicIdGenerator.

(** The readings of [Date.now()] have 13 digits, as they do from
    September 2001 to November 2286. *)
Definition thirteen_digit_clock (w : host) : Prop :=
  forall k : nat, (10 ^ 12 <= now_at w k < 10 ^ 13)%N.

End TopicIdGeneratorHosts.

(* ===================================================================== *)
(** * src/routes/dashboard.js: reading a dashboard, and words for requests *)
(* ===================================================================== *)

Module DashboardQueries.

Import Joi Storage DashboardRoutes.

(** [GET /:id] *)
Definition get_dashboard (dashboardId : string) (user_id : jsval) (a : app)
    : response :=
  let userId := userId_of user_id in
  match dashboards (store a) !! dashboardId with
  | None => failure 404 "Dashboard not found"
  | Some dashboard =>
      (* Check ownership (in production, implement proper authorization) *)
      if negb (strict_eq (dashboard !! "userId") (Some userId)) then
        failure 403 "Unauthorized to access this dashboard"
      else
        {| status := 200;
           body := <["success" := JBool true]>
                   {["dashboard" := JObject
                      (set_prop "id" (dashboard !! "id")
                      (set_prop "name" (dashboard !! "name")
                      (set_prop "widgets" (dashboard !! "widgets")
                      (set_prop "layout" (dashboard !! "layout")
                      (set_prop "deviceCount" (dashboard !! "deviceCount")
                      (set_prop "stats" (dashboard !! "stats")
                      (set_prop "isPublished" (dashboard !! "isPublished")
                      (set_prop "createdAt" (dashboard !! "createdAt")
                      (set_prop "updatedAt" (dashboard !! "updatedAt")
                      (set_prop "publishedAt" (dashboard !! "publishedAt")
                         ∅))))))))))]} |}
  end.

(** The user a request is made as ([req.user?.id]). *)
Definition caller (r : request) : jsval :=
  match r with
  | Save u _ _ _ => u
  | Update _ u _ _ => u
  | Publish u _ _ => u
  | Delete _ u => u
  end.

Definition is_save (r : request) : bool :=
  match r with
  | Save _ _ _ _ => true
  | _ => false
  end.

(** A user id that [===] identifies: absent, or a string. *)
Definition plain_user (u : jsval) : Prop :=
  u = None \/ exists s : string, u = Some (JString s).

(** Every dashboard of the store is stored under a well-formed id, which
    is its own [id]. *)
Definition keys_are_ids (a : app) : Prop :=
  forall (k : string) (d : obj),
    dashboards (store a) !! k = Some d ->
    TopicIdGenerator.validateTopicId k = true
    /\ d !! "id" = Some (JString k).

End DashboardQueries.

(* ===================================================================== *)
(** * src/routes/mqtt.js, and words for traces of the upstream client     *)
(* ===================================================================== *)

Module MQTTRoutes.

Import Storage MQTTService.

(** The double quote character, as a string. *)
Definition quote : string := String (Ascii.ascii_of_nat 34) EmptyString.

(** A record as [res.json] serialises it. *)
Definition record_json (r : MessageRecord) : json :=
  JObject (<["topic" := JString (topic r)]>
          (<["data" := data r]>
          (<["raw" := JString (raw r)]>
           {["receivedAt" := JString (receivedAt r)]}))).

(** [GET /latest], after the router's [mqttService.connect()]; [t] is
    [req.query.topic]. *)
Definition latest (t : jsval) (s : Service) : response * Service :=
  let s := connect s in
  if negb (truthy t) then
    (failure 400 ("Query param " +:+ quote +:+ "topic" +:+ quote
                  +:+ " is required"), s)
  else
    match get_key t (latestByTopic s) with
    | None => (failure 404 "No data for topic", s)
    | Some r =>
        ({| status := 200;
            body := <["success" := JBool true]> {["data" := record_json r]} |},
         s)
    end.

(** An inbound message: topic, payload text, time of receipt. *)
Definition message : Type := string * string * string.

Definition message_event (m : message) : action :=
  EvMessage (fst (fst m)) (snd (fst m)) (snd m).

(** The record the ['message'] listener builds for a message. *)
Definition record_of (JSON_parse : string -> option json) (m : message)
    : MessageRecord :=
  {| topic := fst (fst m);
     data := match JSON_parse (snd (fst m)) with
             | Some v => v
             | None => JString (snd (fst m))
             end;
     raw := snd (fst m);
     receivedAt := snd m |}.

(** The last message of a list that is on topic [t]. *)
Fixpoint last_on (t : string) (ms : list message) : option message :=
  match ms with
  | [] => None
  | m :: rest =>
      match last_on t rest with
      | Some x => Some x
      | None => if String.eqb (fst (fst m)) t then Some m else None
      end
  end.

Definition is_message (a : action) : bool :=
  match a with
  | EvMessage _ _ _ => true
  | _ => false
  end.

(** The unsubscribe requests handed to the library's client so far. *)
Definition unsubscribed (s : Service) : list string :=
  match client s with Some c => unsubscribe_calls c | None => [] end.

End MQTTRoutes.

(* ===================================================================== *)
(** * Sample inputs                                                       *)
(* ===================================================================== *)

Module Samples.

Import MQTTService WSService.

Definition dquote : string := String (Ascii.ascii_of_nat 34) EmptyString.

(** The text [{"action":"subscribe","topic":true}]. *)
Definition subscribe_true_text : string :=
  "{" +:+ dquote +:+ "action" +:+ dquote +:+ ":" +:+ dquote +:+ "subscribe"
      +:+ dquote +:+ "," +:+ dquote +:+ "topic" +:+ dquote +:+ ":true}".

Definition subscribe_true_value : json :=
  JObject (<["action" := JString "subscribe"]> {["topic" := JBool true]}).

(** [JSON.parse] restricted to the texts used below: it parses
    [subscribe_true_text] and rejects everything else, in particular the
    text [not json]. *)
Definition parse_sample (text : string) : option json :=
  if String.eqb text subscribe_true_text then Some subscribe_true_value
  else None.

Definition stringify_sample (v : json) : string :=
  match members v !! "topic" with
  | Some (JString t) => "mqtt:" +:+ t
  | _ => "?"
  end.

Definition open_socket (subs : list json) : socket :=
  {| readyState := 1; subscriptions := Some subs; sent := [] |}.

Definition sample_record : MessageRecord :=
  {| topic := "a/b"; data := JBool true; raw := "true";
     receivedAt := "2025-01-01T00:00:00.000Z" |}.

(** A host whose clock stands still and whose random bytes are all zero. *)
Definition steady_host : TopicIdGenerator.host :=
  {| TopicIdGenerator.now_at := fun _ => 1793000000055%N;
     TopicIdGenerator.byte_at := fun _ => 0%N |}.

(** A host whose clock stands still at 1793000000055 during two calls of
    [generateTopicId] and whose random bytes are: byte 0 for the first call
    (random suffix 10); then, for the second call, 100 bytes 0 (suffix 10
    again on attempts 1 to 100), 900 times the bytes 0, 17, 158 (suffix 10,
    then 4-digit suffix 5510 on attempts 101 to 1000), and the eight
    fallback bytes 17 93 00 00 00 05 51 00 (hexadecimal). *)
Definition colliding_host : TopicIdGenerator.host :=
  {| TopicIdGenerator.now_at := fun _ => 1793000000055%N;
     TopicIdGenerator.byte_at := fun p =>
       if (p <=? 100)%nat then 0%N
       else if (p <? 2801)%nat then
         match ((p - 101) mod 3)%nat with
         | 0%nat => 0%N
         | 1%nat => 17%N
         | _ => 158%N
         end
       else nth (p - 2801) [23; 147; 0; 0; 0; 5; 81; 0]%N 0%N |}.

(** A dashboard saved under a caller-supplied id, then published. *)
Definition dashboard_id : string := "123456789012345".

Definition widget : json :=
  JObject (<["id" := JString "w1"]> (<["type" := JString "gauge"]>
          (<["x" := JNumber PrimFloat.zero]> (<["y" := JNumber PrimFloat.zero]>
          (<["w" := JNumber PrimFloat.one]> {["h" := JNumber PrimFloat.one]}))))).

Definition save_body : json :=
  JObject (<["id" := JString dashboard_id]> (<["name" := JString "Demo"]>
           {["widgets" := JArray []]})).

Definition publish_body : json :=
  JObject (<["id" := JString dashboard_id]> (<["name" := JString "Demo"]>
           {["widgets" := JArray [widget]]})).

Definition update_body : json :=
  JObject (<["name" := JString "Renamed"]> {["widgets" := JArray []]}).

Definition env : DashboardRoutes.publish_env :=
  {| DashboardRoutes.now_ms := 1793000000055%N;
     DashboardRoutes.random_id := "k3x9q2m1z";
     DashboardRoutes.random_password := "AB12CD";
     DashboardRoutes.FRONTEND_URL := None;
     DashboardRoutes.publishedAt := "2026-10-26T00:00:00.055Z";
     DashboardRoutes.updatedAt := "2026-10-26T00:00:00.055Z" |}.

Definition app_saved : DashboardRoutes.app :=
  match DashboardRoutes.save Joi.validate_strict steady_host 1 None save_body
          "2026-10-25T00:00:00.000Z" "2026-10-25T00:00:00.000Z"
          DashboardRoutes.initial with
  | Some (_, a) => a
  | None => DashboardRoutes.initial
  end.

Definition app_published : DashboardRoutes.app :=
  snd (DashboardRoutes.publish Joi.validate_strict None publish_body env app_saved).

(** A stored reset token and two attempts to use it; [lower] is
    [toLowerCase] on the ASCII letters. *)
Definition lower_char (c : ascii) : ascii :=
  let n := N_of_ascii c in
  if ((65 <=? n) && (n <=? 90))%N then ascii_of_N (n + 32) else c.

Fixpoint lower (s : string) : string :=
  match s with
  | EmptyString => EmptyString
  | String c rest => String (lower_char c) (lower rest)
  end.

Definition token_data : Storage.TokenData :=
  {| Storage.email := "ann@example.org"; Storage.expiry := 1793086400055;
     Storage.used := false; Storage.createdAt := "2026-10-26T00:00:00.055Z";
     Storage.ip := "127.0.0.1"; Storage.usedAt := None |}.

Definition store_with_token : Storage.storage :=
  Storage.with_resetTokens Storage.empty {["c0ffee" := token_data]}.

Definition reset_body : json :=
  JObject (<["token" := JString "c0ffee"]> (<["email" := JString "Ann@Example.org"]>
           {["newPassword" := JString "secret1"]})).

Definition first_attempt : AuthRoutes.attempt :=
  {| AuthRoutes.attempt_body := reset_body;
     AuthRoutes.attempt_now := 1793000100000;
     AuthRoutes.attempt_usedAt := "2026-10-26T00:01:39.945Z" |}.

Definition second_attempt : AuthRoutes.attempt :=
  {| AuthRoutes.attempt_body := reset_body;
     AuthRoutes.attempt_now := 1793000200000;
     AuthRoutes.attempt_usedAt := "2026-10-26T00:03:19.945Z" |}.

Definition sample_cfg : config :=
  {| subscribeTopics := ["#"]; qos := PrimFloat.zero |}.

(** The control message texts [{"action":A,"topic":"a/b"}] for [A] one of
    [subscribe] and [unsubscribe], and a [JSON.parse] restricted to them. *)
Definition control_text (action t : string) : string :=
  "{" +:+ dquote +:+ "action" +:+ dquote +:+ ":" +:+ dquote +:+ action
      +:+ dquote +:+ "," +:+ dquote +:+ "topic" +:+ dquote +:+ ":" +:+ dquote
      +:+ t +:+ dquote +:+ "}".

Definition control_value (action t : string) : obj :=
  <["action" := JString action]> {["topic" := JString t]}.

Definition parse_control (text : string) : option json :=
  if String.eqb text (control_text "subscribe" "a/b")
  then Some (JObject (control_value "subscribe" "a/b"))
  else if String.eqb text (control_text "unsubscribe" "a/b")
  then Some (JObject (control_value "unsubscribe" "a/b"))
  else None.

(** A service that was connected and lost its connection. *)
Definition service_in_outage : Service :=
  MQTTService.run parse_sample stringify_sample sample_cfg
    [CallConnect; EvConnect; EvClose] MQTTService.initial.

(** A service with a cached record. *)
Definition service_with_record : Service :=
  MQTTService.handle parse_sample stringify_sample sample_cfg
    (EvMessage "a/b" "not json" "2026-10-26T00:00:00.055Z")
    MQTTService.initial.

(** Two users, a dashboard saved by the first, and a second publish. *)
Definition alice : jsval := Some (JString "alice").
Definition bob : jsval := Some (JString "bob").

Definition app_alice : DashboardRoutes.app :=
  match DashboardRoutes.save Joi.validate_strict steady_host 1 alice save_body
          "2026-10-25T00:00:00.000Z" "2026-10-25T00:00:00.000Z"
          DashboardRoutes.initial with
  | Some (_, a) => a
  | None => DashboardRoutes.initial
  end.

Definition alice_dashboard : obj :=
  match Storage.dashboards (DashboardRoutes.store app_alice) !! dashboard_id with
  | Some d => d
  | None => ∅
  end.

Definition save_response : Storage.response :=
  match DashboardRoutes.save Joi.validate_strict steady_host 1 None save_body
          "2026-10-25T00:00:00.000Z" "2026-10-25T00:00:00.000Z"
          DashboardRoutes.initial with
  | Some (r, _) => r
  | None => Storage.failure 500 "no response"
  end.

Definition published_dashboard : obj :=
  match Storage.dashboards (DashboardRoutes.store app_published)
          !! dashboard_id with
  | Some d => d
  | None => ∅
  end.

Definition first_snapshot : obj :=
  match Storage.sharedDashboards (DashboardRoutes.store app_published)
          !! DashboardRoutes.shareableId_of env with
  | Some d => d
  | None => ∅
  end.

Definition env2 : DashboardRoutes.publish_env :=
  {| DashboardRoutes.now_ms := 1793000900000%N;
     DashboardRoutes.random_id := "p7w4t8r5y";
     DashboardRoutes.random_password := "EF34GH";
     DashboardRoutes.FRONTEND_URL := None;
     DashboardRoutes.publishedAt := "2026-10-26T00:14:59.945Z";
     DashboardRoutes.updatedAt := "2026-10-26T00:14:59.945Z" |}.

Definition app_republished : DashboardRoutes.app :=
  snd (DashboardRoutes.publish Joi.validate_strict None publish_body env2
         app_published).

(** A reset request, a reset with another email, and attempts after the
    token's expiry. *)
Definition request_body : json :=
  JObject {["email" := JString "Ann@Example.org"]}.

Definition wrong_email_body : json :=
  JObject (<["token" := JString "c0ffee"]> (<["email" := JString "bob@example.org"]>
           {["newPassword" := JString "secret1"]})).

Definition late_attempt : AuthRoutes.attempt :=
  {| AuthRoutes.attempt_body := reset_body;
     AuthRoutes.attempt_now := 1793086400056;
     AuthRoutes.attempt_usedAt := "2026-10-27T00:00:00.056Z" |}.

End Samples.

(* ===================================================================== *)
(** * Properties                                                          *)
(* ===================================================================== *)

(** ** Generic facts about the monad *)

Lemma for_each_total {S} (body : M S unit) (l : list S) :
  (forall x, fst (body x) = Return tt) ->
  for_each body l = (Return tt, map (fun x => snd (body x)) l).
Proof.
  intros Hbody. induction l as [|x l IH]; simpl; [reflexivity|].
  specialize (Hbody x). destruct (body x) as [o x'] eqn:E. simpl in *.
  subst o. rewrite IH. reflexivity.
Qed.

Module WSServiceProps.

Import MQTTService WSService.

Section Server.

Variable JSON_parse : string -> option json.
Variable JSON_stringify : json -> string.

(** The per-connection body of the fan-out never lets an exception escape. *)
Lemma deliver_total payload record ws :
  fst (deliver payload record ws) = Return tt.
Proof.
  unfold deliver, try_catch, bind, get, send, ret.
  destruct (readyState ws =? 1)%Z eqn:E; simpl.
  - destruct (subscriptions ws) as [subs|]; simpl.
    + destruct (negb (set_size subs =? 0)%nat); simpl.
      * destruct (set_has _ subs); simpl; [|reflexivity].
        unfold OPEN. rewrite E. reflexivity.
      * unfold OPEN. rewrite E. reflexivity.
    + unfold OPEN. rewrite E. reflexivity.
  - reflexivity.
Qed.

(** What the body does to one open connection. *)
Lemma deliver_open payload record ws subs :
  readyState ws = OPEN -> subscriptions ws = Some subs ->
  snd (deliver payload record ws) =
    if (set_size subs =? 0)%nat || set_has (JString (topic record)) subs
    then {| readyState := readyState ws; subscriptions := Some subs;
            sent := sent ws ++ [payload] |}
    else ws.
Proof.
  intros Hopen Hsubs.
  assert (E : (readyState ws =? 1)%Z = true) by (rewrite Hopen; reflexivity).
  unfold deliver, try_catch, bind, get, send, ret, OPEN.
  rewrite E, Hsubs. simpl.
  destruct (set_size subs =? 0)%nat; simpl;
    [rewrite E, Hsubs; reflexivity|].
  destruct (set_has _ subs); [rewrite E, Hsubs|]; reflexivity.
Qed.

Lemma app_singleton_neq {A} (l : list A) (x : A) : l ++ [x] <> l.
Proof.
  intros H. apply (f_equal (@length A)) in H.
  rewrite length_app in H. simpl in H. lia.
Qed.

(** C1.  On every event of the upstream client, an open downstream
    connection is handed the event's envelope if and only if its
    subscription set is empty or contains the event's topic; the listener
    itself returns normally and touches nothing else of the connection. *)
Theorem fanout_delivers_iff_subscribed
    (svc : WSService) (clients : list socket) (record : MessageRecord)
    (i : nat) (ws : socket) (subs : list json) :
  wss svc = Some clients ->
  clients !! i = Some ws ->
  readyState ws = OPEN ->
  subscriptions ws = Some subs ->
  exists clients' ws',
    on_mqtt_message JSON_stringify record svc
      = (Return tt, {| wss := Some clients' |})
    /\ clients' !! i = Some ws'
    /\ readyState ws' = readyState ws
    /\ subscriptions ws' = subscriptions ws
    /\ (delivered (JSON_stringify (envelope record)) ws ws'
        <-> set_size subs = 0%nat
            \/ set_has (JString (topic record)) subs = true)
    /\ (~ delivered (JSON_stringify (envelope record)) ws ws' -> ws' = ws).
Proof.
  intros Hwss Hi Hopen Hsubs.
  set (payload := JSON_stringify (envelope record)).
  exists (map (fun x => snd (deliver payload record x)) clients),
         (snd (deliver payload record ws)).
  split.
  { unfold on_mqtt_message. rewrite Hwss. fold payload.
    rewrite for_each_total by apply deliver_total. reflexivity. }
  split.
  { change (map ?f clients) with (f <$> clients).
    rewrite list_lookup_fmap, Hi. reflexivity. }
  rewrite (deliver_open payload record ws subs Hopen Hsubs).
  unfold delivered.
  destruct (set_size subs =? 0)%nat eqn:Esz; simpl.
  - apply Nat.eqb_eq in Esz. repeat split; auto. intros H. contradiction H. reflexivity.
  - apply Nat.eqb_neq in Esz.
    destruct (set_has (JString (topic record)) subs) eqn:Ehas; simpl.
    + repeat split; auto. intros H. contradiction H. reflexivity.
    + repeat split; auto.
      * intros H. symmetry in H. apply app_singleton_neq in H. contradiction.
      * intros [H|H]; [contradiction | discriminate].
Qed.


End Server.



(** The statement above applies: a connection subscribed to [a/b] gets the
    envelope of an event on [a/b]. *)
Lemma fanout_delivers_iff_subscribed_witness :
  exists clients' ws',
    on_mqtt_message Samples.stringify_sample Samples.sample_record
        {| wss := Some [Samples.open_socket [JString "a/b"]] |}
      = (Return tt, {| wss := Some clients' |})
    /\ clients' !! 0%nat = Some ws'
    /\ sent ws' = ["mqtt:a/b"].
Proof.
  destruct (fanout_delivers_iff_subscribed Samples.stringify_sample
              {| wss := Some [Samples.open_socket [JString "a/b"]] |}
              [Samples.open_socket [JString "a/b"]] Samples.sample_record
              0%nat (Samples.open_socket [JString "a/b"]) [JString "a/b"]
              eq_refl eq_refl eq_refl eq_refl)
    as (clients' & ws' & Hrun & Hi & _ & _ & Hiff & _).
  exists clients', ws'. split; [exact Hrun|]. split; [exact Hi|].
  apply (proj2 Hiff). right. reflexivity.
Defined.

End WSServiceProps.

Module MQTTServiceProps.

Import MQTTService.

Section Service.

Variable JSON_parse : string -> option json.
Variable JSON_stringify : json -> string.
Variable cfg : config.

(** C5.  The ['message'] listener returns normally on every inbound
    message; the record it builds carries the parsed payload when the
    payload is JSON and the payload text itself otherwise, its [raw] field
    is the payload text in both cases, and it replaces the cached record of
    its topic (and of no other topic) and is emitted to the listeners. *)
Theorem inbound_message_always_produces_record
    (t payload now : string) (s : Service) :
  exists (record : MessageRecord) (s' : Service),
    on_message JSON_parse t payload now s = (Return tt, s')
    /\ topic record = t
    /\ raw record = payload
    /\ receivedAt record = now
    /\ data record =
         match JSON_parse payload with
         | Some v => v
         | None => JString payload
         end
    /\ getLatest t s' = Some record
    /\ (forall t', t' <> t -> getLatest t' s' = getLatest t' s)
    /\ emitted s' = emitted s ++ [record].
Proof.
  set (d := match JSON_parse payload with
            | Some v => v
            | None => JString payload
            end).
  exists {| topic := t; data := d; raw := payload; receivedAt := now |}.
  eexists. split.
  { unfold on_message, try_catch, bind, modify, JSON_parse_m, d.
    destruct (JSON_parse payload) as [v|]; reflexivity. }
  unfold getLatest. simpl. repeat split.
  - apply lookup_insert_eq.
  - intros t' Hne. apply lookup_insert_ne. congruence.
Qed.

(** ** Deferred subscriptions *)

Local Abbreviation handle := (handle JSON_parse JSON_stringify cfg).
Local Abbreviation run := (run JSON_parse JSON_stringify cfg).

Lemma on_message_frame (t payload now : string) (s : Service) :
  client (snd (on_message JSON_parse t payload now s)) = client s
  /\ isConnected (snd (on_message JSON_parse t payload now s)) = isConnected s.
Proof.
  unfold on_message, try_catch, bind, modify, JSON_parse_m.
  destruct (JSON_parse payload); simpl; auto.
Qed.

(** While the client is not connected, an action other than ['connect'] and
    [shutdown()] hands no subscribe request to the library and queues
    exactly the request it makes. *)
Lemma handle_before_connect (a : action) (s : Service) :
  before_connect a = true ->
  isConnected s = false ->
  isConnected (handle a s) = false
  /\ pending (handle a s) = pending s ++ requested [a]
  /\ issued (handle a s) = issued s.
Proof.
  intros Ha Hs. unfold pending, issued.
  destruct a; try discriminate Ha; simpl;
    unfold connect, subscribe, unsubscribe, publish, on_close,
           subscribe_done, unsubscribe_done, connect;
    try (destruct err);
    try (destruct (on_message_frame t payload now s) as [-> ->]);
    destruct (client s) as [c|] eqn:Ec; simpl;
    rewrite ?Hs, ?Ec; simpl; rewrite ?Hs, ?Ec, ?app_nil_r; auto.
Qed.

Lemma run_before_connect (trace : list action) (s : Service) :
  forallb before_connect trace = true ->
  isConnected s = false ->
  isConnected (run trace s) = false
  /\ pending (run trace s) = pending s ++ requested trace
  /\ issued (run trace s) = issued s.
Proof.
  revert s. induction trace as [|a trace IH]; intros s Hall Hs; simpl.
  - rewrite app_nil_r. auto.
  - simpl in Hall. apply andb_true_iff in Hall as [Ha Hall].
    destruct (handle_before_connect a s Ha Hs) as (H1 & H2 & H3).
    destruct (IH (handle a s) Hall H1) as (I1 & I2 & I3).
    unfold MQTTService.run in *. simpl.
    rewrite I2, I3, H2, H3. simpl. rewrite app_nil_r, <- app_assoc. auto.
Qed.

(** Once connected, [subscribe] hands its request to the library. *)
Lemma subscribe_all_connected {A} (g : A -> string * json) (l : list A)
    (s : Service) :
  isConnected s = true ->
  is_Some (client s) ->
  let s' := fold_left (fun s x => subscribe (fst (g x)) (snd (g x)) s) l s in
  isConnected s' = true
  /\ is_Some (client s')
  /\ issued s' = issued s ++ map g l
  /\ pending s' = pending s.
Proof.
  revert s. induction l as [|x l IH]; intros s Hc [c Hs]; simpl.
  - rewrite app_nil_r. eauto.
  - set (s1 := subscribe (fst (g x)) (snd (g x)) s).
    assert (H1 : isConnected s1 = true /\ is_Some (client s1)
                 /\ issued s1 = issued s ++ [g x]
                 /\ pending s1 = pending s).
    { unfold s1, subscribe, connect, issued, pending.
      rewrite Hs. simpl. rewrite Hs, Hc. simpl.
      destruct (g x); simpl. eauto. }
    destruct H1 as (A1 & A2 & A3 & A4).
    destruct (IH s1 A1 A2) as (B1 & B2 & B3 & B4).
    rewrite B3, B4, A3, A4, <- app_assoc. auto.
Qed.

(** The ['connect'] event hands to the library the configured topics and
    then every queued request, in order, and empties the queue. *)
Lemma on_connect_replays (s : Service) :
  is_Some (client s) ->
  isConnected (on_connect cfg s) = true
  /\ issued (on_connect cfg s) = issued s ++ configured cfg ++ pending s
  /\ pending (on_connect cfg s) = [].
Proof.
  intros [c Hs]. unfold on_connect. rewrite Hs.
  match goal with
  | |- context [fold_left ?f (subscribeTopics cfg) ?s0] =>
      set (s1 := fold_left f (subscribeTopics cfg) s0);
      pose proof (subscribe_all_connected
                    (fun t => (t, JObject {["qos" := JNumber (qos cfg)]}))
                    (subscribeTopics cfg) s0 eq_refl
                    (ex_intro _ _ eq_refl)) as H1
  end.
  simpl in H1. fold s1 in H1. destruct H1 as (A1 & A2 & A3 & A4).
  pose proof (subscribe_all_connected (fun p : string * json => p)
                (once_connect c) s1 A1 A2) as H2.
  simpl in H2. destruct H2 as (B1 & B2 & B3 & B4).
  rewrite B1, B3, B4, A3, A4, map_id. unfold issued, pending, configured.
  simpl. rewrite Hs, app_assoc. auto.
Qed.

(** C7.  Whatever happens before the client's first ['connect'] event
    (short of [shutdown()]), a subscribe request made in that time is not
    handed to the library then but queued, and the ['connect'] event hands
    every queued request to the library, after those for the configured
    topics and in the order they were made, leaving the queue empty. *)
Theorem subscribe_before_connect_is_replayed
    (trace : list action) (t : string) (options : json) :
  forallb before_connect trace = true ->
  In (CallSubscribe t options) trace ->
  let s := run trace initial in
  let s' := handle EvConnect s in
  isConnected s = false
  /\ issued s = []
  /\ In (t, options) (pending s)
  /\ isConnected s' = true
  /\ issued s' = configured cfg ++ requested trace
  /\ In (t, options) (issued s')
  /\ pending s' = [].
Proof.
  intros Hall Hin s s'.
  destruct (run_before_connect trace initial Hall eq_refl) as (H1 & H2 & H3).
  fold s in H1, H2, H3. simpl in H2, H3.
  assert (Hreq : In (t, options) (requested trace)).
  { unfold requested. apply in_flat_map.
    exists (CallSubscribe t options). split; [exact Hin | left; reflexivity]. }
  assert (Hc : is_Some (client s)).
  { unfold pending in H2. destruct (client s); [eauto|].
    rewrite <- H2 in Hreq. destruct Hreq. }
  destruct (on_connect_replays s Hc) as (C1 & C2 & C3).
  unfold s'. simpl. rewrite C1, C2, C3, H2, H3. simpl.
  repeat split; auto.
  apply in_or_app. right. exact Hreq.
Qed.

End Service.

(** The payload [not json] is kept as the record's data and raw text. *)
Example not_json_is_kept_raw :
  on_message Samples.parse_sample "t" "not json" "2026-10-26T00:00:00.055Z"
      initial
  = (Return tt,
     {| client := None; isConnected := false;
        latestByTopic :=
          {["t" := {| topic := "t"; data := JString "not json";
                      raw := "not json";
                      receivedAt := "2026-10-26T00:00:00.055Z" |}]};
        subscriptions := [];
        emitted :=
          [{| topic := "t"; data := JString "not json"; raw := "not json";
              receivedAt := "2026-10-26T00:00:00.055Z" |}] |}).
Proof. reflexivity. Qed.

(** A request for [a/b] made before the client exists is replayed when the
    client connects. *)
Lemma subscribe_before_connect_is_replayed_witness :
  issued (run Samples.parse_sample Samples.stringify_sample Samples.sample_cfg
            [CallSubscribe "a/b" (JObject ∅)] initial) = []
  /\ issued (handle Samples.parse_sample Samples.stringify_sample
               Samples.sample_cfg EvConnect
               (run Samples.parse_sample Samples.stringify_sample
                  Samples.sample_cfg
                  [CallSubscribe "a/b" (JObject ∅)] initial))
     = [("#", JObject {["qos" := JNumber PrimFloat.zero]}); ("a/b", JObject ∅)].
Proof.
  destruct (subscribe_before_connect_is_replayed Samples.parse_sample
              Samples.stringify_sample Samples.sample_cfg
              [CallSubscribe "a/b" (JObject ∅)] "a/b" (JObject ∅)
              eq_refl (or_introl eq_refl))
    as (_ & H2 & _ & _ & H5 & _).
  split; [exact H2 | exact H5].
Defined.

End MQTTServiceProps.

Module TopicIdGeneratorProps.

Import TopicIdGenerator.

(** ** Strings of digits *)

Lemma length_append (a b : string) :
  String.length (a +:+ b) = (String.length a + String.length b)%nat.
Proof. induction a as [|c a IH]; simpl; [reflexivity | rewrite IH; reflexivity]. Qed.

Lemma all_digits_append (a b : string) :
  all_digits (a +:+ b) = all_digits a && all_digits b.
Proof.
  induction a as [|c a IH]; simpl; [reflexivity|].
  rewrite IH, andb_assoc. reflexivity.
Qed.

Lemma length_prefix (n : nat) (s : string) :
  String.length (prefix n s) = Nat.min n (String.length s).
Proof.
  unfold prefix. revert s. induction n as [|n IH]; intros [|c s]; simpl; auto.
Qed.

Lemma all_digits_prefix (n : nat) (s : string) :
  all_digits s = true -> all_digits (prefix n s) = true.
Proof.
  unfold prefix. revert s. induction n as [|n IH]; intros [|c s]; simpl; auto.
  intros H. apply andb_true_iff in H as [Hc Hs]. rewrite Hc. simpl. auto.
Qed.

Lemma length_repeat_char (c : ascii) (n : nat) :
  String.length (repeat_char c n) = n.
Proof. induction n; simpl; auto. Qed.

Lemma all_digits_repeat_zero (n : nat) :
  all_digits (repeat_char "0"%char n) = true.
Proof. induction n; simpl; auto. Qed.

Lemma is_digit_digit_char (d : N) : (d < 10)%N -> is_digit (digit_char d) = true.
Proof.
  intros H. unfold is_digit, digit_char.
  rewrite N_ascii_embedding by lia.
  apply andb_true_iff. split; apply N.leb_le; lia.
Qed.

Lemma all_digits_decimal (fuel : nat) (n : N) : all_digits (decimal fuel n) = true.
Proof.
  revert n. induction fuel as [|fuel IH]; intros n; simpl; [reflexivity|].
  destruct (n <? 10)%N eqn:E; simpl.
  - apply N.ltb_lt in E. rewrite is_digit_digit_char by exact E. reflexivity.
  - rewrite all_digits_append, IH. simpl.
    rewrite is_digit_digit_char; [reflexivity|].
    apply N.mod_lt. lia.
Qed.

Lemma all_digits_toString (n : N) : all_digits (toString n) = true.
Proof. apply all_digits_decimal. Qed.

Lemma length_toString_pos (n : N) : (1 <= String.length (toString n))%nat.
Proof.
  unfold toString. simpl. destruct (n <? 10)%N; simpl; [lia|].
  rewrite length_append. simpl. lia.
Qed.

(** [fix_length] does what its comment says. *)
Lemma length_fix_length (s : string) : String.length (fix_length s) = 15%nat.
Proof.
  unfold fix_length.
  destruct (15 <? String.length s)%nat eqn:E1.
  - apply Nat.ltb_lt in E1. rewrite length_prefix. lia.
  - apply Nat.ltb_ge in E1.
    destruct (String.length s <? 15)%nat eqn:E2.
    + apply Nat.ltb_lt in E2. unfold padStart0.
      rewrite length_append, length_repeat_char. lia.
    + apply Nat.ltb_ge in E2. lia.
Qed.

Lemma all_digits_fix_length (s : string) :
  all_digits s = true -> all_digits (fix_length s) = true.
Proof.
  intros H. unfold fix_length.
  destruct (15 <? String.length s)%nat; [apply all_digits_prefix, H|].
  destruct (String.length s <? 15)%nat; [|exact H].
  unfold padStart0. rewrite all_digits_append, all_digits_repeat_zero, H.
  reflexivity.
Qed.

(** ** The hexadecimal fallback *)

Lemma hex_char_ok (v : N) :
  (v < 16)%N -> is_digit (hex_char v) || is_hex_letter (hex_char v) = true.
Proof.
  intros H. unfold hex_char, is_digit, is_hex_letter.
  destruct (v <? 10)%N eqn:E.
  - apply N.ltb_lt in E. rewrite N_ascii_embedding by lia.
    apply orb_true_iff. left. apply andb_true_iff. split; apply N.leb_le; lia.
  - apply N.ltb_ge in E. rewrite N_ascii_embedding by lia.
    apply orb_true_iff. right. apply andb_true_iff. split; apply N.leb_le; lia.
Qed.

Lemma all_digits_replace_hex_letters (s : string) :
  all_hex s = true -> all_digits (replace_hex_letters s) = true.
Proof.
  induction s as [|c s IH]; simpl; [reflexivity|].
  intros H. apply andb_true_iff in H as [Hc Hs].
  rewrite all_digits_append, (IH Hs), andb_true_r.
  destruct (is_hex_letter c); [apply all_digits_toString|].
  rewrite orb_false_r in Hc. simpl. rewrite Hc. reflexivity.
Qed.

Lemma length_replace_hex_letters (s : string) :
  (String.length s <= String.length (replace_hex_letters s))%nat.
Proof.
  induction s as [|c s IH]; simpl; [lia|].
  rewrite length_append.
  destruct (is_hex_letter c); [pose proof (length_toString_pos (parseInt16 c + 1))|];
    simpl; lia.
Qed.

Section Host.

Variable w : host.

Lemma hex_of_bytes_ok (k p : nat) :
  all_hex (hex_of_bytes w k p) = true
  /\ String.length (hex_of_bytes w k p) = (2 * k)%nat.
Proof.
  revert p. induction k as [|k IH]; intros p; simpl; [auto|].
  destruct (IH (S p)) as [H1 H2]. rewrite H1, H2.
  assert (Hb : (byte_at w p mod 256 < 256)%N) by (apply N.mod_lt; lia).
  rewrite !hex_char_ok.
  - split; [reflexivity | lia].
  - apply N.mod_lt. lia.
  - apply N.Div0.div_lt_upper_bound. lia.
Qed.

Lemma crypto_fallback_ok (st : state) :
  all_digits (fst (crypto_fallback w st)) = true.
Proof.
  unfold crypto_fallback, fst.
  apply all_digits_prefix, all_digits_replace_hex_letters, hex_of_bytes_ok.
Qed.

(** ** The candidates of the loop *)

Lemma candidate_digits fuel attempts st id attempts' st' :
  candidate w fuel attempts st = Some (id, attempts', st') ->
  all_digits id = true.
Proof.
  unfold candidate.
  destruct (secureRandom w fuel 10 99 (cursor st)) as [[r p1]|]; [|discriminate].
  destruct (100 <? S attempts)%nat.
  - destruct (secureRandom w fuel 1000 9999 p1) as [[e p2]|]; [|discriminate].
    intros H. injection H as <- _ _.
    rewrite all_digits_append, all_digits_toString, andb_true_r.
    apply all_digits_prefix, all_digits_toString.
  - intros H. injection H as <- _ _.
    rewrite all_digits_append, !all_digits_toString. reflexivity.
Qed.

Lemma attempt_loop_digits fuel n attempts st id st' :
  attempt_loop w fuel n attempts st = Some (id, st') ->
  all_digits id = true.
Proof.
  revert attempts st. induction n as [|n IH]; intros attempts st; simpl;
    destruct (candidate w fuel attempts st) as [[[c a] s1]|] eqn:E;
    try discriminate;
    pose proof (candidate_digits _ _ _ _ _ _ E) as Hc;
    destruct (usedIds_has c (usedIds s1) && (a <? maxAttempts)%nat);
    try (intros H; injection H as <- _; exact Hc).
  apply IH.
Qed.

(** ** Fuel *)

Lemma secureRandom_mono fuel fuel' min max p r :
  secureRandom w fuel min max p = Some r ->
  (fuel <= fuel')%nat ->
  secureRandom w fuel' min max p = Some r.
Proof.
  revert fuel' p. induction fuel as [|fuel IH]; intros fuel' p; [discriminate|].
  intros H Hle. destruct fuel' as [|fuel']; [lia|].
  simpl in *.
  destruct (read_value w _ p 0 >? maxValidValue _)%Z; [|exact H].
  apply IH; [exact H | lia].
Qed.

Lemma candidate_mono fuel fuel' attempts st r :
  candidate w fuel attempts st = Some r ->
  (fuel <= fuel')%nat ->
  candidate w fuel' attempts st = Some r.
Proof.
  unfold candidate. intros H Hle.
  destruct (secureRandom w fuel 10 99 (cursor st)) as [[x p1]|] eqn:E1;
    [|discriminate].
  rewrite (secureRandom_mono _ _ _ _ _ _ E1 Hle).
  destruct (100 <? S attempts)%nat; [|exact H].
  destruct (secureRandom w fuel 1000 9999 p1) as [[e p2]|] eqn:E2;
    [|discriminate].
  rewrite (secureRandom_mono _ _ _ _ _ _ E2 Hle). exact H.
Qed.

Lemma attempt_loop_mono fuel fuel' n attempts st r :
  attempt_loop w fuel n attempts st = Some r ->
  (fuel <= fuel')%nat ->
  attempt_loop w fuel' n attempts st = Some r.
Proof.
  revert attempts st. induction n as [|n IH]; intros attempts st H Hle;
    simpl in *;
    destruct (candidate w fuel attempts st) as [[[c a] s1]|] eqn:E;
    try discriminate;
    rewrite (candidate_mono _ _ _ _ _ E Hle);
    destruct (usedIds_has c (usedIds s1) && (a <? maxAttempts)%nat); auto.
Qed.

(** ** Identifiers that do not come from the fallback *)

Lemma candidate_usedIds fuel attempts st id attempts' st' :
  candidate w fuel attempts st = Some (id, attempts', st') ->
  usedIds st' = usedIds st.
Proof.
  unfold candidate.
  destruct (secureRandom w fuel 10 99 (cursor st)) as [[r p1]|]; [|discriminate].
  destruct (100 <? S attempts)%nat.
  - destruct (secureRandom w fuel 1000 9999 p1) as [[e p2]|]; [|discriminate].
    intros H. injection H as _ _ <-. reflexivity.
  - intros H. injection H as _ _ <-. reflexivity.
Qed.

Lemma attempt_loop_usedIds fuel n attempts st id st' :
  attempt_loop w fuel n attempts st = Some (id, st') ->
  usedIds st' = usedIds st.
Proof.
  revert attempts st. induction n as [|n IH]; intros attempts st; simpl;
    destruct (candidate w fuel attempts st) as [[[c a] s1]|] eqn:E;
    try discriminate;
    pose proof (candidate_usedIds _ _ _ _ _ _ E) as Hc;
    destruct (usedIds_has c (usedIds s1) && (a <? maxAttempts)%nat);
    try (intros H; injection H as _ <-; exact Hc).
  intros H. rewrite (IH _ _ H). exact Hc.
Qed.

(** When the loop ends on an unused candidate of 15 characters (the case
    of a 13-digit clock reading), that candidate is returned and it was not
    issued before, as far as [usedIds] records. *)
Lemma generateTopicId_fresh_without_fallback fuel st c s1 :
  attempt_loop w fuel maxAttempts 0 st = Some (c, s1) ->
  usedIds_has c (usedIds s1) = false ->
  String.length c = 15%nat ->
  exists st',
    generateTopicId w fuel st = Some (c, st')
    /\ usedIds_has c (usedIds st) = false.
Proof.
  intros Hloop Hfresh Hlen. unfold generateTopicId. rewrite Hloop, Hfresh.
  unfold fix_length. rewrite Hlen. simpl. eexists. split; [reflexivity|].
  rewrite <- (attempt_loop_usedIds _ _ _ _ _ _ Hloop). exact Hfresh.
Qed.

Hypothesis Hsampling : sampling_terminates w.

Lemma candidate_total attempts st :
  exists fuel r, candidate w fuel attempts st = Some r.
Proof.
  destruct (Hsampling (cursor st)) as [[f1 [[r p1] E1]] _].
  destruct (Hsampling p1) as [_ [f2 [[e p2] E2]]].
  exists (Nat.max f1 f2). unfold candidate.
  rewrite (secureRandom_mono _ _ _ _ _ _ E1 (Nat.le_max_l f1 f2)).
  rewrite (secureRandom_mono _ _ _ _ _ _ E2 (Nat.le_max_r f1 f2)).
  destruct (100 <? S attempts)%nat; eauto.
Qed.

Lemma attempt_loop_total n attempts st :
  exists fuel r, attempt_loop w fuel n attempts st = Some r.
Proof.
  revert attempts st. induction n as [|n IH]; intros attempts st;
    destruct (candidate_total attempts st) as (f1 & [[c a] s1] & E).
  - exists f1. simpl. rewrite E.
    destruct (usedIds_has c (usedIds s1) && (a <? maxAttempts)%nat); eauto.
  - destruct (IH a s1) as (f2 & r2 & E2).
    exists (Nat.max f1 f2). simpl.
    rewrite (candidate_mono _ _ _ _ _ E (Nat.le_max_l f1 f2)).
    destruct (usedIds_has c (usedIds s1) && (a <? maxAttempts)%nat); eauto.
    rewrite (attempt_loop_mono _ _ _ _ _ _ E2 (Nat.le_max_r f1 f2)). eauto.
Qed.

(** C8.  On a host whose rejection sampling ends, [generateTopicId]
    returns, and whatever it returns, on the early attempts, on the
    attempts past the hundredth and on the hexadecimal fallback alike, is a
    string of exactly 15 characters, all of them decimal digits. *)
Theorem generateTopicId_returns_fifteen_digits (st : state) :
  (exists fuel id st', generateTopicId w fuel st = Some (id, st'))
  /\ (forall fuel id st',
        generateTopicId w fuel st = Some (id, st') ->
        String.length id = 15%nat
        /\ all_digits id = true
        /\ validateTopicId id = true).
Proof.
  split.
  - destruct (attempt_loop_total maxAttempts 0%nat st) as (fuel & [c s1] & E).
    exists fuel. unfold generateTopicId. rewrite E.
    destruct (usedIds_has c (usedIds s1)); [destruct (crypto_fallback w s1)|];
      eauto.
  - intros fuel id st'. unfold generateTopicId.
    destruct (attempt_loop w fuel maxAttempts 0 st) as [[c s1]|] eqn:E;
      [|discriminate].
    pose proof (attempt_loop_digits _ _ _ _ _ _ E) as Hc.
    pose proof (crypto_fallback_ok s1) as Hf.
    destruct (usedIds_has c (usedIds s1));
      [destruct (crypto_fallback w s1) as [c' s2]; simpl in Hf|];
      intros H; injection H as <- _; unfold validateTopicId;
      rewrite length_fix_length, all_digits_fix_length by assumption; auto.
Qed.

End Host.

Lemma steady_host_sampling_terminates :
  sampling_terminates Samples.steady_host.
Proof.
  intros p. split; exists 1%nat; eexists; vm_compute; reflexivity.
Defined.

(** On the steady host the first identifier is [179300000005510]. *)
Lemma generateTopicId_returns_fifteen_digits_witness :
  sampling_terminates Samples.steady_host
  /\ generateTopicId Samples.steady_host 1 initial
       = Some ("179300000005510",
               {| usedIds := ["179300000005510"]; clock := 1; cursor := 1 |})
  /\ validateTopicId "179300000005510" = true.
Proof.
  split; [exact steady_host_sampling_terminates|].
  split; [vm_compute; reflexivity|].
  apply (proj2 (generateTopicId_returns_fifteen_digits Samples.steady_host
                  steady_host_sampling_terminates initial)
               1%nat "179300000005510"
               {| usedIds := ["179300000005510"]; clock := 1; cursor := 1 |}).
  vm_compute. reflexivity.
Defined.

(** C2.  On the host [Samples.colliding_host] the first two calls of
    [generateTopicId] in a run return the same identifier: every candidate
    of the second call is already used, and the hexadecimal fallback, which
    is not checked against [usedIds], yields the used identifier again. *)
Theorem generateTopicId_reissues_identifier :
  let st1 := {| usedIds := ["179300000005510"]; clock := 1; cursor := 1 |} in
  let st2 := {| usedIds := ["179300000005510"]; clock := 1001; cursor := 2809 |} in
  generateTopicId Samples.colliding_host 1 initial
    = Some ("179300000005510", st1)
  /\ generateTopicId Samples.colliding_host 1 st1
     = Some ("179300000005510", st2).
Proof. split; vm_compute; reflexivity. Qed.

End TopicIdGeneratorProps.

Lemma Z_gtb_false (a b : Z) : (a <= b)%Z -> (a >? b)%Z = false.
Proof. intros H. rewrite Z.gtb_ltb. apply Z.ltb_ge. exact H. Qed.

Module AuthRoutesProps.

Import Joi Storage AuthRoutes.

Section Routes.

Variable validate : schema -> json -> string + json.
Variable toLowerCase : string -> string.

Local Abbreviation reset_password := (reset_password validate toLowerCase).
Local Abbreviation reset_all := (reset_all validate toLowerCase).
Local Abbreviation well_formed_with := (well_formed_with validate).

(** A used, unexpired token stays as it is under any reset attempt, and a
    well-formed attempt with that token is answered "already used". *)
Lemma reset_password_used_token
    (s : storage) (t : string) (d : TokenData) (x : attempt) :
  resetTokens s !! t = Some d ->
  used d = true ->
  (attempt_now x <= expiry d)%Z ->
  let '(r, s') :=
    reset_password (attempt_body x) (attempt_now x) (attempt_usedAt x) s in
  resetTokens s' !! t = Some d
  /\ (well_formed_with t x -> r = already_used).
Proof.
  intros Ht Hused Hnow.
  destruct x as [body now usedAt]. simpl in *.
  unfold AuthRoutes.reset_password.
  assert (Hnull : resetTokens s !! t = Some d
                  /\ (AuthRoutes.well_formed_with validate t
                        {| attempt_body := JNull; attempt_now := now;
                           attempt_usedAt := usedAt |} ->
                      unexpected = already_used)).
  { split; [exact Ht|]. intros (v & e & Hb & _). contradiction Hb. reflexivity. }
  destruct body; try exact Hnull; clear Hnull;
    (destruct (validate resetPasswordSchema _) as [msg|value] eqn:Ev;
     [ split; [exact Ht|];
       intros (v & e & _ & Hv & _); simpl in Hv; congruence |]);
    (destruct (members value !! "email") as [[ | | |email| | ]|] eqn:Ee;
     try (split; [exact Ht|];
          intros (v & e & _ & Hv & _ & He); simpl in Hv;
          rewrite Ev in Hv; injection Hv as <-; congruence));
    (destruct (members value !! "token") as [[ | | |t'| | ]|] eqn:Et; simpl;
     try (split; [exact Ht|];
          intros (v & e & _ & Hv & Htok & _); simpl in Hv;
          rewrite Ev in Hv; injection Hv as <-; congruence));
    (destruct (decide (t' = t)) as [->|Hne];
     [ rewrite Ht;
       assert (E : (now >? expiry d)%Z = false) by (apply Z_gtb_false; lia);
       rewrite E, Hused; split; [exact Ht | reflexivity]
     | destruct (resetTokens s !! t') as [d'|] eqn:Et';
       [ destruct (now >? expiry d')%Z; simpl;
         [ rewrite lookup_delete_ne by exact Hne
         | destruct (used d'); simpl;
           [ | destruct (negb (Storage.email d' =? toLowerCase email)%string);
               simpl; [ | rewrite lookup_insert_ne by exact Hne ] ] ]
       | ];
       (split; [exact Ht|]);
       intros (v & e & _ & Hv & Htok & _); simpl in Hv;
       rewrite Ev in Hv; injection Hv as <-; congruence ]).
Qed.

Lemma reset_all_used_token
    (later : list attempt) (s : storage) (t : string) (d : TokenData) :
  resetTokens s !! t = Some d ->
  used d = true ->
  Forall (fun x => (attempt_now x <= expiry d)%Z) later ->
  forall i x,
    later !! i = Some x ->
    well_formed_with t x ->
    fst (reset_all later s) !! i = Some already_used.
Proof.
  revert s. induction later as [|y later IH]; intros s Ht Hused Hall i x Hi Hx.
  - discriminate Hi.
  - apply Forall_cons in Hall as [Hy Hall].
    pose proof (reset_password_used_token s t d y Ht Hused Hy) as Hstep.
    simpl.
    destruct (AuthRoutes.reset_password validate toLowerCase (attempt_body y)
                (attempt_now y) (attempt_usedAt y) s) as [r s1].
    destruct Hstep as [Ht1 Hr].
    specialize (IH s1 Ht1 Hused Hall).
    destruct (AuthRoutes.reset_all validate toLowerCase later s1) as [rs s2] eqn:Er.
    destruct i as [|i]; simpl in *.
    + injection Hi as ->. rewrite (Hr Hx). reflexivity.
    + apply (IH i x Hi Hx).
Qed.

(** C4.  A stored token that is unused and unexpired is accepted by the
    first well-formed reset attempt that carries it with the matching
    email, which marks it used; after that, every well-formed attempt with
    the same token that arrives before the token expires is rejected as
    already used. *)
Theorem reset_token_accepted_exactly_once
    (s : storage) (t : string) (d : TokenData)
    (first : attempt) (value : json) (email : string)
    (later : list attempt) :
  resetTokens s !! t = Some d ->
  used d = false ->
  (attempt_now first <= expiry d)%Z ->
  attempt_body first <> JNull ->
  validate resetPasswordSchema (attempt_body first) = inr value ->
  members value !! "token" = Some (JString t) ->
  members value !! "email" = Some (JString email) ->
  Storage.email d = toLowerCase email ->
  Forall (fun x => (attempt_now x <= expiry d)%Z) later ->
  exists (s1 : storage) (d1 : TokenData),
    reset_password (attempt_body first) (attempt_now first)
        (attempt_usedAt first) s
      = (success "Password has been reset successfully. You can now log in with your new password.", s1)
    /\ resetTokens s1 !! t = Some d1
    /\ used d1 = true
    /\ expiry d1 = expiry d
    /\ (forall i x,
          later !! i = Some x ->
          well_formed_with t x ->
          fst (reset_all later s1) !! i = Some already_used).
Proof.
  intros Ht Hunused Hnow Hbody Hv Htok Hemail Hmatch Hlater.
  set (d1 := {| Storage.email := Storage.email d; expiry := expiry d;
                used := true; Storage.createdAt := Storage.createdAt d;
                Storage.ip := Storage.ip d;
                usedAt := Some (attempt_usedAt first) |}).
  exists (with_resetTokens s (<[t := d1]> (resetTokens s))), d1.
  assert (Hd1 : resetTokens (with_resetTokens s (<[t := d1]> (resetTokens s))) !! t
                = Some d1) by apply lookup_insert_eq.
  split; [|split; [exact Hd1|split; [reflexivity|split; [reflexivity|]]]].
  - unfold AuthRoutes.reset_password.
    assert (E : (attempt_now first >? expiry d)%Z = false)
      by (apply Z_gtb_false; lia).
    destruct (attempt_body first); try (contradiction Hbody; reflexivity);
      rewrite Hv, Hemail, Htok; simpl; rewrite Ht, E, Hunused, <- Hmatch;
      rewrite String.eqb_refl; reflexivity.
  - apply (reset_all_used_token later _ t d1 Hd1 eq_refl Hlater).
Qed.

End Routes.

(** The sample token is accepted once and refused the second time. *)
Lemma reset_token_accepted_exactly_once_witness :
  exists s1 : storage,
    reset_password validate_strict Samples.lower
        (attempt_body Samples.first_attempt) (attempt_now Samples.first_attempt)
        (attempt_usedAt Samples.first_attempt) Samples.store_with_token
      = (success "Password has been reset successfully. You can now log in with your new password.", s1)
    /\ fst (reset_all validate_strict Samples.lower [Samples.second_attempt] s1)
         !! 0%nat = Some already_used.
Proof.
  destruct (reset_token_accepted_exactly_once validate_strict Samples.lower
              Samples.store_with_token "c0ffee" Samples.token_data
              Samples.first_attempt Samples.reset_body "Ann@Example.org"
              [Samples.second_attempt])
    as (s1 & d1 & Hrun & _ & _ & _ & Hlater).
  - vm_compute. reflexivity.
  - reflexivity.
  - vm_compute. discriminate.
  - discriminate.
  - vm_compute. reflexivity.
  - vm_compute. reflexivity.
  - vm_compute. reflexivity.
  - vm_compute. reflexivity.
  - repeat constructor. vm_compute. discriminate.
  - exists s1. split; [exact Hrun|].
    apply (Hlater 0%nat Samples.second_attempt eq_refl).
    exists Samples.reset_body, "Ann@Example.org".
    split; [discriminate|].
    repeat split; vm_compute; reflexivity.
Defined.

End AuthRoutesProps.

Module DashboardRoutesProps.

Import Joi Storage DashboardRoutes.

(** ** What the schemas guarantee *)

Lemma js_or_default (a : jsval) (x : json) : is_Some (js_or a (Some x)).
Proof.
  unfold js_or. destruct (truthy a) eqn:E; [|eauto].
  destruct a; [eauto | discriminate E].
Qed.

Lemma conforms_required ks (m : obj) (k : string) (s : schema) :
  conforms (object_ (Some ks)) (JObject m) = true ->
  In (k, (s, true)) ks ->
  exists x, m !! k = Some x /\ conforms s x = true.
Proof.
  simpl. intros H Hin. apply andb_true_iff in H as [H _].
  induction ks as [|[k' [s' r']] ks IH]; [destruct Hin|].
  apply andb_true_iff in H as [H1 H2].
  destruct Hin as [E|Hin]; [|apply IH; assumption].
  injection E as -> -> ->.
  destruct (m !! k) as [x|]; [eauto | discriminate H1].
Qed.

Lemma conforms_publish (v : json) :
  conforms publishDashboardSchema v = true ->
  exists (m : obj) (id : string) (ws : list json),
    v = JObject m
    /\ m !! "id" = Some (JString id)
    /\ m !! "widgets" = Some (JArray ws).
Proof.
  intros H. destruct v as [ | | | | |m]; try discriminate H.
  destruct (conforms_required _ m "id" (string_ 0) H) as (x & Hx & Cx);
    [simpl; auto|].
  destruct (conforms_required _ m "widgets" (array_ None) H) as (y & Hy & Cy);
    [simpl; auto 10|].
  destruct x as [ | | |id| | ]; try discriminate Cx.
  destruct y as [ | | | |ws| ]; try discriminate Cy.
  eauto 6.
Qed.

Lemma conforms_save_keys (v : json) (k : string) :
  conforms saveDashboardSchema v = true ->
  k ∉ (list_to_set ["id"; "name"; "widgets"; "layout"; "deviceCount"; "stats"]
         : gset string) ->
  members v !! k = None.
Proof.
  destruct v as [ | | | | |m]; try discriminate. simpl.
  intros H Hk. apply andb_true_iff in H as [_ H].
  apply bool_decide_eq_true in H.
  apply not_elem_of_dom. intros Hin. apply Hk, H, Hin.
Qed.

Section Routes.

Variable validate : schema -> json -> string + json.
Variable w : TopicIdGenerator.host.
Variable fuel : nat.

(** Joi's contract: a value returned without an error conforms to the
    schema. *)
Hypothesis validate_conforms :
  forall sch body value, validate sch body = inr value -> conforms sch value = true.

Local Abbreviation update := (update validate).
Local Abbreviation publish := (publish validate).
Local Abbreviation reachable := (reachable validate w fuel).

(** [PUT /update/:id] writes the dashboard map only. *)
Lemma update_frame dashboardId user_id body updatedAt (a : app) :
  sharedDashboards (store (snd (update dashboardId user_id body updatedAt a)))
  = sharedDashboards (store a).
Proof.
  unfold DashboardRoutes.update.
  destruct (is_null body); [reflexivity|].
  destruct (validate saveDashboardSchema body); [reflexivity|].
  destruct (dashboards (store a) !! dashboardId) as [d|]; [|reflexivity].
  destruct (negb (strict_eq (d !! "userId") _)); [reflexivity|].
  destruct (length_of _); reflexivity.
Qed.

Lemma dashboardData_id (m : obj) :
  dashboardData_of (JObject m) !! "id" = m !! "id".
Proof.
  unfold dashboardData_of.
  destruct (js_or_default (js_or (members (JObject m) !! "layout")
                                 (members (JObject m) !! "layouts"))
                          (JObject ∅)) as [layout ->].
  simpl. apply lookup_insert_ne. discriminate.
Qed.

(** A successful publish, taken apart. *)
Lemma publish_ok
    (user_id : jsval) (body : json) (e : publish_env) (a a' : app)
    (res : response) :
  publish user_id body e a = (res, a') ->
  status res = 200%Z ->
  exists (m existing : obj) (id : string) (ws : list json),
    validate publishDashboardSchema body = inr (JObject m)
    /\ m !! "id" = Some (JString id)
    /\ m !! "widgets" = Some (JArray ws)
    /\ dashboards (store a) !! id = Some existing
    /\ a' = with_store a
              (store_published e existing (dashboardData_of (JObject m)) (store a)).
Proof.
  unfold DashboardRoutes.publish. intros Hrun Hok.
  destruct (is_null body); [injection Hrun as <- _; discriminate Hok|].
  destruct (validate publishDashboardSchema body) as [msg|value] eqn:Ev;
    [injection Hrun as <- _; discriminate Hok|].
  pose proof (validate_conforms _ _ _ Ev) as Hc.
  apply conforms_publish in Hc as (m & id & ws & -> & Hid & Hws).
  cbv zeta in Hrun. rewrite dashboardData_id, Hid in Hrun.
  simpl get_key in Hrun.
  destruct (dashboards (store a) !! id) as [existing|] eqn:Hex;
    [|injection Hrun as <- _; discriminate Hok].
  destruct (negb (strict_eq (existing !! "userId") _));
    [injection Hrun as <- _; discriminate Hok|].
  destruct (length_of _); [|injection Hrun as <- _; discriminate Hok].
  injection Hrun as _ <-. eauto 10.
Qed.

Lemma publishedDashboard_widgets (e : publish_env) (existing m : obj)
    (ws : list json) :
  m !! "widgets" = Some (JArray ws) ->
  publishedDashboard_of e existing (dashboardData_of (JObject m)) !! "widgets"
  = Some (JArray ws).
Proof.
  intros Hws. unfold publishedDashboard_of, dashboardData_of, spread.
  rewrite !lookup_insert_ne by discriminate.
  apply lookup_union_Some_l.
  destruct (js_or_default (js_or (members (JObject m) !! "layout")
                                 (members (JObject m) !! "layouts"))
                          (JObject ∅)) as [layout ->].
  simpl. rewrite lookup_insert_ne by discriminate. exact Hws.
Qed.

(** The snapshot keeps the widgets and the id it is given. *)
Lemma sharedDashboardData_fields (e : publish_env) (published : obj)
    (id : string) (ws : list json) :
  published !! "widgets" = Some (JArray ws) ->
  sharedDashboardData e published (Some (JString id)) !! "widgets"
    = Some (JArray ws)
  /\ sharedDashboardData e published (Some (JString id)) !! "originalDashboardId"
    = Some (JString id).
Proof.
  intros Hws. unfold sharedDashboardData. rewrite Hws.
  change (js_or (Some (JArray ws)) (Some (JArray []))) with (Some (JArray ws)).
  destruct (js_or_default (published !! "layout") (JObject ∅)) as [x1 ->].
  destruct (js_or_default (published !! "name") (JString "Shared Dashboard"))
    as [x2 ->].
  match goal with
  | |- context [set_prop "stats" (js_or ?x (Some ?y))] =>
      destruct (js_or_default x y) as [x3 ->]
  end.
  destruct (published !! "publishedAt"); simpl; split;
    repeat first [ rewrite lookup_insert_ne by discriminate
                 | rewrite lookup_delete_ne by discriminate ];
    apply lookup_insert_eq.
Qed.

(** C3.  A successful publish stores, under the new shareable id, a
    snapshot whose widgets are the widgets of the dashboard as published
    (the array of the publish request, which is also what the dashboard map
    holds from then on); and an update of any dashboard after that, the
    published one included, leaves the shared-dashboard map, hence the
    snapshot with all its fields, as it was. *)
Theorem publish_snapshot_survives_update
    (user_id : jsval) (body : json) (e : publish_env) (a a' : app)
    (res : response) :
  publish user_id body e a = (res, a') ->
  status res = 200%Z ->
  exists (id : string) (published snapshot : obj) (ws : list json),
    dashboards (store a') !! id = Some published
    /\ sharedDashboards (store a') !! shareableId_of e = Some snapshot
    /\ snapshot !! "originalDashboardId" = Some (JString id)
    /\ published !! "widgets" = Some (JArray ws)
    /\ snapshot !! "widgets" = Some (JArray ws)
    /\ (forall dashboardId user_id' body' updatedAt',
          let a'' := snd (update dashboardId user_id' body' updatedAt' a') in
          sharedDashboards (store a'') = sharedDashboards (store a')
          /\ sharedDashboards (store a'') !! shareableId_of e = Some snapshot).
Proof.
  intros Hrun Hok.
  destruct (publish_ok _ _ _ _ _ _ Hrun Hok)
    as (m & existing & id & ws & Hv & Hid & Hws & Hex & ->).
  assert (Hdid : dashboardData_of (JObject m) !! "id" = Some (JString id))
    by (rewrite dashboardData_id; exact Hid).
  pose proof (publishedDashboard_widgets e existing m ws Hws) as Hpw.
  destruct (sharedDashboardData_fields e _ id ws Hpw) as [Hsw Hso].
  exists id, (publishedDashboard_of e existing (dashboardData_of (JObject m))),
    (sharedDashboardData e
       (publishedDashboard_of e existing (dashboardData_of (JObject m)))
       (Some (JString id))), ws.
  unfold store_published. rewrite Hdid. simpl.
  split; [apply lookup_insert_eq|].
  split; [apply lookup_insert_eq|].
  split; [exact Hso|]. split; [exact Hpw|]. split; [exact Hsw|].
  intros dashboardId user_id' body' updatedAt'.
  rewrite update_frame. simpl. split; [reflexivity | apply lookup_insert_eq].
Qed.

(** ** Published dashboards in the reachable states *)

Lemma spread_keeps (existing : obj) (value : json) (k : string) :
  members value !! k = None ->
  spread existing (members value) !! k = existing !! k.
Proof. intros H. unfold spread. apply lookup_union_r. exact H. Qed.




(** C10.  A read of a stored shared dashboard that supplies no password
    succeeds with the stored snapshot itself, [sharePassword] included; the
    read is rejected with 401 exactly when a truthy password is supplied
    that is not strictly equal to the stored [sharePassword], and succeeds
    with the snapshot otherwise. *)
Theorem shared_dashboard_readable_without_password
    (a : app) (shareableId : string) (snapshot : obj) :
  sharedDashboards (store a) !! shareableId = Some snapshot ->
  get_shared shareableId None a
    = {| status := 200;
         body := <["success" := JBool true]>
                 {["dashboard" := JObject snapshot]} |}
  /\ body (get_shared shareableId None a) !! "dashboard"
     = Some (JObject snapshot)
  /\ (forall password : jsval,
        status (get_shared shareableId password a) = 401%Z
        <-> truthy password = true
            /\ strict_eq password (snapshot !! "sharePassword") = false)
  /\ (forall password : jsval,
        status (get_shared shareableId password a) <> 401%Z ->
        get_shared shareableId password a = get_shared shareableId None a).
Proof.
  intros Hs. unfold get_shared. rewrite Hs. simpl.
  split; [reflexivity|]. split; [reflexivity|]. split.
  - intros password.
    destruct (truthy password); simpl;
      [destruct (strict_eq password (snapshot !! "sharePassword")); simpl|];
      split; try discriminate; try tauto; intros [H1 H2]; discriminate.
  - intros password.
    destruct (truthy password); simpl;
      [destruct (strict_eq password (snapshot !! "sharePassword")); simpl|];
      try reflexivity.
    intros H. contradiction H. reflexivity.
Qed.

End Routes.

Lemma validate_strict_conforms (sch : schema) (body value : json) :
  validate_strict sch body = inr value -> conforms sch value = true.
Proof.
  unfold validate_strict. destruct (conforms sch body) eqn:E; [|discriminate].
  intros H. injection H as <-. exact E.
Qed.

Lemma app_published_reachable :
  reachable validate_strict Samples.steady_host 1 Samples.app_published.
Proof.
  eapply (reachable_step _ _ _
            (Publish None Samples.publish_body Samples.env) Samples.app_saved).
  - eapply (reachable_step _ _ _
              (Save None Samples.save_body "2026-10-25T00:00:00.000Z"
                 "2026-10-25T00:00:00.000Z") initial).
    + apply reachable_initial.
    + vm_compute. reflexivity.
  - vm_compute. reflexivity.
Defined.

(** Publishing the sample dashboard and then updating it as its owner. *)
Lemma publish_snapshot_survives_update_witness :
  exists snapshot : obj,
    sharedDashboards (store Samples.app_published)
      !! shareableId_of Samples.env = Some snapshot
    /\ snapshot !! "widgets" = Some (JArray [Samples.widget])
    /\ status (fst (update validate_strict Samples.dashboard_id None
                      Samples.update_body "2026-10-27T00:00:00.000Z"
                      Samples.app_published)) = 200%Z
    /\ sharedDashboards
         (store (snd (update validate_strict Samples.dashboard_id None
                        Samples.update_body "2026-10-27T00:00:00.000Z"
                        Samples.app_published)))
         !! shareableId_of Samples.env = Some snapshot.
Proof.
  destruct (publish_snapshot_survives_update validate_strict
              validate_strict_conforms None Samples.publish_body Samples.env
              Samples.app_saved Samples.app_published
              (fst (publish validate_strict None Samples.publish_body
                      Samples.env Samples.app_saved)))
    as (id & published & snapshot & ws & _ & Hs & _ & Hp & Hw & Hupd).
  - vm_compute. reflexivity.
  - vm_compute. reflexivity.
  - exists snapshot. split; [exact Hs|].
    assert (Hws : ws = [Samples.widget]).
    { assert (H1 : exists s0, sharedDashboards (store Samples.app_published)
                     !! shareableId_of Samples.env = Some s0
                   /\ s0 !! "widgets" = Some (JArray [Samples.widget])).
      { eexists. split; vm_compute; reflexivity. }
      destruct H1 as (s0 & H1 & H2). rewrite Hs in H1. injection H1 as <-.
      rewrite Hw in H2. injection H2 as ->. reflexivity. }
    subst ws. split; [exact Hw|]. split; [vm_compute; reflexivity|].
    apply (Hupd Samples.dashboard_id None Samples.update_body
             "2026-10-27T00:00:00.000Z").
Defined.



(** Reading the snapshot of the published sample dashboard without a
    password. *)
Lemma shared_dashboard_readable_without_password_witness :
  exists snapshot : obj,
    body (get_shared (shareableId_of Samples.env) None Samples.app_published)
      !! "dashboard" = Some (JObject snapshot)
    /\ snapshot !! "sharePassword" = Some (JString "AB12CD").
Proof.
  exists (sharedDashboardData Samples.env
            (publishedDashboard_of Samples.env
               (match dashboards (store Samples.app_saved)
                        !! Samples.dashboard_id with
                | Some d => d
                | None => ∅
                end)
               (dashboardData_of Samples.publish_body))
            (Some (JString Samples.dashboard_id))).
  split; [|vm_compute; reflexivity].
  apply (shared_dashboard_readable_without_password Samples.app_published).
  vm_compute. reflexivity.
Defined.

End DashboardRoutesProps.


(* ===================================================================== *)
(** * Further properties                                                  *)
(* ===================================================================== *)

Module TopicIdGeneratorMore.

Import TopicIdGenerator TopicIdGeneratorHosts TopicIdGeneratorProps.

(** ** Decimal notation *)

Lemma length_decimal (k : nat) :
  forall (fuel : nat) (n : N),
    (k <= fuel)%nat ->
    (n < 10 ^ N.of_nat (S k))%N ->
    (k = 0%nat \/ 10 ^ N.of_nat k <= n)%N ->
    String.length (decimal (S fuel) n) = S k.
Proof.
  induction k as [|k IH]; intros fuel n Hfuel Hlt Hge.
  - simpl. change (10 ^ N.of_nat 1)%N with 10%N in Hlt.
    apply N.ltb_lt in Hlt. rewrite Hlt. reflexivity.
  - destruct Hge as [Hge|Hge]; [discriminate Hge|].
    rewrite Nat2N.inj_succ, N.pow_succ_r' in Hge.
    rewrite (Nat2N.inj_succ (S k)), N.pow_succ_r' in Hlt.
    assert (Hpos : (0 < 10 ^ N.of_nat k)%N) by (apply N.neq_0_lt_0, N.pow_nonzero; discriminate).
    assert (Hn : (n <? 10)%N = false) by (apply N.ltb_ge; nia).
    destruct fuel as [|fuel]; [lia|].
    change (decimal (S (S fuel)) n)
      with (if (n <? 10)%N then String (digit_char n) ""
            else decimal (S fuel) (n / 10)%N
                 +:+ String (digit_char (n mod 10)%N) "").
    rewrite Hn, length_append, (IH fuel (n / 10)%N); simpl; try lia.
    + apply N.Div0.div_lt_upper_bound. exact Hlt.
    + right. apply N.div_le_lower_bound; [discriminate | exact Hge].
Qed.

(** The decimal notation of a number of [k + 1] digits has [k + 1]
    characters. *)
Lemma length_toString (k : nat) (n : N) :
  (n < 10 ^ N.of_nat (S k))%N ->
  (k = 0%nat \/ 10 ^ N.of_nat k <= n)%N ->
  String.length (toString n) = S k.
Proof.
  intros Hlt Hge. unfold toString. apply length_decimal; try assumption.
  destruct Hge as [->|Hge]; [lia|].
  assert (H2 : (2 ^ N.of_nat k <= n)%N).
  { etransitivity; [|exact Hge]. apply N.pow_le_mono_l. lia. }
  assert (Hpos : (0 < n)%N).
  { eapply N.lt_le_trans; [|exact H2].
    apply N.neq_0_lt_0, N.pow_nonzero. discriminate. }
  apply (N.log2_le_pow2 n (N.of_nat k) Hpos) in H2. lia.
Qed.

Section Host.

Variable w : host.

(** ** The random numbers *)

Lemma to_int32_small (x : Z) : (0 <= x < 2 ^ 31)%Z -> to_int32 x = x.
Proof. intros H. unfold to_int32. rewrite Z.mod_small; lia. Qed.

Lemma read_value_bound (k p : nat) (acc : Z) :
  (0 <= acc)%Z ->
  ((acc + 1) * 256 ^ Z.of_nat k <= 2 ^ 31)%Z ->
  (0 <= read_value w k p acc < (acc + 1) * 256 ^ Z.of_nat k)%Z.
Proof.
  revert p acc. induction k as [|k IH]; intros p acc Hacc Hle.
  - simpl. lia.
  - rewrite Nat2Z.inj_succ, Z.pow_succ_r in * by lia.
    assert (Hpow : (0 < 256 ^ Z.of_nat k)%Z) by (apply Z.pow_pos_nonneg; lia).
    assert (Hb : (0 <= random_byte w p < 256)%Z).
    { unfold random_byte.
      pose proof (N.mod_lt (byte_at w p) 256 ltac:(discriminate)) as Hm.
      generalize dependent (byte_at w p mod 256)%N. intros b Hm. lia. }
    assert (Hshl : shl8 acc = (acc * 256)%Z).
    { unfold shl8. rewrite Z.shiftl_mul_pow2 by lia.
      change (2 ^ 8)%Z with 256%Z. apply to_int32_small. nia. }
    simpl read_value. rewrite Hshl.
    specialize (IH (S p) (acc * 256 + random_byte w p)%Z).
    assert (H1 : (0 <= acc * 256 + random_byte w p)%Z) by lia.
    assert (H2 : ((acc * 256 + random_byte w p + 1) * 256 ^ Z.of_nat k
                  <= 2 ^ 31)%Z) by nia.
    specialize (IH H1 H2). nia.
Qed.

Lemma bytesNeeded_small (range : Z) :
  (0 < range <= 2 ^ 24)%Z -> (256 ^ Z.of_nat (bytesNeeded range) <= 2 ^ 31)%Z.
Proof.
  intros [Hpos Hle]. unfold bytesNeeded.
  assert (Hlog : (0 <= Z.log2_up range <= 24)%Z).
  { split; [apply Z.log2_up_nonneg|].
    apply (Z.log2_up_le_pow2 range 24 Hpos), Hle. }
  assert (Hk : (0 <= (Z.log2_up range + 7) / 8 <= 3)%Z).
  { split; [apply Z.div_pos; lia|].
    apply Z.lt_succ_r, Z.div_lt_upper_bound; lia. }
  rewrite Z2Nat.id by lia.
  etransitivity; [apply (Z.pow_le_mono_r 256 _ 3); lia|].
  vm_compute. discriminate.
Qed.

(** An accepted sample is not negative, and the result is [min] plus its
    remainder. *)
Lemma secureRandom_accepted
    (fuel : nat) (min max : Z) (p p' : nat) (r : Z) :
  (min <= max)%Z ->
  (max - min + 1 <= 2 ^ 24)%Z ->
  secureRandom w fuel min max p = Some (r, p') ->
  exists v : Z, (0 <= v)%Z /\ r = (min + Z.rem v (max - min + 1))%Z.
Proof.
  intros Hmm Hrange. revert p.
  induction fuel as [|fuel IH]; intros p H; [discriminate|].
  simpl in H.
  destruct (read_value w (bytesNeeded (max - min + 1)) p 0
            >? maxValidValue (max - min + 1))%Z; [exact (IH _ H)|].
  injection H as <- _.
  pose proof (bytesNeeded_small (max - min + 1) ltac:(lia)) as Hk.
  pose proof (read_value_bound (bytesNeeded (max - min + 1)) p 0
                ltac:(lia) ltac:(lia)) as Hv.
  exists (read_value w (bytesNeeded (max - min + 1)) p 0).
  split; [lia | reflexivity].
Qed.

Lemma rem_offset_bounds (min max v : Z) :
  (min <= max)%Z -> (0 <= v)%Z ->
  (min <= min + Z.rem v (max - min + 1) <= max)%Z.
Proof.
  intros Hmm Hv.
  pose proof (Z.rem_bound_pos v (max - min + 1) Hv ltac:(lia)). lia.
Qed.

(** X1.  For a range of at most 2^24 values, what [secureRandom(min, max)]
    returns lies between [min] and [max], both included. *)
Theorem secureRandom_within_bounds
    (fuel : nat) (min max : Z) (p p' : nat) (r : Z) :
  (min <= max)%Z ->
  (max - min + 1 <= 2 ^ 24)%Z ->
  secureRandom w fuel min max p = Some (r, p') ->
  (min <= r <= max)%Z.
Proof.
  intros Hmm Hrange H.
  destruct (secureRandom_accepted fuel min max p p' r Hmm Hrange H)
    as (v & Hv & ->).
  apply rem_offset_bounds; assumption.
Qed.

(** ** Candidates under a 13-digit clock *)

Lemma candidate_shape fuel attempts st c attempts' st' :
  thirteen_digit_clock w ->
  candidate w fuel attempts st = Some (c, attempts', st') ->
  String.length c = 15%nat
  /\ attempts' = S attempts
  /\ clock st' = S (clock st).
Proof.
  intros Hclock. unfold candidate.
  assert (Hts : String.length (toString (now_at w (clock st))) = 13%nat).
  { destruct (Hclock (clock st)) as [H1 H2].
    apply (length_toString 12); [exact H2 | right; exact H1]. }
  destruct (secureRandom w fuel 10 99 (cursor st)) as [[r p1]|] eqn:E1;
    [|discriminate].
  apply secureRandom_accepted in E1 as (v1 & Hv1 & Er);
    [|lia|vm_compute; discriminate].
  assert (E1 : (10 <= r <= 99)%Z)
    by (rewrite Er; apply rem_offset_bounds; [lia | exact Hv1]).
  destruct (100 <? S attempts)%nat.
  - destruct (secureRandom w fuel 1000 9999 p1) as [[e p2]|] eqn:E2;
      [|discriminate].
    apply secureRandom_accepted in E2 as (v2 & Hv2 & Ee);
      [|lia|vm_compute; discriminate].
    assert (E2 : (1000 <= e <= 9999)%Z)
      by (rewrite Ee; apply rem_offset_bounds; [lia | exact Hv2]).
    intros H. injection H as <- <- <-. simpl.
    rewrite length_append, length_prefix, Hts.
    rewrite (length_toString 3 (Z.to_N e)).
    + auto.
    + change (10 ^ N.of_nat 4)%N with 10000%N. lia.
    + right. change (10 ^ N.of_nat 3)%N with 1000%N. lia.
  - intros H. injection H as <- <- <-. simpl.
    rewrite length_append, Hts.
    rewrite (length_toString 1 (Z.to_N r)).
    + auto.
    + change (10 ^ N.of_nat 2)%N with 100%N. lia.
    + right. change (10 ^ N.of_nat 1)%N with 10%N. lia.
Qed.

Lemma attempt_loop_exit fuel n attempts st c s1 :
  thirteen_digit_clock w ->
  (attempts + n = maxAttempts)%nat ->
  (1 <= n)%nat ->
  attempt_loop w fuel n attempts st = Some (c, s1) ->
  String.length c = 15%nat
  /\ (usedIds_has c (usedIds s1) = false
      \/ (clock s1 + attempts = clock st + maxAttempts)%nat).
Proof.
  intros Hclock. revert attempts st.
  induction n as [|n IH]; intros attempts st Hsum Hn; [lia|].
  simpl.
  destruct (candidate w fuel attempts st) as [[[c0 a] s0]|] eqn:E;
    [|discriminate].
  destruct (candidate_shape _ _ _ _ _ _ Hclock E) as (Hlen & -> & Hc).
  destruct (usedIds_has c0 (usedIds s0)) eqn:Hhas; simpl.
  - destruct (S attempts <? maxAttempts)%nat eqn:Hlt.
    + apply Nat.ltb_lt in Hlt. intros H.
      destruct n as [|n]; [lia|].
      destruct (IH (S attempts) s0 ltac:(lia) ltac:(lia) H) as [H1 H2].
      split; [exact H1|]. destruct H2 as [H2|H2]; [left; exact H2|].
      right. lia.
    + apply Nat.ltb_ge in Hlt. intros H. injection H as <- <-.
      split; [exact Hlen|]. right. lia.
  - intros H. injection H as <- <-. split; [exact Hlen|]. left. exact Hhas.
Qed.

(** X2.  Under a 13-digit clock, [generateTopicId] returns an identifier
    that [usedIds] already holds only when its loop has made all 1000
    attempts, reading the clock once in each; otherwise the identifier is
    new to [usedIds]. *)
Theorem generateTopicId_repeats_only_after_exhaustion
    (fuel : nat) (st st' : state) (id : string) :
  thirteen_digit_clock w ->
  generateTopicId w fuel st = Some (id, st') ->
  usedIds_has id (usedIds st) = true ->
  (clock st' = clock st + maxAttempts)%nat.
Proof.
  intros Hclock Hgen Hused. unfold generateTopicId in Hgen.
  destruct (attempt_loop w fuel maxAttempts 0 st) as [[c s1]|] eqn:E;
    [|discriminate].
  pose proof (attempt_loop_usedIds _ _ _ _ _ _ _ E) as Hids.
  destruct (attempt_loop_exit fuel maxAttempts 0 st c s1 Hclock eq_refl
              ltac:(unfold maxAttempts; lia) E) as [Hlen Hexit].
  destruct (usedIds_has c (usedIds s1)) eqn:Hhas.
  - destruct Hexit as [Hexit|Hexit]; [discriminate|].
    injection Hgen as _ <-. simpl. lia.
  - exfalso. injection Hgen as <- _.
    unfold fix_length in Hused. rewrite Hlen in Hused. simpl in Hused.
    rewrite Hids in Hhas. congruence.
Qed.

(** ** The record of issued identifiers *)

Lemma usedIds_has_app (x : string) (l1 l2 : list string) :
  usedIds_has x (l1 ++ l2) = usedIds_has x l1 || usedIds_has x l2.
Proof. apply existsb_app. Qed.

Lemma usedIds_has_add (x y : string) (ids : list string) :
  usedIds_has x (usedIds_add y ids) = String.eqb x y || usedIds_has x ids.
Proof.
  unfold usedIds_add. destruct (usedIds_has y ids) eqn:Hy.
  - destruct (String.eqb_spec x y) as [->|_]; [rewrite Hy|]; reflexivity.
  - rewrite usedIds_has_app. simpl. rewrite orb_false_r. apply orb_comm.
Qed.

Lemma length_usedIds_add (y : string) (ids : list string) :
  (length ids <= length (usedIds_add y ids) <= S (length ids))%nat.
Proof.
  unfold usedIds_add. destruct (usedIds_has y ids); [lia|].
  rewrite length_app. simpl. lia.
Qed.

Lemma rebuild_has (x : string) (l acc : list string) :
  usedIds_has x (fold_left (fun s id => usedIds_add id s) l acc)
  = usedIds_has x acc || usedIds_has x l.
Proof.
  revert acc. induction l as [|y l IH]; intros acc; simpl.
  - rewrite orb_false_r. reflexivity.
  - rewrite IH, usedIds_has_add.
    destruct (x =? y)%string, (usedIds_has x acc), (usedIds_has x l);
      reflexivity.
Qed.

Lemma rebuild_length (l acc : list string) :
  (length (fold_left (fun s id => usedIds_add id s) l acc)
   <= length acc + length l)%nat.
Proof.
  revert acc. induction l as [|y l IH]; intros acc; simpl; [lia|].
  specialize (IH (usedIds_add y acc)).
  pose proof (length_usedIds_add y acc). lia.
Qed.

Lemma prune_length (ids : list string) :
  (Z.of_nat (length ids) <= 10001)%Z ->
  (Z.of_nat (length (prune ids)) <= 10000)%Z.
Proof.
  intros H. unfold prune.
  destruct (10000 <? Z.of_nat (length ids))%Z eqn:E.
  - apply Z.ltb_lt in E.
    pose proof (rebuild_length
                  (skipn (Z.to_nat (Z.of_nat (length ids) - 5000)) ids) []) as Hl.
    rewrite length_skipn in Hl. simpl in Hl. lia.
  - apply Z.ltb_ge in E. exact E.
Qed.

Lemma prune_keeps_last (ids : list string) (x : string) :
  usedIds_has x (prune (ids ++ [x])) = true.
Proof.
  unfold prune.
  destruct (10000 <? Z.of_nat (length (ids ++ [x])))%Z eqn:E.
  - rewrite rebuild_has. simpl.
    rewrite length_app in *. simpl in *.
    rewrite skipn_app.
    replace (Z.to_nat (Z.of_nat (length ids + 1) - 5000) - length ids)%nat
      with 0%nat by (apply Z.ltb_lt in E; lia).
    simpl. rewrite usedIds_has_app. simpl.
    rewrite String.eqb_refl, orb_true_r. reflexivity.
  - rewrite usedIds_has_app. simpl.
    rewrite String.eqb_refl, orb_true_r. reflexivity.
Qed.

(** X3.  If [usedIds] holds at most 10000 identifiers before a call of
    [generateTopicId], it holds at most 10000 after it, and the identifier
    the call returns is among them. *)
Theorem generateTopicId_records_and_bounds
    (fuel : nat) (st st' : state) (id : string) :
  (Z.of_nat (length (usedIds st)) <= 10000)%Z ->
  generateTopicId w fuel st = Some (id, st') ->
  (Z.of_nat (length (usedIds st')) <= 10000)%Z
  /\ usedIds_has id (usedIds st') = true.
Proof.
  intros Hsize Hgen. unfold generateTopicId in Hgen.
  destruct (attempt_loop w fuel maxAttempts 0 st) as [[c s1]|] eqn:E;
    [|discriminate].
  pose proof (attempt_loop_usedIds _ _ _ _ _ _ _ E) as Hids.
  assert (Hgoal : forall (x : string) (ids : list string),
    (Z.of_nat (length ids) <= 10000)%Z ->
    (Z.of_nat (length (prune (usedIds_add x ids))) <= 10000)%Z
    /\ usedIds_has x (prune (usedIds_add x ids)) = true).
  { intros x ids Hle. split.
    - apply prune_length. pose proof (length_usedIds_add x ids). lia.
    - unfold usedIds_add. destruct (usedIds_has x ids) eqn:Hx.
      + unfold prune.
        replace (10000 <? Z.of_nat (length ids))%Z with false
          by (symmetry; apply Z.ltb_ge; exact Hle).
        exact Hx.
      + apply prune_keeps_last. }
  destruct (usedIds_has c (usedIds s1));
    injection Hgen as <- <-; simpl; apply Hgoal; rewrite Hids; exact Hsize.
Qed.

End Host.

(** On the steady host the first random number is 10. *)
Lemma secureRandom_within_bounds_witness : (10 <= 10 <= 99)%Z.
Proof.
  apply (secureRandom_within_bounds Samples.steady_host 1 10 99 0 1 10).
  - lia.
  - vm_compute. discriminate.
  - vm_compute. reflexivity.
Defined.

(** On [Samples.colliding_host] the second call returns the identifier of
    the first after reading the clock 1000 times. *)
Lemma generateTopicId_repeats_only_after_exhaustion_witness :
  (1001 = 1 + maxAttempts)%nat.
Proof.
  apply (generateTopicId_repeats_only_after_exhaustion Samples.colliding_host 1
           {| usedIds := ["179300000005510"]; clock := 1; cursor := 1 |}
           {| usedIds := ["179300000005510"]; clock := 1001; cursor := 2809 |}
           "179300000005510").
  - intros k. vm_compute. split; [intros H; discriminate H | reflexivity].
  - vm_compute. reflexivity.
  - vm_compute. reflexivity.
Defined.

(** The first identifier of the steady host is recorded. *)
Lemma generateTopicId_records_and_bounds_witness :
  (Z.of_nat (length ["179300000005510"]) <= 10000)%Z
  /\ usedIds_has "179300000005510" ["179300000005510"] = true.
Proof.
  apply (generateTopicId_records_and_bounds Samples.steady_host 1 initial
           {| usedIds := ["179300000005510"]; clock := 1; cursor := 1 |}
           "179300000005510").
  - vm_compute. discriminate.
  - vm_compute. reflexivity.
Defined.

End TopicIdGeneratorMore.


Module JSSetProps.

(** ** A [Set] of strings *)

Lemma same_value_zero_string (a : string) (y : json) :
  same_value_zero (JString a) y
  = match y with JString b => String.eqb a b | _ => false end.
Proof. destruct y; reflexivity. Qed.

Lemma set_has_string_app (a : string) (s1 s2 : list json) :
  set_has (JString a) (s1 ++ s2)
  = set_has (JString a) s1 || set_has (JString a) s2.
Proof. apply existsb_app. Qed.

Lemma set_has_add_string (a b : string) (s : list json) :
  set_has (JString a) (set_add (JString b) s)
  = String.eqb a b || set_has (JString a) s.
Proof.
  unfold set_add. destruct (set_has (JString b) s) eqn:Hb.
  - destruct (String.eqb_spec a b) as [->|_]; [rewrite Hb|]; reflexivity.
  - rewrite set_has_string_app. simpl. rewrite orb_false_r. apply orb_comm.
Qed.

Lemma set_has_delete_string (a b : string) (s : list json) :
  set_has (JString a) (set_delete (JString b) s)
  = negb (String.eqb a b) && set_has (JString a) s.
Proof.
  unfold set_delete, set_has.
  induction s as [|y s IH]; cbn [List.filter existsb];
    [rewrite andb_false_r; reflexivity|].
  rewrite (same_value_zero_string b y), (same_value_zero_string a y).
  destruct y as [ | | |c| | ]; cbn [negb existsb orb]; rewrite ?IH;
    try reflexivity.
  destruct (String.eqb_spec b c) as [->|Hbc]; cbn [negb existsb].
  - rewrite IH. destruct (String.eqb_spec a c); reflexivity.
  - rewrite same_value_zero_string, IH.
    destruct (String.eqb_spec a c) as [->|Hac]; simpl; [|reflexivity].
    destruct (String.eqb_spec c b) as [->|_]; [contradiction | reflexivity].
Qed.

Lemma set_delete_absent (b : string) (s : list json) :
  set_has (JString b) s = false -> set_delete (JString b) s = s.
Proof.
  unfold set_delete, set_has.
  induction s as [|y s IH]; cbn [List.filter existsb]; [reflexivity|].
  intros H. apply orb_false_iff in H as [Hy Hs].
  rewrite Hy. cbn [negb]. rewrite (IH Hs). reflexivity.
Qed.

Lemma set_add_nonempty (x : json) (s : list json) : set_add x s <> [].
Proof.
  unfold set_add. destruct (set_has x s) eqn:E.
  - destruct s; [discriminate E | discriminate].
  - destruct s; discriminate.
Qed.

Lemma set_of_list_has (a : string) (l : list string) (acc : list json) :
  set_has (JString a)
    (fold_left (fun s x => set_add x s) (map JString l) acc)
  = set_has (JString a) acc || existsb (String.eqb a) l.
Proof.
  revert acc. induction l as [|b l IH]; intros acc; simpl.
  - rewrite orb_false_r. reflexivity.
  - rewrite IH, set_has_add_string.
    destruct (a =? b)%string, (set_has (JString a) acc); reflexivity.
Qed.

Lemma set_of_list_empty (l : list string) :
  set_of_list (map JString l) = [] <-> l = [].
Proof.
  split; [|intros ->; reflexivity].
  destruct l as [|b l]; [reflexivity|]. unfold set_of_list. simpl.
  assert (H : forall (xs acc : list json),
             acc <> [] -> fold_left (fun s x => set_add x s) xs acc <> []).
  { induction xs as [|x xs IH]; intros acc Hacc; simpl; [exact Hacc|].
    apply IH, set_add_nonempty. }
  intros E. exfalso. revert E. apply H, set_add_nonempty.
Qed.

End JSSetProps.

Module WSServiceMore.

Import MQTTService WSService JSSetProps.

Section Server.

Variable JSON_parse : string -> option json.
Variable JSON_stringify : json -> string.

(** What the fan-out does to one connection, whatever its state. *)
Lemma deliver_cases (payload : string) (record : MessageRecord) (ws : socket) :
  snd (deliver payload record ws) = ws
  \/ (readyState ws = OPEN
      /\ snd (deliver payload record ws)
         = {| readyState := readyState ws; subscriptions := subscriptions ws;
              sent := sent ws ++ [payload] |}).
Proof.
  unfold deliver, try_catch, bind, get, send, ret, OPEN.
  destruct (readyState ws =? 1)%Z eqn:E; simpl; [|left; reflexivity].
  assert (Hopen : readyState ws = 1%Z) by (apply Z.eqb_eq; exact E).
  destruct (subscriptions ws) as [subs|] eqn:Es; simpl.
  - destruct (negb (set_size subs =? 0)%nat); simpl.
    + destruct (set_has _ subs); simpl; [|left; reflexivity].
      rewrite E. simpl. rewrite Es. right. auto.
    + rewrite E. simpl. rewrite Es. right. auto.
  - rewrite E. simpl. rewrite Es. right. auto.
Qed.

(** X4.  The listener of the upstream client's events always returns
    normally; it keeps the number of connections, the ready state and the
    subscription set of each, hands each connection the envelope at most
    once, and leaves a connection that is not open exactly as it was. *)
Theorem fanout_is_isolated_and_at_most_once
    (svc : WSService) (record : MessageRecord) :
  exists svc' : WSService,
    on_mqtt_message JSON_stringify record svc = (Return tt, svc')
    /\ match wss svc, wss svc' with
       | None, None => True
       | Some clients, Some clients' =>
           length clients' = length clients
           /\ forall (i : nat) (ws : socket),
                clients !! i = Some ws ->
                exists ws' : socket,
                  clients' !! i = Some ws'
                  /\ readyState ws' = readyState ws
                  /\ subscriptions ws' = subscriptions ws
                  /\ (sent ws' = sent ws
                      \/ sent ws' = sent ws ++ [JSON_stringify (envelope record)])
                  /\ (readyState ws <> OPEN -> ws' = ws)
       | _, _ => False
       end.
Proof.
  unfold on_mqtt_message.
  destruct (wss svc) as [clients|] eqn:Hw.
  - rewrite for_each_total by apply WSServiceProps.deliver_total.
    eexists. split; [reflexivity|]. simpl.
    split; [apply length_map|].
    intros i ws Hi. eexists. split.
    { change (map ?f clients) with (f <$> clients).
      rewrite list_lookup_fmap, Hi. reflexivity. }
    destruct (deliver_cases (JSON_stringify (envelope record)) record ws)
      as [->|[Hopen ->]]; simpl; auto 6.
    repeat split; auto. intros H. contradiction.
  - exists svc. rewrite Hw. auto.
Qed.

(** X5.  A connection opened with a list of topics receives the envelope
    of an event exactly when the list is empty or names the event's topic. *)
Theorem connection_receives_declared_topics
    (svc : WSService) (clients : list socket) (topics : list string)
    (ws : socket) (record : MessageRecord) :
  wss svc = Some clients ->
  readyState ws = OPEN ->
  exists (clients' : list socket) (ws' : socket),
    on_mqtt_message JSON_stringify record (on_connection topics ws svc)
      = (Return tt, {| wss := Some clients' |})
    /\ clients' !! length clients = Some ws'
    /\ (delivered (JSON_stringify (envelope record)) ws ws'
        <-> topics = [] \/ In (topic record) topics).
Proof.
  intros Hw Hopen. unfold on_connection, on_mqtt_message. rewrite Hw. simpl.
  rewrite for_each_total by apply WSServiceProps.deliver_total.
  set (payload := JSON_stringify (envelope record)).
  set (subs := set_of_list (map JString topics)).
  eexists _, _. split; [reflexivity|]. split.
  { change (map ?f ?l) with (f <$> l).
    rewrite list_lookup_fmap, lookup_app_r by lia.
    rewrite Nat.sub_diag. reflexivity. }
  rewrite (WSServiceProps.deliver_open payload record
             (with_subscriptions ws subs) subs Hopen eq_refl).
  unfold delivered.
  assert (Hhas : set_has (JString (topic record)) subs
                 = existsb (String.eqb (topic record)) topics)
    by (unfold subs, set_of_list; apply set_of_list_has).
  destruct (set_size subs =? 0)%nat eqn:Esz; simpl.
  - split; [|reflexivity]. intros _. left.
    apply Nat.eqb_eq in Esz. apply set_of_list_empty.
    fold subs. destruct subs; [reflexivity | discriminate Esz].
  - assert (Hne : topics <> []).
    { intros ->. discriminate Esz. }
    rewrite Hhas.
    destruct (existsb (String.eqb (topic record)) topics) eqn:Ex; simpl.
    + split; [|reflexivity]. intros _. right.
      apply existsb_exists in Ex as (t & Hin & Ht).
      apply String.eqb_eq in Ht. subst t. exact Hin.
    + split.
      * intros H. symmetry in H.
        apply WSServiceProps.app_singleton_neq in H. contradiction.
      * intros [H|H]; [contradiction|]. exfalso.
        assert (Ex' : existsb (String.eqb (topic record)) topics = true).
        { apply existsb_exists. exists (topic record).
          split; [exact H | apply String.eqb_refl]. }
        congruence.
Qed.

(** ** Control messages *)

Lemma truthy_nonempty_string (t : string) :
  t <> "" -> truthy (Some (JString t)) = true.
Proof.
  intros H. simpl. destruct (String.eqb_spec t ""); [contradiction|reflexivity].
Qed.

(** What a well-formed subscribe or unsubscribe message does to the
    connection. *)
Lemma subscribe_message_run
    (msg : string) (m : obj) (t : string) (ws : socket) (subs : list json) :
  JSON_parse msg = Some (JObject m) ->
  m !! "action" = Some (JString "subscribe") ->
  m !! "topic" = Some (JString t) ->
  t <> "" ->
  subscriptions ws = Some subs ->
  on_ws_message JSON_parse msg ws
  = (Return tt,
     {| readyState := readyState ws;
        subscriptions := Some (set_add (JString t) subs);
        sent := sent ws |}).
Proof.
  intros Hp Ha Ht Hne Hs.
  unfold on_ws_message, try_catch, bind, JSON_parse_m, get_prop, ret,
    subscriptions_add, with_subscriptions.
  pose proof (truthy_nonempty_string t Hne) as Htruthy.
  rewrite Hp. cbn [bind]. simpl. rewrite Ha, Ht.
  cbn [strict_eq String.eqb Ascii.eqb Bool.eqb andb]. rewrite Htruthy.
  simpl. rewrite Hs. reflexivity.
Qed.

Lemma unsubscribe_message_run
    (msg : string) (m : obj) (t : string) (ws : socket) (subs : list json) :
  JSON_parse msg = Some (JObject m) ->
  m !! "action" = Some (JString "unsubscribe") ->
  m !! "topic" = Some (JString t) ->
  t <> "" ->
  subscriptions ws = Some subs ->
  on_ws_message JSON_parse msg ws
  = (Return tt,
     {| readyState := readyState ws;
        subscriptions := Some (set_delete (JString t) subs);
        sent := sent ws |}).
Proof.
  intros Hp Ha Ht Hne Hs.
  unfold on_ws_message, try_catch, bind, JSON_parse_m, get_prop, ret,
    subscriptions_delete, with_subscriptions.
  pose proof (truthy_nonempty_string t Hne) as Htruthy.
  rewrite Hp. cbn [bind]. simpl. rewrite Ha, Ht.
  cbn [strict_eq String.eqb Ascii.eqb Bool.eqb andb]. rewrite Htruthy.
  simpl. rewrite Hs. reflexivity.
Qed.

(** X6.  A subscribe message with a non-empty string topic adds that topic
    to the connection's subscription set and changes the membership of no
    other topic; nothing is sent and the ready state stays; when the topic
    is already subscribed the set is unchanged. *)
Theorem subscribe_message_adds_topic
    (msg : string) (m : obj) (t : string) (ws : socket) (subs : list json) :
  JSON_parse msg = Some (JObject m) ->
  m !! "action" = Some (JString "subscribe") ->
  m !! "topic" = Some (JString t) ->
  t <> "" ->
  subscriptions ws = Some subs ->
  exists subs' : list json,
    on_ws_message JSON_parse msg ws
      = (Return tt,
         {| readyState := readyState ws; subscriptions := Some subs';
            sent := sent ws |})
    /\ set_has (JString t) subs' = true
    /\ (forall t', t' <> t ->
          set_has (JString t') subs' = set_has (JString t') subs)
    /\ (set_has (JString t) subs = true -> subs' = subs).
Proof.
  intros Hp Ha Ht Hne Hs.
  exists (set_add (JString t) subs).
  split; [exact (subscribe_message_run msg m t ws subs Hp Ha Ht Hne Hs)|].
  split; [rewrite set_has_add_string, String.eqb_refl; reflexivity|].
  split.
  - intros t' Hneq. rewrite set_has_add_string.
    destruct (String.eqb_spec t' t); [contradiction | reflexivity].
  - intros H. unfold set_add. rewrite H. reflexivity.
Qed.

(** X7.  An unsubscribe message with a non-empty string topic removes that
    topic from the connection's subscription set and changes the membership
    of no other topic; nothing is sent and the ready state stays; when the
    topic is not subscribed the set is unchanged. *)
Theorem unsubscribe_message_removes_topic
    (msg : string) (m : obj) (t : string) (ws : socket) (subs : list json) :
  JSON_parse msg = Some (JObject m) ->
  m !! "action" = Some (JString "unsubscribe") ->
  m !! "topic" = Some (JString t) ->
  t <> "" ->
  subscriptions ws = Some subs ->
  exists subs' : list json,
    on_ws_message JSON_parse msg ws
      = (Return tt,
         {| readyState := readyState ws; subscriptions := Some subs';
            sent := sent ws |})
    /\ set_has (JString t) subs' = false
    /\ (forall t', t' <> t ->
          set_has (JString t') subs' = set_has (JString t') subs)
    /\ (set_has (JString t) subs = false -> subs' = subs).
Proof.
  intros Hp Ha Ht Hne Hs.
  exists (set_delete (JString t) subs).
  split; [exact (unsubscribe_message_run msg m t ws subs Hp Ha Ht Hne Hs)|].
  split; [rewrite set_has_delete_string, String.eqb_refl; reflexivity|].
  split.
  - intros t' Hneq. rewrite set_has_delete_string.
    destruct (String.eqb_spec t' t); [contradiction | reflexivity].
  - apply set_delete_absent.
Qed.

(** X8.  When an open connection unsubscribes from the only topic it is
    subscribed to, its subscription set becomes empty, and from then on it
    is handed the envelope of every event, whatever the topic. *)
Theorem unsubscribing_last_topic_receives_all
    (msg : string) (m : obj) (t : string) (ws : socket)
    (payload : string) (record : MessageRecord) :
  JSON_parse msg = Some (JObject m) ->
  m !! "action" = Some (JString "unsubscribe") ->
  m !! "topic" = Some (JString t) ->
  t <> "" ->
  readyState ws = OPEN ->
  subscriptions ws = Some [JString t] ->
  let ws1 := snd (on_ws_message JSON_parse msg ws) in
  subscriptions ws1 = Some []
  /\ delivered payload ws1 (snd (deliver payload record ws1)).
Proof.
  intros Hp Ha Ht Hne Hopen Hs.
  pose proof (unsubscribe_message_run msg m t ws [JString t]
                Hp Ha Ht Hne Hs) as Hrun.
  assert (Hsubs : set_delete (JString t) [JString t] = []).
  { unfold set_delete. simpl. rewrite String.eqb_refl. reflexivity. }
  rewrite Hsubs in Hrun. cbv zeta. rewrite Hrun. simpl.
  split; [reflexivity|].
  rewrite (WSServiceProps.deliver_open payload record
             {| readyState := readyState ws; subscriptions := Some [];
                sent := sent ws |} [] Hopen eq_refl).
  reflexivity.
Qed.

(** X9.  When an open connection with an empty subscription set, which is
    handed every event, subscribes to a topic, it is from then on handed
    the events of that topic only. *)
Theorem subscribing_first_topic_narrows
    (msg : string) (m : obj) (t : string) (ws : socket)
    (payload : string) (record : MessageRecord) :
  JSON_parse msg = Some (JObject m) ->
  m !! "action" = Some (JString "subscribe") ->
  m !! "topic" = Some (JString t) ->
  t <> "" ->
  readyState ws = OPEN ->
  subscriptions ws = Some [] ->
  let ws1 := snd (on_ws_message JSON_parse msg ws) in
  delivered payload ws (snd (deliver payload record ws))
  /\ (delivered payload ws1 (snd (deliver payload record ws1))
      <-> topic record = t).
Proof.
  intros Hp Ha Ht Hne Hopen Hs.
  pose proof (subscribe_message_run msg m t ws [] Hp Ha Ht Hne Hs) as Hrun.
  change (set_add (JString t) []) with [JString t] in Hrun.
  cbv zeta. rewrite Hrun. simpl. split.
  - rewrite (WSServiceProps.deliver_open payload record ws [] Hopen Hs).
    reflexivity.
  - rewrite (WSServiceProps.deliver_open payload record
               {| readyState := readyState ws;
                  subscriptions := Some [JString t]; sent := sent ws |}
               [JString t] Hopen eq_refl).
    unfold delivered. simpl. rewrite orb_false_r.
    destruct (String.eqb_spec (topic record) t) as [->|Hneq]; simpl.
    + split; reflexivity.
    + split; [|contradiction]. intros H. symmetry in H.
      apply WSServiceProps.app_singleton_neq in H. contradiction.
Qed.

End Server.

End WSServiceMore.


Module MQTTServiceMore.

Import Storage MQTTService MQTTRoutes MQTTServiceProps.

Section Service.

Variable JSON_parse : string -> option json.
Variable JSON_stringify : json -> string.
Variable cfg : config.

Local Abbreviation handle := (handle JSON_parse JSON_stringify cfg).
Local Abbreviation run := (run JSON_parse JSON_stringify cfg).

(** ** The cache of latest records *)

Lemma on_message_latest (m : message) (s : Service) :
  latestByTopic (handle (message_event m) s)
  = <[fst (fst m) := record_of JSON_parse m]> (latestByTopic s).
Proof.
  destruct m as [[t p] now]. unfold record_of. simpl.
  unfold on_message, try_catch, bind, modify, JSON_parse_m.
  destruct (JSON_parse p); reflexivity.
Qed.

(** X10.  After a sequence of inbound messages the cache holds, for each
    topic, the record of the last message on that topic, and for a topic
    without a message what it held before. *)
Theorem cache_holds_last_message_per_topic
    (ms : list message) (t : string) (s : Service) :
  getLatest t (run (map message_event ms) s)
  = match last_on t ms with
    | Some m => Some (record_of JSON_parse m)
    | None => getLatest t s
    end.
Proof.
  revert s. induction ms as [|m ms IH]; intros s; [reflexivity|].
  change (run (map message_event (m :: ms)) s)
    with (run (map message_event ms) (handle (message_event m) s)).
  rewrite IH. simpl last_on.
  destruct (last_on t ms); [reflexivity|].
  unfold getLatest. rewrite on_message_latest.
  destruct (String.eqb_spec (fst (fst m)) t) as [->|Hne].
  - apply lookup_insert_eq.
  - apply lookup_insert_ne. exact Hne.
Qed.

(** X11.  Nothing but an inbound message changes the cache: it survives
    connection loss, reconnection, subscription traffic, publishing and
    shutdown. *)
Theorem cache_survives_everything_but_messages
    (trace : list action) (s : Service) :
  forallb (fun a => negb (is_message a)) trace = true ->
  latestByTopic (run trace s) = latestByTopic s.
Proof.
  revert s. induction trace as [|a trace IH]; intros s H; [reflexivity|].
  simpl in H. apply andb_true_iff in H as [Ha H].
  change (run (a :: trace) s) with (run trace (handle a s)).
  rewrite (IH _ H). clear IH H.
  assert (Hfold : forall (A : Type) (f : Service -> A -> Service) (l : list A) s0,
            (forall s1 x, latestByTopic (f s1 x) = latestByTopic s1) ->
            latestByTopic (fold_left f l s0) = latestByTopic s0).
  { intros A f l. induction l as [|x l IHl]; intros s0 Hf; [reflexivity|].
    simpl. rewrite IHl by exact Hf. apply Hf. }
  assert (Hsub : forall s1 t o,
            latestByTopic (subscribe t o s1) = latestByTopic s1).
  { intros s1 t o. unfold subscribe, connect.
    destruct (client s1) eqn:E1; simpl; rewrite ?E1;
      destruct (isConnected s1); reflexivity. }
  destruct a; try discriminate Ha; simpl.
  - unfold connect. destruct (client s); reflexivity.
  - apply Hsub.
  - unfold unsubscribe. destruct (client s); [|reflexivity].
    destruct (isConnected s); reflexivity.
  - unfold publish, connect.
    destruct (client s) eqn:E1; simpl; rewrite ?E1; reflexivity.
  - reflexivity.
  - unfold on_connect. destruct (client s) as [c|]; [|reflexivity].
    rewrite Hfold by (intros; apply Hsub).
    rewrite Hfold by (intros; apply Hsub). reflexivity.
  - reflexivity.
  - reflexivity.
  - reflexivity.
  - unfold subscribe_done. destruct err; reflexivity.
  - unfold unsubscribe_done. destruct err; reflexivity.
Qed.

(** ** Requests made while the client is not connected *)

Lemma handle_before_connect_more (a : action) (s : Service) :
  before_connect a = true ->
  isConnected s = false ->
  unsubscribed (handle a s) = unsubscribed s
  /\ (is_Some (client s) -> is_Some (client (handle a s))).
Proof.
  intros Ha Hs. unfold unsubscribed.
  destruct a; try discriminate Ha; simpl;
    unfold connect, subscribe, unsubscribe, publish, on_close,
           subscribe_done, unsubscribe_done, connect;
    try (destruct err);
    try (destruct (on_message_frame JSON_parse t payload now s) as [-> _]);
    destruct (client s) as [c|] eqn:Ec; simpl;
    rewrite ?Hs, ?Ec; simpl; rewrite ?Hs, ?Ec; simpl;
    (split; [reflexivity | intros [x Hx]; try discriminate Hx; eauto]).
Qed.

Lemma run_before_connect_more (trace : list action) (s : Service) :
  forallb before_connect trace = true ->
  isConnected s = false ->
  unsubscribed (run trace s) = unsubscribed s
  /\ (is_Some (client s) -> is_Some (client (run trace s))).
Proof.
  revert s. induction trace as [|a trace IH]; intros s Hall Hs; [auto|].
  simpl in Hall. apply andb_true_iff in Hall as [Ha Hall].
  destruct (handle_before_connect JSON_parse JSON_stringify cfg a s Ha Hs)
    as (H1 & _ & _).
  destruct (handle_before_connect_more a s Ha Hs) as [H2 H3].
  destruct (IH (handle a s) Hall H1) as [I1 I2].
  change (run (a :: trace) s) with (run trace (handle a s)).
  rewrite I1, H2. auto.
Qed.

Lemma subscribe_keeps_unsubscribed (t : string) (o : json) (s : Service) :
  unsubscribed (subscribe t o s) = unsubscribed s.
Proof.
  unfold unsubscribed, subscribe, connect.
  destruct (client s) eqn:E1; simpl; rewrite ?E1;
    destruct (isConnected s); simpl; rewrite ?E1; reflexivity.
Qed.

Lemma on_connect_keeps_unsubscribed (s : Service) :
  unsubscribed (on_connect cfg s) = unsubscribed s.
Proof.
  assert (Hfold : forall (A : Type) (f : Service -> A -> Service) (l : list A) s0,
            (forall s1 x, unsubscribed (f s1 x) = unsubscribed s1) ->
            unsubscribed (fold_left f l s0) = unsubscribed s0).
  { intros A f l. induction l as [|x l IHl]; intros s0 Hf; [reflexivity|].
    simpl. rewrite IHl by exact Hf. apply Hf. }
  unfold on_connect. destruct (client s) as [c|] eqn:Ec; [|reflexivity].
  rewrite Hfold by (intros; apply subscribe_keeps_unsubscribed).
  rewrite Hfold by (intros; apply subscribe_keeps_unsubscribed).
  unfold unsubscribed. simpl. rewrite Ec. reflexivity.
Qed.

(** X12.  An unsubscribe requested before the client's first ['connect']
    event is dropped, not deferred: when the client connects, no
    unsubscribe has been handed to the library, while every subscribe
    requested in that time has. *)
Theorem unsubscribe_before_connect_is_dropped
    (trace : list action) :
  forallb before_connect trace = true ->
  let s' := handle EvConnect (run trace initial) in
  unsubscribed s' = []
  /\ (forall t o, In (CallSubscribe t o) trace -> In (t, o) (issued s')).
Proof.
  intros Hall s'.
  destruct (run_before_connect JSON_parse JSON_stringify cfg trace initial
              Hall eq_refl) as (H1 & H2 & H3).
  destruct (run_before_connect_more trace initial Hall eq_refl) as [H4 _].
  split.
  - unfold s'. simpl. rewrite on_connect_keeps_unsubscribed. exact H4.
  - intros t o Hin.
    assert (Hreq : In (t, o) (requested trace)).
    { unfold requested. apply in_flat_map.
      exists (CallSubscribe t o). split; [exact Hin | left; reflexivity]. }
    assert (Hc : is_Some (client (run trace initial))).
    { unfold pending in H2. destruct (client (run trace initial)); [eauto|].
      simpl in H2. rewrite <- H2 in Hreq. destruct Hreq. }
    destruct (on_connect_replays cfg _ Hc) as (_ & C2 & _).
    unfold s'. simpl. rewrite C2, H2.
    apply in_or_app. right. apply in_or_app. right. simpl. exact Hreq.
Qed.

(** X13.  Deferral also covers an outage: from any state in which the
    client exists and is not connected, the subscribe requests made until
    the next ['connect'] event are handed to the library at that event,
    after the configured topics, which are requested again, and after the
    requests that were already waiting. *)
Theorem subscribe_during_outage_is_replayed
    (s : Service) (trace : list action) :
  isConnected s = false ->
  is_Some (client s) ->
  forallb before_connect trace = true ->
  let s' := handle EvConnect (run trace s) in
  isConnected s' = true
  /\ issued s' = issued s ++ configured cfg ++ pending s ++ requested trace
  /\ pending s' = [].
Proof.
  intros Hs Hc Hall s'.
  destruct (run_before_connect JSON_parse JSON_stringify cfg trace s Hall Hs)
    as (H1 & H2 & H3).
  destruct (run_before_connect_more trace s Hall Hs) as [_ H4].
  destruct (on_connect_replays cfg _ (H4 Hc)) as (C1 & C2 & C3).
  unfold s'. simpl. rewrite C1, C2, C3, H2, H3. auto.
Qed.

(** X14.  [shutdown()] discards the requests that were waiting: when the
    service is connected again afterwards, only the configured topics and
    the requests made after the shutdown are handed to the new client. *)
Theorem shutdown_discards_waiting_requests
    (s : Service) (trace : list action) :
  forallb before_connect trace = true ->
  let s' := handle EvConnect (run (CallConnect :: trace) (shutdown s)) in
  issued s' = configured cfg ++ requested trace
  /\ pending s' = [].
Proof.
  intros Hall s'.
  change (run (CallConnect :: trace) (shutdown s))
    with (run trace (connect (shutdown s))) in s'.
  destruct (run_before_connect JSON_parse JSON_stringify cfg trace
              (connect (shutdown s)) Hall eq_refl) as (_ & H2 & H3).
  destruct (run_before_connect_more trace (connect (shutdown s)) Hall eq_refl)
    as [_ H4].
  destruct (on_connect_replays cfg _ (H4 (ex_intro _ new_client eq_refl)))
    as (_ & C2 & C3).
  unfold s'. simpl. rewrite C2, C3, H2, H3. split; reflexivity.
Qed.

(** ** [GET /latest] *)

(** X15.  After an inbound message on a topic, [GET /latest] for that
    topic answers 200 with the record of that message; for a topic without
    a cached record it answers 404, without a topic 400, and it never
    changes the cache. *)
Theorem latest_returns_last_inbound_message
    (t payload now : string) (s : Service) :
  t <> "" ->
  let s1 := handle (EvMessage t payload now) s in
  fst (latest (Some (JString t)) s1)
    = {| status := 200;
         body := <["success" := JBool true]>
                 {["data" := record_json
                               (record_of JSON_parse (t, payload, now))]} |}
  /\ (forall t', t' <> "" -> latestByTopic s1 !! t' = None ->
        status (fst (latest (Some (JString t')) s1)) = 404%Z)
  /\ status (fst (latest None s1)) = 400%Z
  /\ (forall q, latestByTopic (snd (latest q s1)) = latestByTopic s1).
Proof.
  intros Hne s1.
  assert (Hn : truthy (Some (JString t)) = true).
  { simpl. destruct (String.eqb_spec t ""); [contradiction | reflexivity]. }
  assert (Hc : forall s0, latestByTopic (connect s0) = latestByTopic s0).
  { intros s0. unfold connect. destruct (client s0); reflexivity. }
  split; [|split; [|split]].
  - unfold latest. rewrite Hn. cbn [negb get_key]. rewrite Hc.
    unfold s1.
    change (handle (EvMessage t payload now) s)
      with (handle (message_event (t, payload, now)) s).
    rewrite (on_message_latest (t, payload, now) s). cbn [fst].
    rewrite lookup_insert_eq. reflexivity.
  - intros t' Hne' Hnone. unfold latest.
    assert (Hn' : truthy (Some (JString t')) = true).
    { simpl. destruct (String.eqb_spec t' ""); [contradiction | reflexivity]. }
    rewrite Hn'. cbn [negb get_key]. rewrite Hc, Hnone. reflexivity.
  - reflexivity.
  - intros q. unfold latest.
    destruct (negb (truthy q)); [apply Hc|].
    destruct (get_key q (latestByTopic (connect s1))); apply Hc.
Qed.

End Service.

End MQTTServiceMore.


Module DashboardRoutesMore.

Import Joi Storage DashboardRoutes DashboardQueries DashboardRoutesProps.

Section Routes.

Variable validate : schema -> json -> string + json.
Variable w : TopicIdGenerator.host.
Variable fuel : nat.

Local Abbreviation save := (save validate w fuel).
Local Abbreviation update := (update validate).
Local Abbreviation publish := (publish validate).
Local Abbreviation handle := (handle validate w fuel).
Local Abbreviation reachable := (reachable validate w fuel).

(** X16.  A request that is answered with a status between 400 and 499
    (failed validation, unknown dashboard, caller not the owner) leaves the
    store and the topic id generator exactly as they were. *)
Theorem refused_request_changes_nothing
    (r : request) (a a' : app) (res : response) :
  handle r a = Some (res, a') ->
  (400 <= status res < 500)%Z ->
  a' = a.
Proof.
  intros Hrun Hst. destruct r as [u b c t | i u b t | u b e | i u];
    simpl in Hrun.
  - unfold DashboardRoutes.save in Hrun.
    destruct (is_null b); [injection Hrun as _ <-; reflexivity|].
    destruct (validate saveDashboardSchema b) as [msg|value];
      [injection Hrun as _ <-; reflexivity|].
    cbv zeta in Hrun.
    match type of Hrun with
    | match ?g with _ => _ end = _ => destruct g as [[id ids]|]; [|discriminate]
    end.
    destruct (length_of _); injection Hrun as <- _; simpl in Hst; lia.
  - injection Hrun as Hrun. unfold DashboardRoutes.update in Hrun.
    destruct (is_null b); [injection Hrun as _ <-; reflexivity|].
    destruct (validate saveDashboardSchema b) as [msg|value];
      [injection Hrun as _ <-; reflexivity|].
    destruct (dashboards (store a) !! i) as [existing|];
      [|injection Hrun as _ <-; reflexivity].
    destruct (negb (strict_eq (existing !! "userId") _));
      [injection Hrun as _ <-; reflexivity|].
    destruct (length_of _); injection Hrun as <- _; simpl in Hst; lia.
  - injection Hrun as Hrun. unfold DashboardRoutes.publish in Hrun.
    destruct (is_null b); [injection Hrun as _ <-; reflexivity|].
    destruct (validate publishDashboardSchema b) as [msg|value];
      [injection Hrun as _ <-; reflexivity|].
    cbv zeta in Hrun.
    destruct (get_key _ (dashboards (store a))) as [existing|];
      [|injection Hrun as _ <-; reflexivity].
    destruct (negb (strict_eq (existing !! "userId") _));
      [injection Hrun as _ <-; reflexivity|].
    destruct (length_of _); injection Hrun as <- _; simpl in Hst; lia.
  - injection Hrun as Hrun. unfold delete_dashboard in Hrun.
    destruct (dashboards (store a) !! i) as [existing|];
      [|injection Hrun as _ <-; reflexivity].
    destruct (negb (strict_eq (existing !! "userId") _));
      injection Hrun as <- <-; [reflexivity | simpl in Hst; lia].
Qed.

(** X17.  Update, publish and delete never touch a dashboard whose owner
    is not the caller: whatever such a request does, the stored dashboard
    of another user is afterwards what it was. *)
Theorem foreign_dashboard_is_protected
    (r : request) (a a' : app) (res : response) (id : string) (d : obj) :
  is_save r = false ->
  dashboards (store a) !! id = Some d ->
  strict_eq (d !! "userId") (Some (userId_of (caller r))) = false ->
  handle r a = Some (res, a') ->
  dashboards (store a') !! id = Some d.
Proof.
  intros Hns Hd Hown Hrun.
  destruct r as [u b c t | i u b t | u b e | i u]; [discriminate Hns| | | ];
    simpl in Hrun, Hown; injection Hrun as Hrun.
  - unfold DashboardRoutes.update in Hrun.
    destruct (is_null b); [injection Hrun as _ <-; exact Hd|].
    destruct (validate saveDashboardSchema b) as [msg|value];
      [injection Hrun as _ <-; exact Hd|].
    destruct (dashboards (store a) !! i) as [existing|] eqn:Hex;
      [|injection Hrun as _ <-; exact Hd].
    destruct (strict_eq (existing !! "userId") _) eqn:Hse; simpl in Hrun;
      [|injection Hrun as _ <-; exact Hd].
    assert (Hne : i <> id) by (intros ->; congruence).
    destruct (length_of _); injection Hrun as _ <-; simpl;
      rewrite lookup_insert_ne by exact Hne; exact Hd.
  - unfold DashboardRoutes.publish in Hrun.
    destruct (is_null b); [injection Hrun as _ <-; exact Hd|].
    destruct (validate publishDashboardSchema b) as [msg|value];
      [injection Hrun as _ <-; exact Hd|].
    cbv zeta in Hrun.
    destruct (get_key _ (dashboards (store a))) as [existing|] eqn:Hex;
      [|injection Hrun as _ <-; exact Hd].
    destruct (strict_eq (existing !! "userId") _) eqn:Hse; simpl in Hrun;
      [|injection Hrun as _ <-; exact Hd].
    assert (Hgoal : dashboards
                      (store_published e existing (dashboardData_of value)
                         (store a)) !! id = Some d).
    { unfold store_published. simpl.
      destruct (dashboardData_of value !! "id") as [[ | | |i| | ]|];
        try exact Hd.
      simpl in Hex. rewrite lookup_insert_ne; [exact Hd|].
      intros ->. congruence. }
    destruct (length_of _); injection Hrun as _ <-; exact Hgoal.
  - unfold delete_dashboard in Hrun.
    destruct (dashboards (store a) !! i) as [existing|] eqn:Hex;
      [|injection Hrun as _ <-; exact Hd].
    destruct (strict_eq (existing !! "userId") _) eqn:Hse; simpl in Hrun;
      [|injection Hrun as _ <-; exact Hd].
    assert (Hne : i <> id) by (intros ->; congruence).
    injection Hrun as _ <-.
    destruct (truthy _ && truthy _); simpl;
      rewrite lookup_delete_ne by exact Hne; exact Hd.
Qed.

Lemma valid_id_truthy (id : string) :
  TopicIdGenerator.validateTopicId id = true ->
  truthy (Some (JString id)) = true.
Proof.
  unfold TopicIdGenerator.validateTopicId. intros H.
  apply andb_true_iff in H as [H _]. destruct id; [discriminate H | reflexivity].
Qed.

(** X18.  Save has no ownership check: a save whose body carries a
    well-formed id stores the new dashboard under that id, owned by the
    caller, unpublished and without a [shareableId], whatever was stored
    there and whoever owned it; the shared-dashboard map, and so any
    snapshot of the replaced dashboard, stays, and no id is generated. *)
Theorem save_replaces_dashboard_of_any_owner
    (u : jsval) (body value : json) (id createdAt updatedAt : string)
    (a : app) :
  is_null body = false ->
  validate saveDashboardSchema body = inr value ->
  conforms saveDashboardSchema value = true ->
  members value !! "id" = Some (JString id) ->
  TopicIdGenerator.validateTopicId id = true ->
  exists (res : response) (a' : app) (d : obj),
    save u body createdAt updatedAt a = Some (res, a')
    /\ dashboards (store a') !! id = Some d
    /\ d !! "userId" = Some (userId_of u)
    /\ d !! "isPublished" = Some (JBool false)
    /\ d !! "shareableId" = None
    /\ sharedDashboards (store a') = sharedDashboards (store a)
    /\ topicIds a' = topicIds a.
Proof.
  intros Hb Hv Hc Hid Hvalid.
  unfold DashboardRoutes.save. rewrite Hb, Hv. cbv zeta.
  rewrite Hid, (valid_id_truthy id Hvalid), Hvalid. cbn [negb].
  set (d := <["isPublished" := JBool false]>
            (<["updatedAt" := JString updatedAt]>
            (<["createdAt" := JString createdAt]>
            (<["userId" := userId_of u]>
            (<["id" := JString id]> (members value)))))).
  assert (H1 : d !! "userId" = Some (userId_of u)).
  { unfold d. rewrite !lookup_insert_ne by discriminate.
    apply lookup_insert_eq. }
  assert (H2 : d !! "isPublished" = Some (JBool false))
    by apply lookup_insert_eq.
  assert (H3 : d !! "shareableId" = None).
  { unfold d. rewrite !lookup_insert_ne by discriminate.
    apply (conforms_save_keys value _ Hc). vm_compute. set_solver. }
  destruct (length_of (d !! "widgets"));
    eexists _, _, d; (split; [reflexivity|]); simpl;
    (split; [apply lookup_insert_eq|]); auto.
Qed.

(** ** The keys of the dashboard map *)

Lemma generateTopicId_valid (st st' : TopicIdGenerator.state) (id : string) :
  TopicIdGenerator.generateTopicId w fuel st = Some (id, st') ->
  TopicIdGenerator.validateTopicId id = true.
Proof.
  unfold TopicIdGenerator.generateTopicId.
  destruct (TopicIdGenerator.attempt_loop w fuel TopicIdGenerator.maxAttempts 0 st)
    as [[c s1]|] eqn:E; [|discriminate].
  pose proof (TopicIdGeneratorProps.attempt_loop_digits _ _ _ _ _ _ _ E) as Hc.
  pose proof (TopicIdGeneratorProps.crypto_fallback_ok w s1) as Hf.
  destruct (TopicIdGenerator.usedIds_has c (TopicIdGenerator.usedIds s1));
    [destruct (TopicIdGenerator.crypto_fallback w s1) as [c' s2]; simpl in Hf|];
    intros H; injection H as <- _; unfold TopicIdGenerator.validateTopicId;
    rewrite TopicIdGeneratorProps.length_fix_length,
      TopicIdGeneratorProps.all_digits_fix_length by assumption; reflexivity.
Qed.

Lemma handle_keeps_keys (r : request) (a a' : app) (res : response) :
  keys_are_ids a -> handle r a = Some (res, a') -> keys_are_ids a'.
Proof.
  intros Hinv Hrun. destruct r as [u b c t | i u b t | u b e | i u];
    simpl in Hrun.
  - unfold DashboardRoutes.save in Hrun.
    destruct (is_null b); [injection Hrun as _ <-; exact Hinv|].
    destruct (validate saveDashboardSchema b) as [msg|value];
      [injection Hrun as _ <-; exact Hinv|].
    cbv zeta in Hrun.
    match type of Hrun with
    | match ?g with _ => _ end = _ =>
        destruct g as [[id ids]|] eqn:Eg; [|discriminate]
    end.
    assert (Hvalid : TopicIdGenerator.validateTopicId id = true).
    { destruct (negb (truthy (members value !! "id")));
        [exact (generateTopicId_valid _ _ _ Eg)|].
      destruct (members value !! "id") as [[ | | |i0| | ]|];
        try exact (generateTopicId_valid _ _ _ Eg).
      destruct (TopicIdGenerator.validateTopicId i0) eqn:Ei;
        [injection Eg as <- _; exact Ei
        | exact (generateTopicId_valid _ _ _ Eg)]. }
    assert (Hgoal : forall s0,
      keys_are_ids
        {| store := with_dashboards (store a)
             (<[id := <["isPublished" := JBool false]>
                      (<["updatedAt" := JString t]>
                      (<["createdAt" := JString c]>
                      (<["userId" := userId_of u]>
                      (<["id" := JString id]> (members value)))))]>
                (dashboards (store a)));
           topicIds := s0 |}).
    { intros s0 k d Hd. simpl in Hd.
      apply lookup_insert_Some in Hd as [[<- <-]|[_ Hd]];
        [|exact (Hinv k d Hd)].
      split; [exact Hvalid|].
      rewrite !lookup_insert_ne by discriminate. apply lookup_insert_eq. }
    destruct (length_of _); injection Hrun as _ <-; apply Hgoal.
  - injection Hrun as Hrun. unfold DashboardRoutes.update in Hrun.
    destruct (is_null b); [injection Hrun as _ <-; exact Hinv|].
    destruct (validate saveDashboardSchema b) as [msg|value];
      [injection Hrun as _ <-; exact Hinv|].
    destruct (dashboards (store a) !! i) as [existing|] eqn:Hex;
      [|injection Hrun as _ <-; exact Hinv].
    destruct (negb (strict_eq (existing !! "userId") _));
      [injection Hrun as _ <-; exact Hinv|].
    assert (Hgoal : keys_are_ids
      (with_store a (with_dashboards (store a)
         (<[i := <["updatedAt" := JString t]>
                 (<["userId" := userId_of u]>
                 (<["id" := JString i]>
                 (spread existing (members value))))]> (dashboards (store a)))))).
    { intros k d Hd. simpl in Hd.
      apply lookup_insert_Some in Hd as [[<- <-]|[_ Hd]];
        [|exact (Hinv k d Hd)].
      split; [exact (proj1 (Hinv i existing Hex))|].
      rewrite !lookup_insert_ne by discriminate. apply lookup_insert_eq. }
    destruct (length_of _); injection Hrun as _ <-; exact Hgoal.
  - injection Hrun as Hrun. unfold DashboardRoutes.publish in Hrun.
    destruct (is_null b); [injection Hrun as _ <-; exact Hinv|].
    destruct (validate publishDashboardSchema b) as [msg|value];
      [injection Hrun as _ <-; exact Hinv|].
    cbv zeta in Hrun.
    destruct (get_key _ (dashboards (store a))) as [existing|] eqn:Hex;
      [|injection Hrun as _ <-; exact Hinv].
    destruct (negb (strict_eq (existing !! "userId") _));
      [injection Hrun as _ <-; exact Hinv|].
    assert (Hgoal : keys_are_ids
      (with_store a (store_published e existing (dashboardData_of value) (store a)))).
    { intros k d Hd. unfold store_published in Hd. simpl in Hd.
      destruct (dashboardData_of value !! "id") as [[ | | |i| | ]|] eqn:Ei;
        try exact (Hinv k d Hd).
      simpl in Hex.
      apply lookup_insert_Some in Hd as [[<- <-]|[_ Hd]];
        [|exact (Hinv k d Hd)].
      split; [exact (proj1 (Hinv i existing Hex))|].
      unfold publishedDashboard_of, spread.
      rewrite !lookup_insert_ne by discriminate.
      apply lookup_union_Some_l. exact Ei. }
    destruct (length_of _); injection Hrun as _ <-; exact Hgoal.
  - injection Hrun as Hrun. unfold delete_dashboard in Hrun.
    destruct (dashboards (store a) !! i) as [existing|];
      [|injection Hrun as _ <-; exact Hinv].
    destruct (negb (strict_eq (existing !! "userId") _));
      injection Hrun as _ <-; [exact Hinv|].
    intros k d Hd.
    assert (Hd' : delete i (dashboards (store a)) !! k = Some d)
      by (destruct (truthy _ && truthy _); exact Hd).
    apply lookup_delete_Some in Hd' as [_ Hd'].
    exact (Hinv k d Hd').
Qed.

(** X19.  In every state the routes can reach, each dashboard is stored
    under a key of 15 decimal digits, and that key is the dashboard's own
    [id]. *)
Theorem stored_dashboards_are_keyed_by_their_id
    (a : app) (k : string) (d : obj) :
  reachable a ->
  dashboards (store a) !! k = Some d ->
  TopicIdGenerator.validateTopicId k = true
  /\ d !! "id" = Some (JString k).
Proof.
  intros Hreach. revert k d.
  induction Hreach as [|r a a' res _ IH Hrun].
  - intros k d Hd. simpl in Hd. rewrite lookup_empty in Hd. discriminate.
  - exact (handle_keeps_keys r a a' res IH Hrun).
Qed.

(** ** Update *)

(** X20.  A successful update keeps the dashboard under its id, with that
    id even when the body names another one, keeps its creation time and
    everything a publish has set, takes the widgets of the request, and
    leaves every other dashboard alone. *)
Theorem update_keeps_identity_and_publish_data
    (dashboardId : string) (u : jsval) (body : json) (updatedAt : string)
    (a a' : app) (res : response) :
  (forall sch b v, validate sch b = inr v -> conforms sch v = true) ->
  update dashboardId u body updatedAt a = (res, a') ->
  status res = 200%Z ->
  exists (existing updated : obj) (value : json),
    validate saveDashboardSchema body = inr value
    /\ dashboards (store a) !! dashboardId = Some existing
    /\ dashboards (store a') !! dashboardId = Some updated
    /\ updated !! "id" = Some (JString dashboardId)
    /\ updated !! "widgets" = members value !! "widgets"
    /\ updated !! "createdAt" = existing !! "createdAt"
    /\ updated !! "isPublished" = existing !! "isPublished"
    /\ updated !! "shareableId" = existing !! "shareableId"
    /\ updated !! "sharePassword" = existing !! "sharePassword"
    /\ (forall other, other <> dashboardId ->
          dashboards (store a') !! other = dashboards (store a) !! other).
Proof.
  intros Hcontract Hrun Hok. unfold DashboardRoutes.update in Hrun.
  destruct (is_null body); [injection Hrun as <- _; discriminate Hok|].
  destruct (validate saveDashboardSchema body) as [msg|value] eqn:Ev;
    [injection Hrun as <- _; discriminate Hok|].
  pose proof (Hcontract _ _ _ Ev) as Hc.
  destruct (dashboards (store a) !! dashboardId) as [existing|] eqn:Hex;
    [|injection Hrun as <- _; discriminate Hok].
  destruct (negb (strict_eq (existing !! "userId") _));
    [injection Hrun as <- _; discriminate Hok|].
  destruct (length_of _); [|injection Hrun as <- _; discriminate Hok].
  injection Hrun as _ <-.
  destruct value as [ | | | | |m]; try discriminate Hc.
  destruct (conforms_required _ m "widgets" (array_ (Some widgetSchema)) Hc)
    as (ws & Hws & _); [simpl; auto|].
  eexists existing, _, (JObject m). simpl.
  split; [reflexivity|]. split; [reflexivity|].
  split; [apply lookup_insert_eq|].
  split; [rewrite !lookup_insert_ne by discriminate; apply lookup_insert_eq|].
  split.
  { rewrite !lookup_insert_ne by discriminate. unfold spread.
    rewrite Hws. apply lookup_union_Some_l. exact Hws. }
  repeat split;
    try (rewrite !lookup_insert_ne by discriminate;
         apply (spread_keeps existing (JObject m)),
           (conforms_save_keys (JObject m) _ Hc);
         vm_compute; set_solver).
  intros other Hne. apply lookup_insert_ne. congruence.
Qed.

(** ** Publish *)

(** X21.  After a successful publish the snapshot can be read under the
    returned shareable id with the returned password; a non-empty string
    that is not the password is refused with 401. *)
Theorem published_snapshot_opens_with_returned_password
    (u : jsval) (body : json) (e : publish_env) (a a' : app) (res : response) :
  (forall sch b v, validate sch b = inr v -> conforms sch v = true) ->
  publish u body e a = (res, a') ->
  status res = 200%Z ->
  exists snapshot : obj,
    get_shared (shareableId_of e) (Some (JString (random_password e))) a'
      = {| status := 200;
           body := <["success" := JBool true]>
                   {["dashboard" := JObject snapshot]} |}
    /\ snapshot !! "sharePassword" = Some (JString (random_password e))
    /\ snapshot !! "panelId" = Some (JString (shareableId_of e))
    /\ (forall guess : string,
          guess <> "" -> guess <> random_password e ->
          status (get_shared (shareableId_of e) (Some (JString guess)) a')
          = 401%Z).
Proof.
  intros Hcontract Hrun Hok.
  destruct (publish_ok validate Hcontract _ _ _ _ _ _ Hrun Hok)
    as (m & existing & id & ws & Hv & Hid & Hws & Hex & ->).
  set (snapshot := sharedDashboardData e
         (publishedDashboard_of e existing (dashboardData_of (JObject m)))
         (dashboardData_of (JObject m) !! "id")).
  assert (Hlook : sharedDashboards
                    (store (with_store a
                       (store_published e existing
                          (dashboardData_of (JObject m)) (store a))))
                    !! shareableId_of e = Some snapshot)
    by apply lookup_insert_eq.
  assert (Hpw : snapshot !! "sharePassword"
                = Some (JString (random_password e))).
  { unfold snapshot, sharedDashboardData.
    repeat match goal with
    | |- context [set_prop _ (js_or ?x (Some ?y))] =>
        destruct (js_or_default x y) as [? ->]
    end.
    destruct (dashboardData_of (JObject m) !! "id");
      destruct (publishedDashboard_of e existing
                  (dashboardData_of (JObject m)) !! "publishedAt");
      simpl;
      repeat first [ rewrite lookup_insert_ne by discriminate
                   | rewrite lookup_delete_ne by discriminate ];
      apply lookup_insert_eq. }
  assert (Hpanel : snapshot !! "panelId" = Some (JString (shareableId_of e)))
    by apply lookup_insert_eq.
  exists snapshot. unfold get_shared. rewrite Hlook, Hpw.
  split.
  { simpl. rewrite String.eqb_refl, andb_false_r. reflexivity. }
  split; [reflexivity|]. split; [exact Hpanel|].
  intros guess Hne Hwrong. simpl.
  destruct (String.eqb_spec guess ""); [contradiction|].
  destruct (String.eqb_spec guess (random_password e)); [contradiction|].
  reflexivity.
Qed.

Lemma publish_shared_frame
    (u : jsval) (body : json) (e : publish_env) (a : app) (sid : string) :
  sid <> shareableId_of e ->
  sharedDashboards (store (snd (publish u body e a))) !! sid
  = sharedDashboards (store a) !! sid.
Proof.
  intros Hne. unfold DashboardRoutes.publish.
  destruct (is_null body); [reflexivity|].
  destruct (validate publishDashboardSchema body); [reflexivity|].
  cbv zeta.
  destruct (get_key _ (dashboards (store a))); [|reflexivity].
  destruct (negb (strict_eq _ _)); [reflexivity|].
  destruct (length_of _); simpl; apply lookup_insert_ne; congruence.
Qed.

(** X22.  Publishing again leaves the earlier snapshot in place, and
    deleting the dashboard removes only the snapshot of its latest publish:
    a snapshot stored under an id other than the latest shareable id is
    still in the shared-dashboard map after the dashboard is gone. *)
Theorem earlier_snapshot_outlives_dashboard
    (u u' : jsval) (body : json) (e : publish_env)
    (a a1 a2 : app) (res res' : response) (old : string) (snapshot : obj) :
  (forall sch b v, validate sch b = inr v -> conforms sch v = true) ->
  sharedDashboards (store a) !! old = Some snapshot ->
  old <> shareableId_of e ->
  publish u body e a = (res, a1) ->
  status res = 200%Z ->
  forall id : string,
    (exists v, validate publishDashboardSchema body = inr v
               /\ members v !! "id" = Some (JString id)) ->
    delete_dashboard id u' a1 = (res', a2) ->
    sharedDashboards (store a2) !! old = Some snapshot.
Proof.
  intros Hcontract Hold Hne Hrun Hok id (v & Hv & Hvid) Hdel.
  destruct (publish_ok validate Hcontract _ _ _ _ _ _ Hrun Hok)
    as (m & existing & id' & ws & Hv' & Hid & Hws & Hex & ->).
  rewrite Hv in Hv'. injection Hv' as ->. simpl in Hvid.
  rewrite Hid in Hvid. injection Hvid as ->.
  assert (Hd : dashboards
                 (store (with_store a
                    (store_published e existing
                       (dashboardData_of (JObject m)) (store a)))) !! id
               = Some (publishedDashboard_of e existing
                         (dashboardData_of (JObject m)))).
  { unfold store_published. rewrite dashboardData_id, Hid. simpl.
    apply lookup_insert_eq. }
  assert (Hs1 : sharedDashboards
                  (store (with_store a
                     (store_published e existing
                        (dashboardData_of (JObject m)) (store a)))) !! old
                = Some snapshot).
  { simpl. rewrite lookup_insert_ne by congruence. exact Hold. }
  unfold delete_dashboard in Hdel. rewrite Hd in Hdel.
  destruct (negb (strict_eq _ _)); [injection Hdel as _ <-; exact Hs1|].
  injection Hdel as _ <-.
  assert (Hsid : publishedDashboard_of e existing
                   (dashboardData_of (JObject m)) !! "shareableId"
                 = Some (JString (shareableId_of e))).
  { unfold publishedDashboard_of. rewrite lookup_insert_ne by discriminate.
    apply lookup_insert_eq. }
  rewrite Hsid.
  destruct (truthy _ && truthy _); simpl.
  - rewrite lookup_delete_ne by congruence.
    rewrite lookup_insert_ne by congruence. exact Hold.
  - rewrite lookup_insert_ne by congruence. exact Hold.
Qed.

(** ** Save and read *)

Lemma userId_of_self_equal (u : jsval) :
  plain_user u -> strict_eq (Some (userId_of u)) (Some (userId_of u)) = true.
Proof.
  intros [->|[s ->]]; [reflexivity|].
  unfold userId_of, js_or. destruct (truthy (Some (JString s)));
    simpl; rewrite ?String.eqb_refl; reflexivity.
Qed.

Lemma lookup_set_prop_eq (k : string) (v : jsval) (o : obj) :
  set_prop k v o !! k = v.
Proof.
  destruct v; simpl; [apply lookup_insert_eq | apply lookup_delete_eq].
Qed.

Lemma lookup_set_prop_ne (k k' : string) (v : jsval) (o : obj) :
  k <> k' -> set_prop k v o !! k' = o !! k'.
Proof.
  intros H. destruct v; simpl;
    [apply lookup_insert_ne | apply lookup_delete_ne]; exact H.
Qed.

(** X23.  A dashboard that was saved with success can be read back by the
    same caller under the id of the response: the read answers 200 with the
    name and the widgets of the request, unpublished. *)
Theorem saved_dashboard_reads_back
    (u : jsval) (b : json) (createdAt updatedAt : string)
    (a a' : app) (res : response) :
  plain_user u ->
  save u b createdAt updatedAt a = Some (res, a') ->
  status res = 200%Z ->
  exists (value : json) (id : string) (summary_ read : obj),
    validate saveDashboardSchema b = inr value
    /\ body res !! "dashboard" = Some (JObject summary_)
    /\ summary_ !! "id" = Some (JString id)
    /\ TopicIdGenerator.validateTopicId id = true
    /\ status (get_dashboard id u a') = 200%Z
    /\ body (get_dashboard id u a') !! "dashboard" = Some (JObject read)
    /\ read !! "id" = Some (JString id)
    /\ read !! "name" = members value !! "name"
    /\ read !! "widgets" = members value !! "widgets"
    /\ read !! "isPublished" = Some (JBool false).
Proof.
  intros Hu Hrun Hok. unfold DashboardRoutes.save in Hrun.
  destruct (is_null b); [injection Hrun as <- _; discriminate Hok|].
  destruct (validate saveDashboardSchema b) as [msg|value] eqn:Ev;
    [injection Hrun as <- _; discriminate Hok|].
  cbv zeta in Hrun.
  match type of Hrun with
  | match ?g with _ => _ end = _ =>
      destruct g as [[id ids]|] eqn:Eg; [|discriminate]
  end.
  assert (Hvalid : TopicIdGenerator.validateTopicId id = true).
  { destruct (negb (truthy (members value !! "id")));
      [exact (generateTopicId_valid _ _ _ Eg)|].
    destruct (members value !! "id") as [[ | | |i0| | ]|];
      try exact (generateTopicId_valid _ _ _ Eg).
    destruct (TopicIdGenerator.validateTopicId i0) eqn:Ei;
      [injection Eg as <- _; exact Ei
      | exact (generateTopicId_valid _ _ _ Eg)]. }
  set (d := <["isPublished" := JBool false]>
            (<["updatedAt" := JString updatedAt]>
            (<["createdAt" := JString createdAt]>
            (<["userId" := userId_of u]>
            (<["id" := JString id]> (members value)))))) in *.
  destruct (length_of (d !! "widgets")) as [wc|];
    [|injection Hrun as <- _; discriminate Hok].
  injection Hrun as <- <-.
  assert (Hid : d !! "id" = Some (JString id)).
  { unfold d. rewrite !lookup_insert_ne by discriminate.
    apply lookup_insert_eq. }
  assert (Hown : d !! "userId" = Some (userId_of u)).
  { unfold d. rewrite !lookup_insert_ne by discriminate.
    apply lookup_insert_eq. }
  assert (Hname : d !! "name" = members value !! "name").
  { unfold d. rewrite !lookup_insert_ne by discriminate. reflexivity. }
  assert (Hwid : d !! "widgets" = members value !! "widgets").
  { unfold d. rewrite !lookup_insert_ne by discriminate. reflexivity. }
  assert (Hpub : d !! "isPublished" = Some (JBool false))
    by apply lookup_insert_eq.
  exists value, id. unfold get_dashboard. simpl. rewrite lookup_insert_eq.
  rewrite Hown, (userId_of_self_equal u Hu). simpl.
  eexists _, _.
  split; [reflexivity|]. split; [reflexivity|].
  split; [unfold summary; rewrite lookup_set_prop_eq; exact Hid|].
  split; [exact Hvalid|]. split; [reflexivity|]. split; [reflexivity|].
  split; [rewrite lookup_set_prop_eq; exact Hid|].
  split; [rewrite lookup_set_prop_ne, lookup_set_prop_eq by discriminate;
          exact Hname|].
  split; [rewrite !lookup_set_prop_ne, lookup_set_prop_eq by discriminate;
          exact Hwid|].
  rewrite !lookup_set_prop_ne by discriminate.
  rewrite lookup_set_prop_eq. exact Hpub.
Qed.

End Routes.

End DashboardRoutesMore.


Module AuthRoutesMore.

Import Joi Storage AuthRoutes.

Section Routes.

Variable validate : schema -> json -> string + json.
Variable toLowerCase : string -> string.

Local Abbreviation request_reset := (request_reset validate toLowerCase).
Local Abbreviation reset_password := (reset_password validate toLowerCase).
Local Abbreviation validate_reset_token := (validate_reset_token toLowerCase).

Lemma Z_gtb_true (a b : Z) : (b < a)%Z -> (a >? b)%Z = true.
Proof. intros H. rewrite Z.gtb_ltb. apply Z.ltb_lt. exact H. Qed.

(** X24.  A token issued by a successful reset request is accepted by a
    reset with the same email, in any letter case, up to and including 24
    hours after the request; one millisecond later it is refused as
    expired and removed from the store. *)
Theorem issued_token_is_good_for_one_day
    (body1 value1 body2 value2 : json) (ip token email1 email2 : string)
    (now now2 : Z) (createdAt usedAt : string) (s : storage) :
  is_null body1 = false ->
  validate requestResetSchema body1 = inr value1 ->
  members value1 !! "email" = Some (JString email1) ->
  is_null body2 = false ->
  validate resetPasswordSchema body2 = inr value2 ->
  members value2 !! "token" = Some (JString token) ->
  members value2 !! "email" = Some (JString email2) ->
  toLowerCase email2 = toLowerCase email1 ->
  let s1 := snd (request_reset body1 ip token now createdAt Sent s) in
  status (fst (request_reset body1 ip token now createdAt Sent s)) = 200%Z
  /\ ((now2 <= now + 86400000)%Z ->
      status (fst (reset_password body2 now2 usedAt s1)) = 200%Z)
  /\ ((now + 86400000 < now2)%Z ->
      fst (reset_password body2 now2 usedAt s1)
        = failure 400 "Reset token has expired. Please request a new one."
      /\ resetTokens (snd (reset_password body2 now2 usedAt s1)) !! token
         = None).
Proof.
  intros Hb1 Hv1 He1 Hb2 Hv2 Ht2 He2 Hlow.
  unfold AuthRoutes.request_reset. rewrite Hb1, Hv1, He1. simpl.
  split; [reflexivity|].
  unfold AuthRoutes.reset_password. rewrite Hb2, Hv2, He2, Ht2. simpl.
  rewrite lookup_insert_eq. simpl. split.
  - intros Hle. rewrite Z_gtb_false by lia. simpl.
    rewrite Hlow, String.eqb_refl. reflexivity.
  - intros Hgt. rewrite Z_gtb_true by lia. simpl.
    split; [reflexivity | apply lookup_delete_eq].
Qed.

(** X25.  A well-formed reset attempt with an expired token is refused as
    expired and deletes the token, so that the next well-formed attempt
    with that token, whenever it comes, is refused as invalid and changes
    nothing. *)
Theorem expired_token_is_deleted_on_use
    (s : storage) (t : string) (d : TokenData) (x1 x2 : attempt) :
  resetTokens s !! t = Some d ->
  (expiry d < attempt_now x1)%Z ->
  well_formed_with validate t x1 ->
  well_formed_with validate t x2 ->
  let '(r1, s1) :=
    reset_password (attempt_body x1) (attempt_now x1) (attempt_usedAt x1) s in
  r1 = failure 400 "Reset token has expired. Please request a new one."
  /\ resetTokens s1 = delete t (resetTokens s)
  /\ reset_password (attempt_body x2) (attempt_now x2) (attempt_usedAt x2) s1
     = (failure 400 "Invalid or expired reset token", s1).
Proof.
  intros Hd Hexp (v1 & e1 & Hn1 & Hv1 & Ht1 & He1)
         (v2 & e2 & Hn2 & Hv2 & Ht2 & He2).
  assert (Hb1 : is_null (attempt_body x1) = false)
    by (destruct (attempt_body x1); try reflexivity; contradiction).
  assert (Hb2 : is_null (attempt_body x2) = false)
    by (destruct (attempt_body x2); try reflexivity; contradiction).
  unfold AuthRoutes.reset_password.
  rewrite Hb1, Hv1, He1, Ht1. simpl. rewrite Hd, Z_gtb_true by lia.
  split; [reflexivity|]. split; [reflexivity|].
  rewrite Hb2, Hv2, He2, Ht2. simpl. rewrite lookup_delete_eq. reflexivity.
Qed.

(** X26.  Validating a token does not use it up, and it answers 200
    exactly when a well-formed reset with the same token and email at the
    same time would succeed; when it answers 200 the store is unchanged. *)
Theorem validation_agrees_with_reset
    (s : storage) (body value : json) (t e : string) (now : Z)
    (usedAt : string) :
  is_null body = false ->
  validate resetPasswordSchema body = inr value ->
  members value !! "token" = Some (JString t) ->
  members value !! "email" = Some (JString e) ->
  t <> "" -> e <> "" ->
  (status (fst (validate_reset_token (Some (JString t)) (Some (JString e)) now s))
     = 200%Z
   <-> status (fst (reset_password body now usedAt s)) = 200%Z)
  /\ (status (fst (validate_reset_token (Some (JString t)) (Some (JString e))
                     now s)) = 200%Z ->
      snd (validate_reset_token (Some (JString t)) (Some (JString e)) now s)
      = s).
Proof.
  intros Hb Hv Ht He Htne Hene.
  unfold AuthRoutes.validate_reset_token, AuthRoutes.reset_password.
  rewrite Hb, Hv, He, Ht. simpl.
  destruct (String.eqb_spec t ""); [contradiction|].
  destruct (String.eqb_spec e ""); [contradiction|]. simpl.
  destruct (resetTokens s !! t) as [d|]; simpl;
    [|split; [split|]; intros H; discriminate H].
  destruct (now >? expiry d)%Z; simpl;
    [split; [split|]; intros H; discriminate H|].
  destruct (used d); simpl;
    [split; [split|]; intros H; discriminate H|].
  destruct (negb (email d =? toLowerCase e)%string); simpl;
    [split; [split|]; intros H; discriminate H|].
  split; [split|]; reflexivity.
Qed.

(** X27.  A reset attempt that does not succeed never changes a token:
    every token that is in the store afterwards was there before with the
    same data, so that an attempt with the wrong email, for one, does not
    use the token up; nor does it touch the other maps of the store. *)
Theorem failed_reset_alters_no_token
    (body : json) (now : Z) (usedAt : string) (s s' : storage)
    (res : response) :
  reset_password body now usedAt s = (res, s') ->
  status res <> 200%Z ->
  (forall t d, resetTokens s' !! t = Some d -> resetTokens s !! t = Some d)
  /\ dashboards s' = dashboards s
  /\ sharedDashboards s' = sharedDashboards s.
Proof.
  intros Hrun Hst. unfold AuthRoutes.reset_password in Hrun.
  assert (Hsame : (forall t d, resetTokens s !! t = Some d ->
                               resetTokens s !! t = Some d)
                  /\ dashboards s = dashboards s
                  /\ sharedDashboards s = sharedDashboards s) by auto.
  destruct (is_null body); [injection Hrun as _ <-; exact Hsame|].
  destruct (validate resetPasswordSchema body) as [msg|value];
    [injection Hrun as _ <-; exact Hsame|].
  destruct (members value !! "email") as [[ | | |email| | ]|];
    try (injection Hrun as _ <-; exact Hsame).
  destruct (get_key _ (resetTokens s)) as [d0|];
    [|injection Hrun as _ <-; exact Hsame].
  destruct (now >? expiry d0)%Z.
  { injection Hrun as _ <-. simpl. split; [|auto].
    intros t d Hd. unfold delete_key in Hd.
    destruct (members value !! "token") as [[ | | |t0| | ]|]; try exact Hd.
    apply lookup_delete_Some in Hd as [_ Hd]. exact Hd. }
  destruct (used d0); [injection Hrun as _ <-; exact Hsame|].
  destruct (negb (Storage.email d0 =? toLowerCase email)%string);
    [injection Hrun as _ <-; exact Hsame|].
  injection Hrun as <- _. contradiction Hst. reflexivity.
Qed.

(** X28.  A reset request changes no token but the one it issues: earlier
    tokens, also those of the same email, stay valid.  The new token is
    stored unused with an expiry 24 hours ahead when the mail was sent, and
    is absent from the store when the mail could not be sent. *)
Theorem reset_request_touches_only_its_token
    (body value : json) (ip token email : string) (now : Z)
    (createdAt : string) (mail : email_result) (s : storage) :
  is_null body = false ->
  validate requestResetSchema body = inr value ->
  members value !! "email" = Some (JString email) ->
  let s' := snd (request_reset body ip token now createdAt mail s) in
  (forall t, t <> token -> resetTokens s' !! t = resetTokens s !! t)
  /\ (mail = NotSent -> resetTokens s' !! token = None)
  /\ (mail = Sent ->
      exists d, resetTokens s' !! token = Some d
                /\ used d = false
                /\ expiry d = (now + 86400000)%Z
                /\ Storage.email d = toLowerCase email).
Proof.
  intros Hb Hv He. unfold AuthRoutes.request_reset. rewrite Hb, Hv, He.
  destruct mail; simpl; (split; [|split]); try discriminate.
  - intros t Hne. apply lookup_insert_ne. congruence.
  - intros _. eexists. split; [apply lookup_insert_eq|]. auto.
  - intros t Hne. rewrite lookup_delete_ne, lookup_insert_ne by congruence.
    reflexivity.
  - intros _. apply lookup_delete_eq.
  - intros t Hne. apply lookup_insert_ne. congruence.
Qed.

End Routes.

End AuthRoutesMore.

(* ===================================================================== *)
(** * The further properties at sample inputs                             *)
(* ===================================================================== *)

Module WSServiceMoreSamples.

Import MQTTService WSService WSServiceMore.

Lemma connection_receives_declared_topics_witness :
  exists (clients' : list socket) (ws' : socket),
    on_mqtt_message Samples.stringify_sample Samples.sample_record
        (on_connection ["a/b"] (Samples.open_socket []) {| wss := Some [] |})
      = (Return tt, {| wss := Some clients' |})
    /\ clients' !! 0%nat = Some ws'
    /\ sent ws' = ["mqtt:a/b"].
Proof.
  destruct (connection_receives_declared_topics Samples.stringify_sample
              {| wss := Some [] |} [] ["a/b"] (Samples.open_socket [])
              Samples.sample_record eq_refl eq_refl)
    as (clients' & ws' & H1 & H2 & H3).
  exists clients', ws'. split; [exact H1|]. split; [exact H2|].
  apply (proj2 H3). right. left. reflexivity.
Defined.

Lemma subscribe_message_adds_topic_witness :
  exists subs' : list json,
    on_ws_message Samples.parse_control
        (Samples.control_text "subscribe" "a/b") (Samples.open_socket [])
      = (Return tt, Samples.open_socket subs')
    /\ set_has (JString "a/b") subs' = true.
Proof.
  destruct (subscribe_message_adds_topic Samples.parse_control
              (Samples.control_text "subscribe" "a/b")
              (Samples.control_value "subscribe" "a/b") "a/b"
              (Samples.open_socket []) [])
    as (subs' & H1 & H2 & _).
  - vm_compute. reflexivity.
  - vm_compute. reflexivity.
  - vm_compute. reflexivity.
  - discriminate.
  - reflexivity.
  - exists subs'. split; [exact H1 | exact H2].
Defined.

Lemma unsubscribe_message_removes_topic_witness :
  exists subs' : list json,
    on_ws_message Samples.parse_control
        (Samples.control_text "unsubscribe" "a/b")
        (Samples.open_socket [JString "a/b"; JString "c/d"])
      = (Return tt, Samples.open_socket subs')
    /\ set_has (JString "a/b") subs' = false.
Proof.
  destruct (unsubscribe_message_removes_topic Samples.parse_control
              (Samples.control_text "unsubscribe" "a/b")
              (Samples.control_value "unsubscribe" "a/b") "a/b"
              (Samples.open_socket [JString "a/b"; JString "c/d"])
              [JString "a/b"; JString "c/d"])
    as (subs' & H1 & H2 & _).
  - vm_compute. reflexivity.
  - vm_compute. reflexivity.
  - vm_compute. reflexivity.
  - discriminate.
  - reflexivity.
  - exists subs'. split; [exact H1 | exact H2].
Defined.

Lemma unsubscribing_last_topic_receives_all_witness :
  subscriptions
    (snd (on_ws_message Samples.parse_control
            (Samples.control_text "unsubscribe" "a/b")
            (Samples.open_socket [JString "a/b"])))
  = Some [].
Proof.
  apply (unsubscribing_last_topic_receives_all Samples.parse_control
           (Samples.control_text "unsubscribe" "a/b")
           (Samples.control_value "unsubscribe" "a/b") "a/b"
           (Samples.open_socket [JString "a/b"]) "frame"
           Samples.sample_record).
  - vm_compute. reflexivity.
  - vm_compute. reflexivity.
  - vm_compute. reflexivity.
  - discriminate.
  - reflexivity.
  - reflexivity.
Defined.

Lemma subscribing_first_topic_narrows_witness :
  delivered "frame" (Samples.open_socket [])
    (snd (deliver "frame" Samples.sample_record (Samples.open_socket []))).
Proof.
  refine (proj1 (subscribing_first_topic_narrows Samples.parse_control
                   (Samples.control_text "subscribe" "a/b")
                   (Samples.control_value "subscribe" "a/b") "a/b"
                   (Samples.open_socket []) "frame" Samples.sample_record
                   _ _ _ _ _ _)).
  - vm_compute. reflexivity.
  - vm_compute. reflexivity.
  - vm_compute. reflexivity.
  - discriminate.
  - reflexivity.
  - reflexivity.
Defined.

End WSServiceMoreSamples.

Module MQTTServiceMoreSamples.

Import Storage MQTTService MQTTRoutes MQTTServiceMore.

Local Abbreviation handle :=
  (handle Samples.parse_sample Samples.stringify_sample Samples.sample_cfg).
Local Abbreviation run :=
  (run Samples.parse_sample Samples.stringify_sample Samples.sample_cfg).

Lemma cache_survives_everything_but_messages_witness :
  latestByTopic (run [EvClose; CallShutdown] Samples.service_with_record)
  = latestByTopic Samples.service_with_record.
Proof.
  apply (cache_survives_everything_but_messages Samples.parse_sample
           Samples.stringify_sample Samples.sample_cfg
           [EvClose; CallShutdown] Samples.service_with_record).
  reflexivity.
Defined.

Lemma unsubscribe_before_connect_is_dropped_witness :
  unsubscribed
    (handle EvConnect
       (run [CallSubscribe "a/b" (JObject ∅); CallUnsubscribe "a/b"] initial))
  = [].
Proof.
  apply (unsubscribe_before_connect_is_dropped Samples.parse_sample
           Samples.stringify_sample Samples.sample_cfg
           [CallSubscribe "a/b" (JObject ∅); CallUnsubscribe "a/b"]).
  reflexivity.
Defined.

Lemma subscribe_during_outage_is_replayed_witness :
  isConnected
    (handle EvConnect
       (run [CallSubscribe "a/b" (JObject ∅)] Samples.service_in_outage))
  = true.
Proof.
  apply (subscribe_during_outage_is_replayed Samples.parse_sample
           Samples.stringify_sample Samples.sample_cfg
           Samples.service_in_outage [CallSubscribe "a/b" (JObject ∅)]).
  - reflexivity.
  - eexists. vm_compute. reflexivity.
  - reflexivity.
Defined.

Lemma shutdown_discards_waiting_requests_witness :
  pending
    (handle EvConnect
       (run [CallConnect; CallSubscribe "c/d" (JObject ∅)]
          (shutdown
             (run [CallSubscribe "a/b" (JObject ∅)] initial))))
  = [].
Proof.
  apply (shutdown_discards_waiting_requests Samples.parse_sample
           Samples.stringify_sample Samples.sample_cfg
           (run [CallSubscribe "a/b" (JObject ∅)] initial)
           [CallSubscribe "c/d" (JObject ∅)]).
  reflexivity.
Defined.

Lemma latest_returns_last_inbound_message_witness :
  status (fst (latest (Some (JString "a/b")) Samples.service_with_record))
  = 200%Z.
Proof.
  exact (f_equal status
           (proj1 (latest_returns_last_inbound_message Samples.parse_sample
                     Samples.stringify_sample Samples.sample_cfg
                     "a/b" "not json" "2026-10-26T00:00:00.055Z" initial
                     ltac:(discriminate)))).
Defined.

End MQTTServiceMoreSamples.

Module DashboardRoutesMoreSamples.

Import Joi Storage DashboardRoutes DashboardQueries DashboardRoutesProps
  DashboardRoutesMore.

Lemma refused_request_changes_nothing_witness :
  snd (delete_dashboard "000000000000000" None Samples.app_saved)
  = Samples.app_saved.
Proof.
  apply (refused_request_changes_nothing validate_strict Samples.steady_host 1
           (Delete "000000000000000" None) Samples.app_saved _
           (fst (delete_dashboard "000000000000000" None Samples.app_saved))).
  - vm_compute. reflexivity.
  - vm_compute. split; [discriminate | reflexivity].
Defined.

Lemma foreign_dashboard_is_protected_witness :
  dashboards
    (store (snd (delete_dashboard Samples.dashboard_id Samples.bob
                   Samples.app_alice))) !! Samples.dashboard_id
  = Some Samples.alice_dashboard.
Proof.
  apply (foreign_dashboard_is_protected validate_strict Samples.steady_host 1
           (Delete Samples.dashboard_id Samples.bob) Samples.app_alice _
           (fst (delete_dashboard Samples.dashboard_id Samples.bob
                   Samples.app_alice))).
  - reflexivity.
  - vm_compute. reflexivity.
  - vm_compute. reflexivity.
  - vm_compute. reflexivity.
Defined.

Lemma save_replaces_dashboard_of_any_owner_witness :
  exists (res : response) (a' : app) (d : obj),
    save validate_strict Samples.steady_host 1 Samples.bob Samples.save_body
      "2026-10-28T00:00:00.000Z" "2026-10-28T00:00:00.000Z" Samples.app_alice
    = Some (res, a')
    /\ dashboards (store a') !! Samples.dashboard_id = Some d
    /\ d !! "userId" = Some (JString "bob").
Proof.
  destruct (save_replaces_dashboard_of_any_owner validate_strict
              Samples.steady_host 1 Samples.bob Samples.save_body
              Samples.save_body Samples.dashboard_id
              "2026-10-28T00:00:00.000Z" "2026-10-28T00:00:00.000Z"
              Samples.app_alice)
    as (res & a' & d & H1 & H2 & H3 & _).
  - reflexivity.
  - vm_compute. reflexivity.
  - vm_compute. reflexivity.
  - vm_compute. reflexivity.
  - vm_compute. reflexivity.
  - exists res, a', d. split; [exact H1|]. split; [exact H2 | exact H3].
Defined.

Lemma stored_dashboards_are_keyed_by_their_id_witness :
  TopicIdGenerator.validateTopicId Samples.dashboard_id = true
  /\ Samples.published_dashboard !! "id" = Some (JString Samples.dashboard_id).
Proof.
  apply (stored_dashboards_are_keyed_by_their_id validate_strict
           Samples.steady_host 1 Samples.app_published Samples.dashboard_id
           Samples.published_dashboard app_published_reachable).
  vm_compute. reflexivity.
Defined.

Lemma update_keeps_identity_and_publish_data_witness :
  exists existing updated : obj,
    dashboards (store Samples.app_published) !! Samples.dashboard_id
      = Some existing
    /\ dashboards
         (store (snd (update validate_strict Samples.dashboard_id None
                        Samples.update_body "2026-10-27T00:00:00.000Z"
                        Samples.app_published))) !! Samples.dashboard_id
       = Some updated
    /\ updated !! "shareableId" = existing !! "shareableId".
Proof.
  destruct (update_keeps_identity_and_publish_data validate_strict
              Samples.dashboard_id None Samples.update_body
              "2026-10-27T00:00:00.000Z" Samples.app_published
              (snd (update validate_strict Samples.dashboard_id None
                      Samples.update_body "2026-10-27T00:00:00.000Z"
                      Samples.app_published))
              (fst (update validate_strict Samples.dashboard_id None
                      Samples.update_body "2026-10-27T00:00:00.000Z"
                      Samples.app_published))
              validate_strict_conforms)
    as (existing & updated & value & _ & H2 & H3 & _ & _ & _ & _ & H8 & _).
  - vm_compute. reflexivity.
  - vm_compute. reflexivity.
  - exists existing, updated. split; [exact H2|]. split; [exact H3 | exact H8].
Defined.

Lemma published_snapshot_opens_with_returned_password_witness :
  exists snapshot : obj,
    get_shared (shareableId_of Samples.env) (Some (JString "AB12CD"))
      Samples.app_published
    = {| status := 200;
         body := <["success" := JBool true]>
                 {["dashboard" := JObject snapshot]} |}.
Proof.
  destruct (published_snapshot_opens_with_returned_password validate_strict
              None Samples.publish_body Samples.env Samples.app_saved
              Samples.app_published
              (fst (publish validate_strict None Samples.publish_body
                      Samples.env Samples.app_saved))
              validate_strict_conforms)
    as (snapshot & H1 & _).
  - vm_compute. reflexivity.
  - vm_compute. reflexivity.
  - exists snapshot. exact H1.
Defined.

Lemma earlier_snapshot_outlives_dashboard_witness :
  sharedDashboards
    (store (snd (delete_dashboard Samples.dashboard_id None
                   Samples.app_republished)))
    !! shareableId_of Samples.env
  = Some Samples.first_snapshot.
Proof.
  refine (earlier_snapshot_outlives_dashboard validate_strict None None
            Samples.publish_body Samples.env2 Samples.app_published
            Samples.app_republished _
            (fst (publish validate_strict None Samples.publish_body
                    Samples.env2 Samples.app_published))
            (fst (delete_dashboard Samples.dashboard_id None
                    Samples.app_republished))
            (shareableId_of Samples.env) Samples.first_snapshot
            validate_strict_conforms _ _ _ _ Samples.dashboard_id _ _).
  - vm_compute. reflexivity.
  - vm_compute. discriminate.
  - vm_compute. reflexivity.
  - vm_compute. reflexivity.
  - exists Samples.publish_body. split; vm_compute; reflexivity.
  - vm_compute. reflexivity.
Defined.

Lemma saved_dashboard_reads_back_witness :
  exists id : string,
    TopicIdGenerator.validateTopicId id = true
    /\ status (get_dashboard id None Samples.app_saved) = 200%Z.
Proof.
  destruct (saved_dashboard_reads_back validate_strict Samples.steady_host 1
              None Samples.save_body "2026-10-25T00:00:00.000Z"
              "2026-10-25T00:00:00.000Z" initial Samples.app_saved
              Samples.save_response)
    as (value & id & summary_ & read & _ & _ & _ & H4 & H5 & _).
  - left. reflexivity.
  - vm_compute. reflexivity.
  - vm_compute. reflexivity.
  - exists id. split; [exact H4 | exact H5].
Defined.

End DashboardRoutesMoreSamples.

Module AuthRoutesMoreSamples.

Import Joi Storage AuthRoutes AuthRoutesMore.

Lemma issued_token_is_good_for_one_day_witness :
  status
    (fst (reset_password validate_strict Samples.lower Samples.reset_body
            1793086400055 "2026-10-27T00:00:00.055Z"
            (snd (request_reset validate_strict Samples.lower
                    Samples.request_body "127.0.0.1" "c0ffee" 1793000000055
                    "2026-10-26T00:00:00.055Z" Sent Storage.empty))))
  = 200%Z.
Proof.
  apply (issued_token_is_good_for_one_day validate_strict Samples.lower
           Samples.request_body Samples.request_body Samples.reset_body
           Samples.reset_body "127.0.0.1" "c0ffee" "Ann@Example.org"
           "Ann@Example.org" 1793000000055 1793086400055
           "2026-10-26T00:00:00.055Z" "2026-10-27T00:00:00.055Z"
           Storage.empty);
    try (vm_compute; reflexivity).
  vm_compute. discriminate.
Defined.

Lemma well_formed_late_attempt :
  well_formed_with validate_strict "c0ffee" Samples.late_attempt.
Proof.
  exists Samples.reset_body, "Ann@Example.org".
  split; [discriminate|]. repeat split; vm_compute; reflexivity.
Defined.

Lemma expired_token_is_deleted_on_use_witness :
  let '(r1, s1) :=
    reset_password validate_strict Samples.lower
      (attempt_body Samples.late_attempt) (attempt_now Samples.late_attempt)
      (attempt_usedAt Samples.late_attempt) Samples.store_with_token in
  r1 = failure 400 "Reset token has expired. Please request a new one."
  /\ resetTokens s1 = delete "c0ffee" (resetTokens Samples.store_with_token)
  /\ reset_password validate_strict Samples.lower
       (attempt_body Samples.late_attempt) (attempt_now Samples.late_attempt)
       (attempt_usedAt Samples.late_attempt) s1
     = (failure 400 "Invalid or expired reset token", s1).
Proof.
  apply (expired_token_is_deleted_on_use validate_strict Samples.lower
           Samples.store_with_token "c0ffee" Samples.token_data
           Samples.late_attempt Samples.late_attempt).
  - vm_compute. reflexivity.
  - vm_compute. reflexivity.
  - exact well_formed_late_attempt.
  - exact well_formed_late_attempt.
Defined.

Lemma validation_agrees_with_reset_witness :
  snd (validate_reset_token Samples.lower (Some (JString "c0ffee"))
         (Some (JString "Ann@Example.org")) 1793000100000
         Samples.store_with_token)
  = Samples.store_with_token.
Proof.
  apply (proj2 (validation_agrees_with_reset validate_strict Samples.lower
                  Samples.store_with_token Samples.reset_body
                  Samples.reset_body "c0ffee" "Ann@Example.org"
                  1793000100000 "2026-10-26T00:01:39.945Z"
                  eq_refl ltac:(vm_compute; reflexivity)
                  ltac:(vm_compute; reflexivity)
                  ltac:(vm_compute; reflexivity)
                  ltac:(discriminate) ltac:(discriminate))).
  vm_compute. reflexivity.
Defined.

Lemma failed_reset_alters_no_token_witness :
  dashboards
    (snd (reset_password validate_strict Samples.lower
            Samples.wrong_email_body 1793000100000
            "2026-10-26T00:01:39.945Z" Samples.store_with_token))
  = dashboards Samples.store_with_token.
Proof.
  apply (failed_reset_alters_no_token validate_strict Samples.lower
           Samples.wrong_email_body 1793000100000 "2026-10-26T00:01:39.945Z"
           Samples.store_with_token _
           (fst (reset_password validate_strict Samples.lower
                   Samples.wrong_email_body 1793000100000
                   "2026-10-26T00:01:39.945Z" Samples.store_with_token))).
  - vm_compute. reflexivity.
  - vm_compute. discriminate.
Defined.

Lemma reset_request_touches_only_its_token_witness :
  resetTokens
    (snd (request_reset validate_strict Samples.lower Samples.request_body
            "127.0.0.1" "c0ffee" 1793000000055 "2026-10-26T00:00:00.055Z"
            NotSent Storage.empty)) !! "c0ffee"
  = None.
Proof.
  apply (reset_request_touches_only_its_token validate_strict Samples.lower
           Samples.request_body Samples.request_body "127.0.0.1" "c0ffee"
           "Ann@Example.org" 1793000000055 "2026-10-26T00:00:00.055Z"
           NotSent Storage.empty eq_refl ltac:(vm_compute; reflexivity)
           ltac:(vm_compute; reflexivity)).
  reflexivity.
Defined.

End AuthRoutesMoreSamples.
